(** * Model lifecycle of the Sales Forecaster backend (app/backend.py)

    A shallow embedding of the serving backend: the three module globals
    [model], [model_version], [model_metadata], the startup loader with its
    local-file fallback, one iteration of the background reload loop, the
    request handlers [predict], [health_check], [compare_models] and
    [reload_model], and an interleaving semantics of a request handler
    running against the reload thread.

    Conventions.
    - Python floats are carried as exact rationals ([Q]); registry version
      tags are carried as their ordinal ([Z]) and [py_str] renders them the
      way [str] / an f-string does.
    - A Python call that can raise returns a [PyResult]; code that touches
      the globals or calls out of the process runs in the monad [M], which
      threads the process state and an exception.
    - Everything the process reads but does not own (environment variables,
      the registry's answers, the local artifact file, the clock) is the
      record [Ext].
    - Log messages keep the source text without the pictographs and without
      numeric formatting. *)

From Stdlib Require Import ZArith QArith Qround Qabs Qpower Lia Lqa Sorted Permutation.
From stdpp Require Import base option list strings pretty gmap.

Local Open Scope string_scope.
Local Open Scope Z_scope.

(** ** Python values *)

Inductive PyResult (A : Type) : Type :=
| Returned (a : A)
| Raised (msg : string).
Arguments Returned {A} a.
Arguments Raised {A} msg.

(** Truthiness of [os.getenv(...)]: set and non-empty. *)
Definition truthy (v : option string) : bool :=
  match v with
  | Some s => negb (String.eqb s "")
  | None => false
  end.

(** [str(v)] on a version ordinal. *)
Definition py_str (v : Z) : string := pretty v.

Definition Qltb (a b : Q) : bool := negb (Qle_bool b a).

(** ** Data model *)

(** class PredictionRequest, after validation. *)
Record PredictionRequest : Type := {
  advertising_spend : Q;
  promotions : Z;
  day_of_week : Z;
  month : Z;
  is_weekend : Z
}.

(** class PredictionResponse. *)
Record PredictionResponse : Type := {
  prediction : Q;
  pr_model_version : string;
  confidence : Q;
  pr_timestamp : string
}.

(** class HealthResponse. *)
Record HealthResponse : Type := {
  status : string;
  model_loaded : bool;
  hr_model_version : string;
  hr_timestamp : string
}.

(** What a handler hands back to the client: a 200 body or an
    HTTPException. *)
Inductive HTTP (A : Type) : Type :=
| OK200 (body : A)
| HTTPError (status_code : Z) (detail : string).
Arguments OK200 {A} body.
Arguments HTTPError {A} status_code detail.

(** The loaded artifact: [model.predict(input_data)[0]]. *)
Definition Artifact : Type := PredictionRequest -> PyResult Q.

(** A registry entry, as the MLflow client returns it. *)
Record ModelVersion : Type := {
  version : Z;
  run_id : string;
  current_stage : string;
  creation_timestamp : Z
}.

(** The [model_metadata] dict; a key is absent when its field is [None]. *)
Record Metadata : Type := {
  md_version : option Z;
  md_run_id : option string;
  md_stage : option string;
  md_created_at : option Z;
  md_source : option string
}.

Definition empty_metadata : Metadata :=
  {| md_version := None; md_run_id := None; md_stage := None;
     md_created_at := None; md_source := None |}.

Definition registry_metadata (v : ModelVersion) : Metadata :=
  {| md_version := Some (version v);
     md_run_id := Some (run_id v);
     md_stage := Some (current_stage v);
     md_created_at := Some (creation_timestamp v);
     md_source := Some "DagsHub MLflow Registry" |}.

Definition local_metadata : Metadata :=
  {| md_version := None; md_run_id := None; md_stage := None;
     md_created_at := None; md_source := Some "local_file" |}.

(** The module globals. *)
Record Globals : Type := {
  model : option Artifact;
  model_version : option string;
  model_metadata : Metadata
}.

Definition initial_globals : Globals :=
  {| model := None; model_version := None; model_metadata := empty_metadata |}.

(** ** Observable effects *)

Inductive Level : Type := INFO | WARNING | ERROR.

Inductive Event : Type :=
| Log (lvl : Level) (msg : string)
| CallRegistryLoad                 (* mlflow.pyfunc.load_model(model_uri) *)
| CallLatestVersions               (* client.get_latest_versions(..., stages=["Production"]) *)
| CallSearchVersions               (* client.search_model_versions(...) *)
| CallGetRun (rid : string)        (* mlflow.get_run(run_id) *)
| CallJoblibLoad                   (* joblib.load(model_path) *)
| CallPredict (req : PredictionRequest)   (* model.predict(input_data) *)
| StartReloadThread.               (* Thread(target=check_for_new_model).start() *)

(** The process state: the globals and the trace of effects, most recent
    first. *)
Record State : Type := {
  globals : Globals;
  trace : list Event
}.

Definition initial_state : State :=
  {| globals := initial_globals; trace := [] |}.

(** What the process reads from outside. *)
Record Ext : Type := {
  MLFLOW_TRACKING_URI : option string;
  MLFLOW_TRACKING_USERNAME : option string;
  MLFLOW_TRACKING_PASSWORD : option string;
  AUTO_RELOAD_ENABLED : bool;
  pyfunc_load_model : PyResult Artifact;
  get_latest_versions : PyResult (list ModelVersion);
  search_model_versions : PyResult (list ModelVersion);
  get_run : string -> PyResult (gmap string Q);
  local_model_file : option (PyResult Artifact);
  now : string
}.

(** ** The state-and-exception monad *)

Definition M (A : Type) : Type := State -> State * PyResult A.

Definition ret {A} (a : A) : M A := fun s => (s, Returned a).

Definition bind {A B} (m : M A) (k : A -> M B) : M B :=
  fun s =>
    match m s with
    | (s', Returned a) => k a s'
    | (s', Raised e) => (s', Raised e)
    end.

Definition raise {A} (e : string) : M A := fun s => (s, Raised e).

(** [try: m  except Exception as e: h e]. *)
Definition try_except {A} (m : M A) (h : string -> M A) : M A :=
  fun s =>
    match m s with
    | (s', Returned a) => (s', Returned a)
    | (s', Raised e) => h e s'
    end.

Notation "x <- m ;; k" := (bind m (fun x => k))
  (at level 100, m at next level, right associativity).
Notation "m ;;; k" := (bind m (fun _ => k))
  (at level 100, right associativity).

Definition emit (e : Event) : M unit :=
  fun s => ({| globals := globals s; trace := e :: trace s |}, Returned tt).

Definition logger (lvl : Level) (msg : string) : M unit := emit (Log lvl msg).

(** An outside call: recorded, then its answer or its exception. *)
Definition call {A} (e : Event) (r : PyResult A) : M A :=
  emit e ;;;
  match r with
  | Returned a => ret a
  | Raised msg => raise msg
  end.

Definition read {A} (f : Globals -> A) : M A :=
  fun s => (s, Returned (f (globals s))).

Definition write (f : Globals -> Globals) : M unit :=
  fun s => ({| globals := f (globals s); trace := trace s |}, Returned tt).

Definition set_model (m : option Artifact) : M unit :=
  write (fun g => {| model := m; model_version := model_version g;
                     model_metadata := model_metadata g |}).

Definition set_model_version (v : option string) : M unit :=
  write (fun g => {| model := model g; model_version := v;
                     model_metadata := model_metadata g |}).

Definition set_model_metadata (md : Metadata) : M unit :=
  write (fun g => {| model := model g; model_version := model_version g;
                     model_metadata := md |}).

Definition is_some {A} (o : option A) : bool :=
  match o with Some _ => true | None => false end.

(** ** Loading *)

(** def load_local_model() *)
Definition load_local_model (x : Ext) : M unit :=
  match local_model_file x with
  | Some file =>
      m <- call CallJoblibLoad file ;;
      set_model (Some m) ;;;
      set_model_version (Some "Local File") ;;;
      set_model_metadata local_metadata ;;;
      logger INFO "Model loaded from: ../models/trained/model.pkl"
  | None =>
      logger ERROR "No local model found!" ;;;
      set_model None
  end.

(** async def load_model(), the startup handler. *)
Definition load_model (x : Ext) : M unit :=
  logger INFO "Starting Sales Forecaster API..." ;;;
  (if truthy (MLFLOW_TRACKING_URI x) && truthy (MLFLOW_TRACKING_USERNAME x)
      && truthy (MLFLOW_TRACKING_PASSWORD x)
   then
     logger INFO ("Connecting to MLflow: "
                  +:+ default "" (MLFLOW_TRACKING_URI x)) ;;;
     try_except
       (logger INFO "Loading model: models:/sales-forecaster/Production" ;;;
        m <- call CallRegistryLoad (pyfunc_load_model x) ;;
        set_model (Some m) ;;;
        prod_versions <- call CallLatestVersions (get_latest_versions x) ;;
        match prod_versions with
        | latest :: _ =>
            set_model_version (Some ("v" +:+ py_str (version latest))) ;;;
            set_model_metadata (registry_metadata latest) ;;;
            logger INFO ("Model loaded: sales-forecaster v" +:+ py_str (version latest)) ;;;
            logger INFO ("   Run ID: " +:+ run_id latest) ;;;
            logger INFO ("   Stage: " +:+ current_stage latest)
        | [] =>
            logger WARNING "No Production model found" ;;;
            set_model_version (Some "Unknown")
        end)
       (fun e =>
          logger ERROR ("Failed to load from MLflow Registry: " +:+ e) ;;;
          logger INFO "Trying local fallback..." ;;;
          load_local_model x)
   else
     logger WARNING "MLflow credentials not found in .env" ;;;
     logger INFO "Loading from local file..." ;;;
     load_local_model x) ;;;
  m <- read model ;;
  (if is_some m && AUTO_RELOAD_ENABLED x && truthy (MLFLOW_TRACKING_URI x)
   then emit StartReloadThread ;;; logger INFO "Auto-reload thread started"
   else ret tt) ;;;
  m <- read model ;;
  if is_some m
  then logger INFO "Sales Forecaster API ready!"
  else logger ERROR "Model not loaded!".

(** ** The background reload loop *)

Definition uri_is_http (uri : option string) : bool :=
  match uri with
  | Some s => negb (String.eqb s "") && String.prefix "http" s
  | None => false
  end.

(** The three assignments under "Update globals atomically". *)
Definition swap_globals (new_model : Artifact) (latest_version : ModelVersion) : M unit :=
  set_model (Some new_model) ;;;
  set_model_version (Some ("v" +:+ py_str (version latest_version))) ;;;
  set_model_metadata (registry_metadata latest_version).

(** One pass through the body of [while AUTO_RELOAD_ENABLED:] in
    check_for_new_model, after the sleep. [continue] is [ret tt]. *)
Definition check_for_new_model_tick (x : Ext) : M unit :=
  try_except
    (if negb (uri_is_http (MLFLOW_TRACKING_URI x)) then ret tt
     else
       md <- read model_metadata ;;
       match md_version md with
       | None => ret tt
       | Some current_version =>
           prod_versions <- call CallLatestVersions (get_latest_versions x) ;;
           match prod_versions with
           | [] => ret tt
           | latest_version :: _ =>
               if negb (String.eqb (py_str (version latest_version))
                                   (py_str current_version))
               then
                 logger INFO "New model version detected!" ;;;
                 logger INFO ("   Current: v" +:+ py_str current_version) ;;;
                 logger INFO ("   Latest: v" +:+ py_str (version latest_version)) ;;;
                 logger INFO "Auto-reloading model..." ;;;
                 try_except
                   (new_model <- call CallRegistryLoad (pyfunc_load_model x) ;;
                    swap_globals new_model latest_version ;;;
                    logger INFO ("Model auto-reloaded to version v"
                                 +:+ py_str (version latest_version)) ;;;
                    logger INFO ("   Run ID: " +:+ run_id latest_version))
                   (fun e => logger ERROR ("Failed to reload model: " +:+ e))
               else ret tt
           end
       end)
    (fun e => logger ERROR ("Error in auto-reload check: " +:+ e)).

(** [while AUTO_RELOAD_ENABLED:] over successive ticks, each seeing the
    outside world of its own moment; the sleep between ticks is not
    represented. The loop body never lets an exception out. *)
Fixpoint check_for_new_model_loop (ticks : list Ext) (s : State) : State :=
  match ticks with
  | [] => s
  | x :: rest =>
      if AUTO_RELOAD_ENABLED x
      then check_for_new_model_loop rest (fst (check_for_new_model_tick x s))
      else s
  end.

(** def check_for_new_model(): the thread body, its opening log line and
    then the loop. *)
Definition check_for_new_model (ticks : list Ext) (s : State) : State :=
  check_for_new_model_loop ticks
    (fst (logger INFO "Auto-reload enabled: checking every AUTO_RELOAD_INTERVAL s" s)).

(** ** Request handlers *)

(** A route handler: new state and the HTTP answer. *)
Definition Handler (A : Type) : Type := State -> State * HTTP A.

(** GET /health *)
Definition health_check (x : Ext) : Handler HealthResponse :=
  fun s =>
    match model (globals s) with
    | None => (s, HTTPError 503 "Service unavailable: Model not loaded")
    | Some _ =>
        match model_version (globals s) with
        | Some v =>
            (s, OK200 {| status := "healthy"; model_loaded := true;
                         hr_model_version := v; hr_timestamp := now x |})
        | None => (s, HTTPError 500 "Internal Server Error")
        end
    end.

(** The request body as it arrives, for a body whose fields hold JSON
    values of the declared types: a number for advertising_spend, an integer
    for the other four. A missing key is [None]. The conversions pydantic
    applies to values of other types are not represented. *)
Record RawRequest : Type := {
  raw_advertising_spend : option Q;
  raw_promotions : option Z;
  raw_day_of_week : option Z;
  raw_month : option Z;
  raw_is_weekend : option Z
}.

(** Field(..., ge=lo, le=hi) *)
Definition field_float (lo hi : Q) (v : option Q) : option Q :=
  match v with
  | Some q => if Qle_bool lo q && Qle_bool q hi then Some q else None
  | None => None
  end.

Definition field_int (lo hi : Z) (v : option Z) : option Z :=
  match v with
  | Some z => if (lo <=? z) && (z <=? hi) then Some z else None
  | None => None
  end.

(** Construction of a PredictionRequest from the body: every field is
    required and checked against its bounds; the value is kept as sent. *)
Definition validate (raw : RawRequest) : option PredictionRequest :=
  match field_float 0 10000 (raw_advertising_spend raw),
        field_int 0 1 (raw_promotions raw),
        field_int 0 6 (raw_day_of_week raw),
        field_int 1 12 (raw_month raw),
        field_int 0 1 (raw_is_weekend raw) with
  | Some a, Some p, Some d, Some m, Some w =>
      Some {| advertising_spend := a; promotions := p; day_of_week := d;
              month := m; is_weekend := w |}
  | _, _, _, _, _ => None
  end.

(** confidence = 0.85 if 80 < prediction < 200 else 0.70 *)
Definition confidence_of (p : Q) : Q :=
  if Qltb 80 p && Qltb p 200 then 85 # 100 else 70 # 100.

Definition version_text (v : option string) : string :=
  match v with Some s => s | None => "None" end.

(** async def predict(request), the body after validation. *)
Definition predict (x : Ext) (request : PredictionRequest) : Handler PredictionResponse :=
  fun s =>
    match model (globals s) with
    | None => (s, HTTPError 503 "Model not loaded. Please contact support.")
    | Some _ =>
        let body : M PredictionResponse :=
          m <- read model ;;
          p <- match m with
               | Some artifact => call (CallPredict request) (artifact request)
               | None => raise "'NoneType' object has no attribute 'predict'"
               end ;;
          let c := confidence_of p in
          v <- read model_version ;;
          logger INFO ("Prediction [Model: " +:+ version_text v +:+ "]") ;;;
          v <- read model_version ;;
          match v with
          | Some tag =>
              ret {| prediction := p; pr_model_version := tag;
                     confidence := c; pr_timestamp := now x |}
          | None => raise "model_version: Input should be a valid string"
          end in
        match body s with
        | (s', Returned r) => (s', OK200 r)
        | (s', Raised e) =>
            (fst (logger ERROR ("Prediction error: " +:+ e) s'),
             HTTPError 500 ("Prediction failed: " +:+ e))
        end
    end.

(** POST /predict: the body is validated before the handler runs. *)
Definition route_predict (x : Ext) (raw : RawRequest) : Handler PredictionResponse :=
  fun s =>
    match validate raw with
    | Some request => predict x request s
    | None => (s, HTTPError 422 "Unprocessable Entity")
    end.

(** ** Model comparison *)

Record VersionSummary : Type := {
  vs_version : Z;
  vs_run_id : string;
  vs_mae : Q;
  vs_rmse : Q;
  vs_r2_score : Q
}.

Record Deltas : Type := {
  mae_percent : Q;
  rmse_percent : Q;
  r2_percent : Q
}.

Inductive Verdict : Type := improved | degraded | unchanged.

Record Improvement : Type := {
  imp_mae : Verdict;
  imp_rmse : Verdict;
  imp_r2 : Verdict
}.

(** The three shapes of dict that compare_models returns. *)
Inductive Comparison : Type :=
| CompareError (error : string)
| CompareFirst (message : string) (current : VersionSummary)
| CompareBoth (current previous : VersionSummary)
              (deltas : Deltas) (improvement : Improvement).

Definition has_comparison (c : Comparison) : bool :=
  match c with
  | CompareBoth _ _ _ _ => true
  | _ => false
  end.

Definition deltas_of (c : Comparison) : option Deltas :=
  match c with
  | CompareBoth _ _ d _ => Some d
  | _ => None
  end.

(** metrics.get(k, metrics.get(k_test, 0)); the metric values are finite
    floats. *)
Definition metric (metrics : gmap string Q) (k k_test : string) : Q :=
  default (default 0%Q (metrics !! k_test)) (metrics !! k).

(** ** Doubles

    A Python float is a double. Its value is carried as the rational it
    denotes; the operations round their exact result to the nearest double,
    ties to the even significand. The exponent is not bounded: overflow,
    underflow and the non-finite values are not represented. *)

(** The nearest integer, ties to the even one. *)
Definition round_half_even (q : Q) : Z :=
  let f := Qfloor q in
  let r := (q - inject_Z f)%Q in
  if Qltb r (1 # 2) then f
  else if Qltb (1 # 2) r then f + 1
  else if Z.even f then f else f + 1.

(** For 0 < a, the k with 2^k <= a < 2^(k+1). *)
Definition binade (a : Q) : Z :=
  let k := Z.log2 (Qnum a) - Z.log2 (Zpos (Qden a)) in
  if Qle_bool ((2 # 1) ^ k) a then k else k - 1.

(** The double nearest to q: a significand of 53 bits, 2^52 <= m <= 2^53,
    scaled by a power of two. *)
Definition double_of (q : Q) : Q :=
  if Qeq_bool q 0 then 0%Q
  else
    let a := Qabs q in
    let e := binade a - 52 in
    let m := round_half_even (a * (2 # 1) ^ (- e))%Q in
    let r := (inject_Z m * (2 # 1) ^ e)%Q in
    if Qltb q 0 then (- r)%Q else r.

(** a - b, a / b and a * b on floats. *)
Definition float_sub (a b : Q) : Q := double_of (a - b).
Definition float_div (a b : Q) : Q := double_of (a / b).
Definition float_mul (a b : Q) : Q := double_of (a * b).

(** The decimal that round(x, 2) settles on: the hundredth nearest to the
    value of the double x, ties to the even one. *)
Definition py_round2 (q : Q) : Q :=
  let y := (q * 100)%Q in
  let f := Qfloor y in
  let r := (y - inject_Z f)%Q in
  let n := if Qltb r (1 # 2) then f
           else if Qltb (1 # 2) r then f + 1
           else if Z.even f then f else f + 1 in
  (n # 100)%Q.

(** round(x, 2): the double nearest to that decimal. *)
Definition py_round (x : Q) : Q := double_of (py_round2 x).

Definition verdict_of (delta : Q) : Verdict :=
  if Qltb 0 delta then improved
  else if Qltb delta 0 then degraded
  else unchanged.

(** sorted(all_versions, key=lambda x: int(x.version), reverse=True):
    a stable sort, larger ordinals first. *)
Fixpoint insert_desc (v : ModelVersion) (l : list ModelVersion) : list ModelVersion :=
  match l with
  | [] => [v]
  | w :: l' =>
      if version w <=? version v then v :: w :: l'
      else w :: insert_desc v l'
  end.

Definition sorted_versions (all_versions : list ModelVersion) : list ModelVersion :=
  foldr insert_desc [] all_versions.

(** [v for v in sorted_versions if v.current_stage == "Production"] *)
Definition prod_versions_of (sorted : list ModelVersion) : list ModelVersion :=
  filter (fun v => current_stage v = "Production") sorted.

(** The loop that stops at the first v with
    int(v.version) < int(current_version.version). *)
Definition previous_version_of (sorted : list ModelVersion) (current : ModelVersion)
  : option ModelVersion :=
  List.find (fun v => version v <? version current) sorted.

Definition summary (v : ModelVersion) (mae rmse r2 : Q) : VersionSummary :=
  {| vs_version := version v; vs_run_id := run_id v;
     vs_mae := mae; vs_rmse := rmse; vs_r2_score := r2 |}.

(** GET /model/compare *)
Definition compare_models (x : Ext) : Handler Comparison :=
  fun s =>
    match model (globals s) with
    | None => (s, HTTPError 503 "Model not loaded")
    | Some _ =>
        let body : M Comparison :=
          all_versions <- call CallSearchVersions (search_model_versions x) ;;
          if (length all_versions <? 1)%nat
          then ret (CompareError "No model versions found")
          else
            let sorted := sorted_versions all_versions in
            match prod_versions_of sorted with
            | [] => ret (CompareError "No Production model found")
            | current_version :: _ =>
                current_metrics <-
                  call (CallGetRun (run_id current_version))
                       (get_run x (run_id current_version)) ;;
                match previous_version_of sorted current_version with
                | Some previous_version =>
                    previous_metrics <-
                      call (CallGetRun (run_id previous_version))
                           (get_run x (run_id previous_version)) ;;
                    let current_mae := metric current_metrics "mae" "test_mae" in
                    let previous_mae := metric previous_metrics "mae" "test_mae" in
                    let current_rmse := metric current_metrics "rmse" "test_rmse" in
                    let previous_rmse := metric previous_metrics "rmse" "test_rmse" in
                    let current_r2 := metric current_metrics "r2_score" "test_r2" in
                    let previous_r2 := metric previous_metrics "r2_score" "test_r2" in
                    let mae_delta :=
                      if Qltb 0 previous_mae
                      then float_mul
                             (float_div (float_sub previous_mae current_mae)
                                        previous_mae) 100
                      else 0%Q in
                    let rmse_delta :=
                      if Qltb 0 previous_rmse
                      then float_mul
                             (float_div (float_sub previous_rmse current_rmse)
                                        previous_rmse) 100
                      else 0%Q in
                    let r2_delta :=
                      if Qltb 0 previous_r2
                      then float_mul
                             (float_div (float_sub current_r2 previous_r2)
                                        previous_r2) 100
                      else 0%Q in
                    ret (CompareBoth
                           (summary current_version current_mae current_rmse current_r2)
                           (summary previous_version previous_mae previous_rmse previous_r2)
                           {| mae_percent := py_round mae_delta;
                              rmse_percent := py_round rmse_delta;
                              r2_percent := py_round r2_delta |}
                           {| imp_mae := verdict_of mae_delta;
                              imp_rmse := verdict_of rmse_delta;
                              imp_r2 := verdict_of r2_delta |})
                | None =>
                    let current_mae := metric current_metrics "mae" "test_mae" in
                    let current_rmse := metric current_metrics "rmse" "test_rmse" in
                    let current_r2 := metric current_metrics "r2_score" "test_r2" in
                    ret (CompareFirst "This is the first model version"
                           (summary current_version current_mae current_rmse current_r2))
                end
            end in
        match body s with
        | (s', Returned r) => (s', OK200 r)
        | (s', Raised e) =>
            (fst (logger ERROR ("Error comparing models: " +:+ e) s'),
             OK200 (CompareError e))
        end
    end.

(** ** Manual reload *)

Record ReloadResponse : Type := {
  rr_status : string;
  rr_model_version : option string;
  rr_timestamp : string;
  rr_auto_reload_enabled : bool
}.

(** GET /model/reload *)
Definition reload_model (x : Ext) : Handler ReloadResponse :=
  fun s =>
    match (logger INFO "Manual reload requested..." ;;; load_model x) s with
    | (s', Returned _) =>
        (s', OK200 {| rr_status := "reloaded";
                      rr_model_version := model_version (globals s');
                      rr_timestamp := now x;
                      rr_auto_reload_enabled := AUTO_RELOAD_ENABLED x |})
    | (s', Raised e) => (s', HTTPError 500 "Internal Server Error")
    end.

(** ** Handlers against the reload thread

    The reload loop runs in a thread of its own, so its statements
    interleave with those of a request handler. Each step below is one
    access to the globals, or one outside call, of the source. *)

(** Where a predict handler stands. *)
Inductive PredictThread : Type :=
| PT_check (request : PredictionRequest)        (* if model is None *)
| PT_call (request : PredictionRequest)         (* model.predict(input_data)[0] *)
| PT_log (p : Q)                                (* logger.info(... {model_version}) *)
| PT_respond (p : Q)                            (* PredictionResponse(model_version=model_version) *)
| PT_done (r : HTTP PredictionResponse).

Definition run_step {A} (m : M A) (s : State) : State := fst (m s).

Definition predict_failed (e : string) (s : State) : PredictThread * State :=
  (PT_done (HTTPError 500 ("Prediction failed: " +:+ e)),
   run_step (logger ERROR ("Prediction error: " +:+ e)) s).

Definition predict_step (x : Ext) (t : PredictThread) (s : State)
  : PredictThread * State :=
  match t with
  | PT_check request =>
      match model (globals s) with
      | None => (PT_done (HTTPError 503 "Model not loaded. Please contact support."), s)
      | Some _ => (PT_call request, s)
      end
  | PT_call request =>
      match model (globals s) with
      | Some artifact =>
          let s' := run_step (emit (CallPredict request)) s in
          match artifact request with
          | Returned p => (PT_log p, s')
          | Raised e => predict_failed e s'
          end
      | None => predict_failed "'NoneType' object has no attribute 'predict'" s
      end
  | PT_log p =>
      (PT_respond p,
       run_step (logger INFO ("Prediction [Model: "
                              +:+ version_text (model_version (globals s)) +:+ "]")) s)
  | PT_respond p =>
      match model_version (globals s) with
      | Some tag =>
          (PT_done (OK200 {| prediction := p; pr_model_version := tag;
                             confidence := confidence_of p;
                             pr_timestamp := now x |}), s)
      | None => predict_failed "model_version: Input should be a valid string" s
      end
  | PT_done r => (PT_done r, s)
  end.

(** Where the reload thread stands within one pass of its loop. *)
Inductive ReloadThread : Type :=
| RT_poll                                              (* up to the version test *)
| RT_load (latest_version : ModelVersion)              (* mlflow.pyfunc.load_model *)
| RT_set_model (new_model : Artifact) (latest_version : ModelVersion)
| RT_set_version (latest_version : ModelVersion)
| RT_set_metadata (latest_version : ModelVersion)
| RT_report (latest_version : ModelVersion)
| RT_sleep.

Definition reload_step (x : Ext) (t : ReloadThread) (s : State)
  : ReloadThread * State :=
  match t with
  | RT_poll =>
      if negb (uri_is_http (MLFLOW_TRACKING_URI x)) then (RT_sleep, s)
      else
        match md_version (model_metadata (globals s)) with
        | None => (RT_sleep, s)
        | Some current_version =>
            let s1 := run_step (emit CallLatestVersions) s in
            match get_latest_versions x with
            | Raised e =>
                (RT_sleep,
                 run_step (logger ERROR ("Error in auto-reload check: " +:+ e)) s1)
            | Returned [] => (RT_sleep, s1)
            | Returned (latest_version :: _) =>
                if negb (String.eqb (py_str (version latest_version))
                                    (py_str current_version))
                then
                  (RT_load latest_version,
                   run_step
                     (logger INFO "New model version detected!" ;;;
                      logger INFO ("   Current: v" +:+ py_str current_version) ;;;
                      logger INFO ("   Latest: v" +:+ py_str (version latest_version)) ;;;
                      logger INFO "Auto-reloading model...") s1)
                else (RT_sleep, s1)
            end
        end
  | RT_load latest_version =>
      let s1 := run_step (emit CallRegistryLoad) s in
      match pyfunc_load_model x with
      | Returned new_model => (RT_set_model new_model latest_version, s1)
      | Raised e =>
          (RT_sleep, run_step (logger ERROR ("Failed to reload model: " +:+ e)) s1)
      end
  | RT_set_model new_model latest_version =>
      (RT_set_version latest_version, run_step (set_model (Some new_model)) s)
  | RT_set_version latest_version =>
      (RT_set_metadata latest_version,
       run_step (set_model_version (Some ("v" +:+ py_str (version latest_version)))) s)
  | RT_set_metadata latest_version =>
      (RT_report latest_version,
       run_step (set_model_metadata (registry_metadata latest_version)) s)
  | RT_report latest_version =>
      (RT_sleep,
       run_step
         (logger INFO ("Model auto-reloaded to version v"
                       +:+ py_str (version latest_version)) ;;;
          logger INFO ("   Run ID: " +:+ run_id latest_version)) s)
  | RT_sleep => (RT_sleep, s)
  end.

(** The threads of the process and who moves next. *)
Inductive Tid : Type :=
| Handle (i : nat)
| Reload.

Record Config : Type := {
  cfg_state : State;
  cfg_handlers : list PredictThread;
  cfg_reloader : ReloadThread
}.

Definition step (x : Ext) (who : Tid) (c : Config) : Config :=
  match who with
  | Handle i =>
      match cfg_handlers c !! i with
      | Some t =>
          let '(t', s') := predict_step x t (cfg_state c) in
          {| cfg_state := s';
             cfg_handlers := <[i := t']> (cfg_handlers c);
             cfg_reloader := cfg_reloader c |}
      | None => c
      end
  | Reload =>
      let '(t', s') := reload_step x (cfg_reloader c) (cfg_state c) in
      {| cfg_state := s';
         cfg_handlers := cfg_handlers c;
         cfg_reloader := t' |}
  end.

Fixpoint run (x : Ext) (schedule : list Tid) (c : Config) : Config :=
  match schedule with
  | [] => c
  | who :: rest => run x rest (step x who c)
  end.

(** The globals at every moment of a run, oldest first. *)
Fixpoint history (x : Ext) (schedule : list Tid) (c : Config) : list Globals :=
  globals (cfg_state c) ::
  match schedule with
  | [] => []
  | who :: rest => history x rest (step x who c)
  end.

(** A thread running with nobody in between. *)
Fixpoint predict_alone (x : Ext) (n : nat) (t : PredictThread) (s : State)
  : PredictThread * State :=
  match n with
  | O => (t, s)
  | S n' => let '(t', s') := predict_step x t s in predict_alone x n' t' s'
  end.

Fixpoint reload_alone (x : Ext) (n : nat) (t : ReloadThread) (s : State)
  : ReloadThread * State :=
  match n with
  | O => (t, s)
  | S n' => let '(t', s') := reload_step x t s in reload_alone x n' t' s'
  end.

(** ** Measures, predicates and scenarios used in the statements *)

Module Swap.

Definition request : PredictionRequest :=
  {| advertising_spend := 3000; promotions := 1; day_of_week := 0;
     month := 1; is_weekend := 0 |}.

Definition artifact_v1 : Artifact := fun _ => Returned 100%Q.
Definition artifact_v2 : Artifact := fun _ => Returned 150%Q.

Definition entry (n : Z) (stage : string) : ModelVersion :=
  {| version := n; run_id := "run-" +:+ py_str n;
     current_stage := stage; creation_timestamp := n |}.

(** The registry has promoted version 2. *)
Definition registry : Ext :=
  {| MLFLOW_TRACKING_URI := Some "https://dagshub.example/repo.mlflow";
     MLFLOW_TRACKING_USERNAME := Some "user";
     MLFLOW_TRACKING_PASSWORD := Some "token";
     AUTO_RELOAD_ENABLED := true;
     pyfunc_load_model := Returned artifact_v2;
     get_latest_versions := Returned [entry 2 "Production"];
     search_model_versions := Returned [entry 1 "Archived"; entry 2 "Production"];
     get_run := fun _ => Returned ∅;
     local_model_file := None;
     now := "2024-01-01T00:00:00" |}.

(** The process serves version 1. *)
Definition serving_v1 : State :=
  {| globals := {| model := Some artifact_v1;
                   model_version := Some "v1";
                   model_metadata := registry_metadata (entry 1 "Production") |};
     trace := [] |}.

(** One predict request has arrived; the reload thread is about to poll. *)
Definition start : Config :=
  {| cfg_state := serving_v1;
     cfg_handlers := [PT_check request];
     cfg_reloader := RT_poll |}.

(** The handler calls the artifact, the reload thread then runs a whole
    pass, the handler then reads the version tag. *)
Definition schedule : list Tid :=
  [Handle 0%nat; Handle 0%nat;
   Reload; Reload; Reload; Reload; Reload; Reload;
   Handle 0%nat; Handle 0%nat].

End Swap.

Definition is_registry_load (e : Event) : bool :=
  match e with CallRegistryLoad => true | _ => false end.

(** How many times the process has asked the registry for an artifact. *)
Definition registry_loads (s : State) : nat :=
  length (List.filter is_registry_load (trace s)).

(** The registry answers the poll with a Production entry of ordinal [v]. *)
Definition presents (x : Ext) (v : Z) : Prop :=
  exists latest rest,
    get_latest_versions x = Returned (latest :: rest) /\ version latest = v.

Module Rollback.

(** The process serves version 3; the registry's Production tag has been
    moved back to version 2 (scripts/rollback.py). *)
Definition registry : Ext :=
  {| MLFLOW_TRACKING_URI := Some "https://dagshub.example/repo.mlflow";
     MLFLOW_TRACKING_USERNAME := Some "user";
     MLFLOW_TRACKING_PASSWORD := Some "token";
     AUTO_RELOAD_ENABLED := true;
     pyfunc_load_model := Returned Swap.artifact_v2;
     get_latest_versions := Returned [Swap.entry 2 "Production"];
     search_model_versions :=
       Returned [Swap.entry 1 "Archived"; Swap.entry 2 "Production";
                 Swap.entry 3 "Archived"];
     get_run := fun _ => Returned ∅;
     local_model_file := None;
     now := "2024-01-01T00:00:00" |}.

Definition serving_v3 : State :=
  {| globals := {| model := Some Swap.artifact_v1;
                   model_version := Some "v3";
                   model_metadata := registry_metadata (Swap.entry 3 "Production") |};
     trace := [] |}.

End Rollback.

Module Steady.

(** The registry still presents version 1, the one being served. *)
Definition registry : Ext :=
  {| MLFLOW_TRACKING_URI := Some "https://dagshub.example/repo.mlflow";
     MLFLOW_TRACKING_USERNAME := Some "user";
     MLFLOW_TRACKING_PASSWORD := Some "token";
     AUTO_RELOAD_ENABLED := true;
     pyfunc_load_model := Returned Swap.artifact_v1;
     get_latest_versions := Returned [Swap.entry 1 "Production"];
     search_model_versions := Returned [Swap.entry 1 "Production"];
     get_run := fun _ => Returned ∅;
     local_model_file := None;
     now := "2024-01-01T00:00:00" |}.

End Steady.

Module Outage.

(** The registry cannot be reached and there is no local artifact file. *)
Definition registry : Ext :=
  {| MLFLOW_TRACKING_URI := Some "https://dagshub.example/repo.mlflow";
     MLFLOW_TRACKING_USERNAME := Some "user";
     MLFLOW_TRACKING_PASSWORD := Some "token";
     AUTO_RELOAD_ENABLED := true;
     pyfunc_load_model := Raised "Connection refused";
     get_latest_versions := Raised "Connection refused";
     search_model_versions := Raised "Connection refused";
     get_run := fun _ => Raised "Connection refused";
     local_model_file := None;
     now := "2024-01-01T00:00:00" |}.

(** The same outage with models/trained/model.pkl in place. *)
Definition registry_with_local_file : Ext :=
  {| MLFLOW_TRACKING_URI := MLFLOW_TRACKING_URI registry;
     MLFLOW_TRACKING_USERNAME := MLFLOW_TRACKING_USERNAME registry;
     MLFLOW_TRACKING_PASSWORD := MLFLOW_TRACKING_PASSWORD registry;
     AUTO_RELOAD_ENABLED := true;
     pyfunc_load_model := pyfunc_load_model registry;
     get_latest_versions := get_latest_versions registry;
     search_model_versions := search_model_versions registry;
     get_run := get_run registry;
     local_model_file := Some (Returned Swap.artifact_v1);
     now := now registry |}.

End Outage.

(** The ways in which consulting the registry can fail, each with the text
    that ends up in the "error" field. *)
Inductive RegistryFailure (x : Ext) : string -> Prop :=
| Unreachable e :
    search_model_versions x = Raised e ->
    RegistryFailure x e
| NoVersions :
    search_model_versions x = Returned [] ->
    RegistryFailure x "No model versions found"
| NoProduction vs :
    search_model_versions x = Returned vs -> vs <> [] ->
    Forall (fun v => current_stage v <> "Production") vs ->
    RegistryFailure x "No Production model found"
| CurrentRunMissing vs cur rest e :
    search_model_versions x = Returned vs ->
    prod_versions_of (sorted_versions vs) = cur :: rest ->
    get_run x (run_id cur) = Raised e ->
    RegistryFailure x e
| PreviousRunMissing vs cur rest mc prev e :
    search_model_versions x = Returned vs ->
    prod_versions_of (sorted_versions vs) = cur :: rest ->
    get_run x (run_id cur) = Returned mc ->
    previous_version_of (sorted_versions vs) cur = Some prev ->
    get_run x (run_id prev) = Raised e ->
    RegistryFailure x e.

Module Compare.

Definition metrics_of (l : list (string * Q)) : gmap string Q := list_to_map l.

(** Two runs: version 1 with mae 8.0, version 2 with mae 5.0. *)
Definition runs (rid : string) : PyResult (gmap string Q) :=
  if String.eqb rid "run-1"
  then Returned (metrics_of [("mae", 8%Q); ("rmse", 10%Q); ("r2_score", 8 # 10)])
  else if String.eqb rid "run-2"
  then Returned (metrics_of [("mae", 5%Q); ("test_rmse", 7%Q); ("r2_score", 9 # 10)])
  else Raised "Run not found".

Definition registry : Ext :=
  {| MLFLOW_TRACKING_URI := Some "https://dagshub.example/repo.mlflow";
     MLFLOW_TRACKING_USERNAME := Some "user";
     MLFLOW_TRACKING_PASSWORD := Some "token";
     AUTO_RELOAD_ENABLED := true;
     pyfunc_load_model := Returned Swap.artifact_v2;
     get_latest_versions := Returned [Swap.entry 2 "Production"];
     search_model_versions :=
       Returned [Swap.entry 1 "Archived"; Swap.entry 2 "Production"];
     get_run := runs;
     local_model_file := None;
     now := "2024-01-01T00:00:00" |}.

(** The baseline run scored a negative R2. *)
Definition runs_negative_r2 (rid : string) : PyResult (gmap string Q) :=
  if String.eqb rid "run-1"
  then Returned (metrics_of [("mae", 8%Q); ("rmse", 10%Q); ("r2_score", (-1) # 2)])
  else if String.eqb rid "run-2"
  then Returned (metrics_of [("mae", 5%Q); ("rmse", 7%Q); ("r2_score", 1 # 2)])
  else Raised "Run not found".

Definition registry_negative_r2 : Ext :=
  {| MLFLOW_TRACKING_URI := MLFLOW_TRACKING_URI registry;
     MLFLOW_TRACKING_USERNAME := MLFLOW_TRACKING_USERNAME registry;
     MLFLOW_TRACKING_PASSWORD := MLFLOW_TRACKING_PASSWORD registry;
     AUTO_RELOAD_ENABLED := true;
     pyfunc_load_model := pyfunc_load_model registry;
     get_latest_versions := get_latest_versions registry;
     search_model_versions := search_model_versions registry;
     get_run := runs_negative_r2;
     local_model_file := None;
     now := now registry |}.

Definition serving_v2 : State :=
  {| globals := {| model := Some Swap.artifact_v2;
                   model_version := Some "v2";
                   model_metadata := registry_metadata (Swap.entry 2 "Production") |};
     trace := [] |}.

(** The same versions, stages and runs seen later from another
    deployment: no credentials in the environment, auto-reload off, the
    artifact store and the Production query failing, a local file in place,
    another time of day. *)
Definition registry_seen_elsewhere : Ext :=
  {| MLFLOW_TRACKING_URI := None;
     MLFLOW_TRACKING_USERNAME := None;
     MLFLOW_TRACKING_PASSWORD := None;
     AUTO_RELOAD_ENABLED := false;
     pyfunc_load_model := Raised "Connection refused";
     get_latest_versions := Raised "Connection refused";
     search_model_versions := search_model_versions registry;
     get_run := runs;
     local_model_file := Some (Returned Swap.artifact_v1);
     now := "2024-06-30T12:00:00" |}.

(** MAE went from 20000.0 to 19999.0. *)
Definition runs_small_gain (rid : string) : PyResult (gmap string Q) :=
  if String.eqb rid "run-1"
  then Returned (metrics_of [("mae", 20000%Q)])
  else if String.eqb rid "run-2"
  then Returned (metrics_of [("mae", 19999%Q)])
  else Raised "Run not found".

Definition registry_small_gain : Ext :=
  {| MLFLOW_TRACKING_URI := MLFLOW_TRACKING_URI registry;
     MLFLOW_TRACKING_USERNAME := MLFLOW_TRACKING_USERNAME registry;
     MLFLOW_TRACKING_PASSWORD := MLFLOW_TRACKING_PASSWORD registry;
     AUTO_RELOAD_ENABLED := true;
     pyfunc_load_model := pyfunc_load_model registry;
     get_latest_versions := get_latest_versions registry;
     search_model_versions := search_model_versions registry;
     get_run := runs_small_gain;
     local_model_file := None;
     now := now registry |}.

End Compare.

(** The formulas of the specification. *)
Definition delta_lower_is_better (previous current : Q) : Q :=
  ((previous - current) / previous * 100)%Q.

Definition delta_higher_is_better (previous current : Q) : Q :=
  ((current - previous) / previous * 100)%Q.

(** The same formulas as Python evaluates them on floats, one rounding per
    operation. *)
Definition float_delta_lower (previous current : Q) : Q :=
  float_mul (float_div (float_sub previous current) previous) 100.

Definition float_delta_higher (previous current : Q) : Q :=
  float_mul (float_div (float_sub current previous) previous) 100.

(** 2^-53, the largest relative change one rounding makes. *)
Definition half_ulp : Q := 1 # 9007199254740992.

(** [computed] is [exact] after three roundings. *)
Definition three_roundings (exact computed : Q) : Prop :=
  exists e1 e2 e3 : Q,
    (Qabs e1 <= half_ulp)%Q /\ (Qabs e2 <= half_ulp)%Q /\ (Qabs e3 <= half_ulp)%Q
    /\ (computed == exact * (1 + e1) * (1 + e2) * (1 + e3))%Q.

(** Some field of the body lies outside its declared range. *)
Definition out_of_range (raw : RawRequest) : Prop :=
  (exists a, raw_advertising_spend raw = Some a /\ ~ (0 <= a /\ a <= 10000)%Q)
  \/ (exists p, raw_promotions raw = Some p /\ p <> 0 /\ p <> 1)
  \/ (exists d, raw_day_of_week raw = Some d /\ ~ (0 <= d <= 6))
  \/ (exists m, raw_month raw = Some m /\ ~ (1 <= m <= 12))
  \/ (exists w, raw_is_weekend raw = Some w /\ w <> 0 /\ w <> 1).

Definition is_predict_call (e : Event) : bool :=
  match e with CallPredict _ => true | _ => false end.

(** How many times an artifact has been invoked. *)
Definition predict_calls (s : State) : nat :=
  length (List.filter is_predict_call (trace s)).

Module Requests.

(** dayOfWeek = 7 *)
Definition day_seven : RawRequest :=
  {| raw_advertising_spend := Some 3000%Q;
     raw_promotions := Some 1;
     raw_day_of_week := Some 7;
     raw_month := Some 1;
     raw_is_weekend := Some 0 |}.

Definition valid : RawRequest :=
  {| raw_advertising_spend := Some 3000%Q;
     raw_promotions := Some 1;
     raw_day_of_week := Some 0;
     raw_month := Some 1;
     raw_is_weekend := Some 0 |}.

End Requests.

(** The registry is configured but does not answer at startup: the
    artifact load raises, or it succeeds and the version query raises. *)
Definition registry_unreachable (x : Ext) : Prop :=
  truthy (MLFLOW_TRACKING_URI x) && truthy (MLFLOW_TRACKING_USERNAME x)
    && truthy (MLFLOW_TRACKING_PASSWORD x) = true
  /\ ((exists e, pyfunc_load_model x = Raised e)
      \/ (exists m e, pyfunc_load_model x = Returned m
                      /\ get_latest_versions x = Raised e)).

(** The order of sorted_versions: larger ordinals first. *)
Definition desc (a b : ModelVersion) : Prop := version b <= version a.

(** ** The remaining endpoints

    They read AUTO_RELOAD_INTERVAL, the poll interval in seconds, which is
    passed in as [interval]. *)

(** What GET / returns. *)
Record RootResponse : Type := {
  root_service : string;
  root_version : string;
  root_status : string;
  root_model_version : option string;
  root_model_source : string;
  root_auto_reload_enabled : bool;
  root_auto_reload_interval : string;
  root_endpoints : list (string * string);
  root_timestamp : string
}.

(** model_metadata.get("source", "unknown") *)
Definition source_text (md : Metadata) : string :=
  default "unknown" (md_source md).

(** async def root() *)
Definition root (x : Ext) (interval : Z) : Handler RootResponse :=
  fun s =>
    (s, OK200
          {| root_service := "Sales Forecaster API";
             root_version := "4.0.0";
             root_status :=
               if is_some (model (globals s)) then "healthy" else "model_not_loaded";
             root_model_version := model_version (globals s);
             root_model_source := source_text (model_metadata (globals s));
             root_auto_reload_enabled := AUTO_RELOAD_ENABLED x;
             root_auto_reload_interval :=
               if AUTO_RELOAD_ENABLED x then py_str interval +:+ "s" else "disabled";
             root_endpoints :=
               [("health", "/health"); ("predict", "/predict");
                ("predict_debug", "/predict/debug"); ("model_info", "/model/info");
                ("model_compare", "/model/compare"); ("reload", "/model/reload");
                ("docs", "/docs")];
             root_timestamp := now x |}).

(** The "model_metadata" part of the debug answer. *)
Record DebugMetadata : Type := {
  dm_version : string;
  dm_run_id : string;
  dm_stage : string;
  dm_loaded_from : string
}.

(** What POST /predict/debug returns. *)
Record DebugResponse : Type := {
  dbg_prediction : Q;
  dbg_model_version : option string;
  dbg_model_source : string;
  dbg_confidence : Q;
  dbg_timestamp : string;
  dbg_input_features : PredictionRequest;
  dbg_model_metadata : DebugMetadata;
  dbg_auto_reload_enabled : bool;
  dbg_auto_reload_interval : Z
}.

Definition debug_metadata (md : Metadata) : DebugMetadata :=
  {| dm_version :=
       match md_version md with Some v => py_str v | None => "unknown" end;
     dm_run_id := default "unknown" (md_run_id md);
     dm_stage := default "unknown" (md_stage md);
     dm_loaded_from :=
       if is_some (md_run_id md) then "DagsHub MLflow Registry" else "Local File" |}.

(** async def predict_debug(request), the body after validation. *)
Definition predict_debug (x : Ext) (interval : Z) (request : PredictionRequest)
  : Handler DebugResponse :=
  fun s =>
    match model (globals s) with
    | None => (s, HTTPError 503 "Model not loaded")
    | Some _ =>
        let body : M DebugResponse :=
          m <- read model ;;
          p <- match m with
               | Some artifact => call (CallPredict request) (artifact request)
               | None => raise "'NoneType' object has no attribute 'predict'"
               end ;;
          let c := confidence_of p in
          v <- read model_version ;;
          logger INFO ("DEBUG Prediction using " +:+ version_text v) ;;;
          v <- read model_version ;;
          md <- read model_metadata ;;
          ret {| dbg_prediction := p;
                 dbg_model_version := v;
                 dbg_model_source := source_text md;
                 dbg_confidence := c;
                 dbg_timestamp := now x;
                 dbg_input_features := request;
                 dbg_model_metadata := debug_metadata md;
                 dbg_auto_reload_enabled := AUTO_RELOAD_ENABLED x;
                 dbg_auto_reload_interval := interval |} in
        match body s with
        | (s', Returned r) => (s', OK200 r)
        | (s', Raised e) =>
            (fst (logger ERROR ("Prediction error: " +:+ e) s'), HTTPError 500 e)
        end
    end.

(** POST /predict/debug: the body is validated before the handler runs. *)
Definition route_predict_debug (x : Ext) (interval : Z) (raw : RawRequest)
  : Handler DebugResponse :=
  fun s =>
    match validate raw with
    | Some request => predict_debug x interval request s
    | None => (s, HTTPError 422 "Unprocessable Entity")
    end.

(** The "performance" dict of /model/info. *)
Record Performance : Type := {
  perf_mae : Q;
  perf_rmse : Q;
  perf_r2_score : Q;
  perf_mape : Q
}.

Definition placeholder_metrics : Performance :=
  {| perf_mae := 0; perf_rmse := 0; perf_r2_score := 0; perf_mape := 0 |}.

Definition performance_of (metrics : gmap string Q) : Performance :=
  {| perf_mae := metric metrics "mae" "test_mae";
     perf_rmse := metric metrics "rmse" "test_rmse";
     perf_r2_score := metric metrics "r2_score" "test_r2";
     perf_mape := metric metrics "mape" "test_mape" |}.

(** What GET /model/info returns; "metadata" is the copy of
    model_metadata with "performance" added. *)
Record ModelInfo : Type := {
  mi_model_name : string;
  mi_model_version : option string;
  mi_metadata : Metadata;
  mi_metadata_performance : Performance;
  mi_features : list string;
  mi_target : string;
  mi_model_type : string;
  mi_loaded_at : string;
  mi_performance : Performance;
  mi_auto_reload_enabled : bool;
  mi_auto_reload_interval : Z;
  mi_last_check : string
}.

(** async def get_model_info() *)
Definition get_model_info (x : Ext) (interval : Z) : Handler ModelInfo :=
  fun s =>
    match model (globals s) with
    | None => (s, HTTPError 503 "Model not loaded")
    | Some _ =>
        let body : M ModelInfo :=
          md <- read model_metadata ;;
          performance_metrics <-
            (if truthy (md_run_id md)
             then
               try_except
                 (md <- read model_metadata ;;
                  match md_run_id md with
                  | Some rid =>
                      metrics <- call (CallGetRun rid) (get_run x rid) ;;
                      logger INFO ("Fetched metrics from MLflow run: " +:+ rid) ;;;
                      ret (performance_of metrics)
                  | None => raise "'run_id'"
                  end)
                 (fun e =>
                    logger WARNING ("Could not fetch metrics from MLflow: " +:+ e) ;;;
                    ret placeholder_metrics)
             else
               logger WARNING "No run_id in metadata, using placeholder metrics" ;;;
               ret placeholder_metrics) ;;
          enhanced_metadata <- read model_metadata ;;
          v <- read model_version ;;
          ret {| mi_model_name := "sales-forecaster";
                 mi_model_version := v;
                 mi_metadata := enhanced_metadata;
                 mi_metadata_performance := performance_metrics;
                 mi_features :=
                   ["advertising_spend"; "promotions"; "day_of_week"; "month";
                    "is_weekend"];
                 mi_target := "sales";
                 mi_model_type := "RandomForestRegressor";
                 mi_loaded_at := now x;
                 mi_performance := performance_metrics;
                 mi_auto_reload_enabled := AUTO_RELOAD_ENABLED x;
                 mi_auto_reload_interval := interval;
                 mi_last_check := "monitoring..." |} in
        match body s with
        | (s', Returned r) => (s', OK200 r)
        | (s', Raised e) => (s', HTTPError 500 "Internal Server Error")
        end
    end.

(** ** Measures and predicates of the further properties *)

(** A loaded model carries a version tag. *)
Definition tagged (g : Globals) : Prop :=
  is_some (model g) = true -> is_some (model_version g) = true.

(** The tag is the "v" rendering of the version in the metadata, when the
    metadata has one. *)
Definition tag_matches_metadata (g : Globals) : Prop :=
  forall v, md_version (model_metadata g) = Some v ->
            model_version g = Some ("v" +:+ py_str v).

Definition is_outside_call (e : Event) : bool :=
  match e with
  | Log _ _ => false
  | StartReloadThread => false
  | _ => true
  end.

(** How many calls have left the process (registry, file, artifact). *)
Definition outside_calls (s : State) : nat :=
  length (List.filter is_outside_call (trace s)).

Definition is_registry_call (e : Event) : bool :=
  match e with
  | CallRegistryLoad | CallLatestVersions | CallSearchVersions | CallGetRun _ => true
  | _ => false
  end.

(** How many calls have gone to the registry. *)
Definition registry_calls (s : State) : nat :=
  length (List.filter is_registry_call (trace s)).

Definition is_thread_start (e : Event) : bool :=
  match e with StartReloadThread => true | _ => false end.

(** How many reload threads the process has started. *)
Definition reload_threads (s : State) : nat :=
  length (List.filter is_thread_start (trace s)).

(** Every field of the body is present and within its bounds. *)
Definition in_range (raw : RawRequest) (request : PredictionRequest) : Prop :=
  raw_advertising_spend raw = Some (advertising_spend request)
  /\ (0 <= advertising_spend request /\ advertising_spend request <= 10000)%Q
  /\ raw_promotions raw = Some (promotions request)
  /\ 0 <= promotions request <= 1
  /\ raw_day_of_week raw = Some (day_of_week request)
  /\ 0 <= day_of_week request <= 6
  /\ raw_month raw = Some (month request)
  /\ 1 <= month request <= 12
  /\ raw_is_weekend raw = Some (is_weekend request)
  /\ 0 <= is_weekend request <= 1.

Module NoRegistry.

(** No MLflow settings in the environment; the local file is there. *)
Definition env : Ext :=
  {| MLFLOW_TRACKING_URI := None;
     MLFLOW_TRACKING_USERNAME := None;
     MLFLOW_TRACKING_PASSWORD := None;
     AUTO_RELOAD_ENABLED := true;
     pyfunc_load_model := Returned Swap.artifact_v2;
     get_latest_versions := Returned [Swap.entry 2 "Production"];
     search_model_versions := Returned [Swap.entry 2 "Production"];
     get_run := fun _ => Returned ∅;
     local_model_file := Some (Returned Swap.artifact_v1);
     now := "2024-01-01T00:00:00" |}.

End NoRegistry.

Module Failing.

(** An artifact that rejects its input. *)
Definition artifact : Artifact := fun _ => Raised "Feature names mismatch".

Definition serving : State :=
  {| globals := {| model := Some artifact;
                   model_version := Some "v1";
                   model_metadata := registry_metadata (Swap.entry 1 "Production") |};
     trace := [] |}.

End Failing.


(** mae_delta, rmse_delta and r2_delta as compare_models computes them:
    the formula on floats under the guard [previous > 0], else 0. *)
Definition guarded_delta_lower (p c : Q) : Q :=
  if Qltb 0 p then float_delta_lower p c else 0%Q.

Definition guarded_delta_higher (p c : Q) : Q :=
  if Qltb 0 p then float_delta_higher p c else 0%Q.

Module Reordered.

(** The registry of [Compare], listing the newest version first. *)
Definition registry : Ext :=
  {| MLFLOW_TRACKING_URI := MLFLOW_TRACKING_URI Compare.registry;
     MLFLOW_TRACKING_USERNAME := MLFLOW_TRACKING_USERNAME Compare.registry;
     MLFLOW_TRACKING_PASSWORD := MLFLOW_TRACKING_PASSWORD Compare.registry;
     AUTO_RELOAD_ENABLED := true;
     pyfunc_load_model := pyfunc_load_model Compare.registry;
     get_latest_versions := get_latest_versions Compare.registry;
     search_model_versions :=
       Returned [Swap.entry 2 "Production"; Swap.entry 1 "Archived"];
     get_run := Compare.runs;
     local_model_file := None;
     now := now Compare.registry |}.

End Reordered.

(** A model is loaded and tagged. *)
Definition ready (g : Globals) : Prop :=
  is_some (model g) = true /\ is_some (model_version g) = true.

(** The handler was answered 503. *)
Definition answered_503 (t : PredictThread) : Prop :=
  exists detail, t = PT_done (HTTPError 503 detail).

(** What a handler holds came out of the globals seen so far: [seen]
    tells which globals those are, [request] is what the handler was
    started with. *)
Definition from_seen (seen : Globals -> Prop) (request : PredictionRequest)
    (t : PredictThread) : Prop :=
  match t with
  | PT_check r => r = request
  | PT_call r => r = request
  | PT_log p | PT_respond p =>
      exists g a, seen g /\ model g = Some a /\ a request = Returned p
  | PT_done (OK200 r) =>
      (exists g a, seen g /\ model g = Some a /\ a request = Returned (prediction r))
      /\ (exists g, seen g /\ model_version g = Some (pr_model_version r))
  | PT_done (HTTPError _ _) => True
  end.

(** The handlers of a configuration, each with the request it was started
    with. *)
Definition handlers_from_seen (seen : Globals -> Prop)
    (requests : list PredictionRequest) (handlers : list PredictThread) : Prop :=
  forall i t, handlers !! i = Some t ->
              exists request, requests !! i = Some request
                              /\ from_seen seen request t.

(** ** The dashboard's reading of the backend (app/dashboard.py)

    The dashboard fetches /model/info and /model/compare and decides what
    to show; an answer is [None] when the request itself raised. Labels are
    kept without their pictographs and numbers without their formatting. *)

(** needle in s, on strings. *)
Fixpoint contains (needle s : string) : bool :=
  String.prefix needle s
  || match s with
     | EmptyString => false
     | String _ s' => contains needle s'
     end.

(** model_info.get("metadata", {}).get("source", "Unknown"), or "Unknown"
    when the answer is not a 200 or the request raised. *)
Definition dashboard_model_source (info : option (HTTP ModelInfo)) : string :=
  match info with
  | Some (OK200 model_info) => default "Unknown" (md_source (mi_metadata model_info))
  | Some (HTTPError _ _) => "Unknown"
  | None => "Unknown"
  end.

(** The "Status" card. *)
Definition dashboard_status (model_source : string) : string :=
  if contains "Registry" model_source then "Active"
  else if contains "Local" model_source then "Local"
  else "Unknown".

(** mae_value, rmse_value, r2_value. *)
Definition dashboard_values (info : option (HTTP ModelInfo)) : Q * Q * Q :=
  match info with
  | Some (OK200 model_info) =>
      (perf_mae (mi_performance model_info),
       perf_rmse (mi_performance model_info),
       perf_r2_score (mi_performance model_info))
  | Some (HTTPError _ _) => (0%Q, 0%Q, 0%Q)
  | None => (0%Q, 0%Q, 0%Q)
  end.

(** mae_delta, rmse_delta, r2_delta: all None unless the comparison has a
    baseline. *)
Definition dashboard_deltas (comparison : option (HTTP Comparison))
  : option Q * option Q * option Q :=
  match comparison with
  | Some (OK200 (CompareBoth _ _ d _)) =>
      (Some (mae_percent d), Some (rmse_percent d), Some (r2_percent d))
  | _ => (None, None, None)
  end.

(** What a metric card shows. *)
Inductive Card : Type :=
| CardNA                              (* "N/A" *)
| CardPlain (value : Q)               (* the value, no delta *)
| CardDelta (value delta : Q).        (* the value and its delta *)

(** if value > 0: (delta shown if not None) else "N/A" *)
Definition metric_card (value : Q) (delta : option Q) : Card :=
  if Qltb 0 value
  then match delta with
       | Some d => CardDelta value d
       | None => CardPlain value
       end
  else CardNA.

(** The three cards of "Model Performance Metrics". *)
Definition dashboard_cards (info : option (HTTP ModelInfo))
    (comparison : option (HTTP Comparison)) : Card * Card * Card :=
  let '(mae_value, rmse_value, r2_value) := dashboard_values info in
  let '(mae_delta, rmse_delta, r2_delta) := dashboard_deltas comparison in
  (metric_card mae_value mae_delta,
   metric_card rmse_value rmse_delta,
   metric_card r2_value r2_delta).


(** * Properties *)

(** ** The interleaving steps are those of the sequential code *)

Lemma predict_alone_is_predict x request s :
  predict_alone x 4 (PT_check request) s
  = (PT_done (snd (predict x request s)), fst (predict x request s)).
Proof.
  destruct s as [[m v md] tr]. unfold predict. cbn.
  destruct m as [a|]; cbn; [|reflexivity].
  unfold bind, call, read, emit, raise, ret; cbn.
  destruct (a request) as [p|e]; cbn; [|reflexivity].
  destruct v as [tag|]; reflexivity.
Qed.

Lemma reload_alone_is_tick x s :
  reload_alone x 6 RT_poll s = (RT_sleep, fst (check_for_new_model_tick x s)).
Proof.
  destruct s as [[m v md] tr].
  unfold check_for_new_model_tick, try_except. cbn.
  destruct (uri_is_http (MLFLOW_TRACKING_URI x)); cbn; [|reflexivity].
  unfold bind, read; cbn.
  destruct (md_version md) as [cur|]; cbn; [|reflexivity].
  unfold call, bind, emit; cbn.
  destruct (get_latest_versions x) as [[|latest rest]|e]; cbn; try reflexivity.
  destruct (String.eqb (py_str (version latest)) (py_str cur)); cbn; [reflexivity|].
  unfold try_except, bind, call, emit, logger, emit; cbn.
  destruct (pyfunc_load_model x) as [nm|e]; reflexivity.
Qed.

(** A handler is done after four steps of its own, whatever the globals
    hold at each of them. *)
Lemma predict_thread_completes x request s0 s1 s2 s3 :
  let t1 := fst (predict_step x (PT_check request) s0) in
  let t2 := fst (predict_step x t1 s1) in
  let t3 := fst (predict_step x t2 s2) in
  let t4 := fst (predict_step x t3 s3) in
  exists r, t4 = PT_done r.
Proof.
  cbn. destruct (model (globals s0)) as [a0|]; cbn; [|eauto].
  destruct (model (globals s1)) as [a1|]; cbn; [|eauto].
  destruct (a1 request); cbn; [|eauto].
  destruct (model_version (globals s3)); cbn; eauto.
Qed.

(** ** A swap during a prediction *)

(** C1. Under the schedule [Swap.schedule] the predict call answers with
    the value computed by the version-1 artifact and the tag "v2", although
    at every moment at which the globals carried the tag "v2" they held the
    version-2 artifact, whose value on this request is another one: the
    artifact and the tag of the answer come from two different contents of
    the globals. *)
Theorem predict_pairs_old_artifact_with_new_tag :
  cfg_handlers (run Swap.registry Swap.schedule Swap.start)
  = [PT_done (OK200 {| prediction := 100%Q; pr_model_version := "v2";
                       confidence := 85 # 100;
                       pr_timestamp := now Swap.registry |})]
  /\ Swap.artifact_v1 Swap.request = Returned 100%Q
  /\ Forall (fun g => model_version g = Some "v2" ->
                      exists a, model g = Some a
                                /\ a Swap.request = Returned 150%Q)
            (history Swap.registry Swap.schedule Swap.start)
  /\ Forall (fun g => model g = Some Swap.artifact_v1 ->
                      model_version g = Some "v1")
            (history Swap.registry Swap.schedule Swap.start).
Proof.
  split; [vm_compute; reflexivity|].
  split; [reflexivity|].
  split.
  - vm_compute. repeat constructor; intros H; try discriminate H;
      eexists; (split; [reflexivity|reflexivity]).
  - vm_compute. repeat constructor; intros H; try reflexivity;
      exfalso; injection H as H;
      apply (f_equal (fun f => f Swap.request)) in H; discriminate H.
Qed.

(** ** The reload tick *)

Lemma py_str_eqb (a b : Z) : String.eqb (py_str a) (py_str b) = bool_decide (a = b).
Proof.
  case_bool_decide as H.
  - subst. apply String.eqb_refl.
  - apply String.eqb_neq. intros E. apply H. exact (pretty_Z_inj _ _ E).
Qed.

Ltac run_M :=
  cbv beta iota zeta delta
    [try_except bind call read write logger emit raise ret
     set_model set_model_version set_model_metadata swap_globals run_step] in *;
  cbn [fst snd negb globals trace model model_version model_metadata] in *.

(** The tick, branch by branch. *)
Lemma tick_not_http x s :
  uri_is_http (MLFLOW_TRACKING_URI x) = false ->
  fst (check_for_new_model_tick x s) = s.
Proof. intros H. unfold check_for_new_model_tick, try_except. rewrite H. reflexivity. Qed.

Lemma tick_no_version x s :
  md_version (model_metadata (globals s)) = None ->
  fst (check_for_new_model_tick x s) = s.
Proof.
  intros H. unfold check_for_new_model_tick.
  destruct (uri_is_http _); run_M; [|reflexivity].
  rewrite H. reflexivity.
Qed.

Lemma tick_no_production x s :
  get_latest_versions x = Returned [] ->
  globals (fst (check_for_new_model_tick x s)) = globals s
  /\ registry_loads (fst (check_for_new_model_tick x s)) = registry_loads s.
Proof.
  intros H. unfold check_for_new_model_tick, registry_loads.
  destruct (uri_is_http _); run_M; [|split; reflexivity].
  destruct (md_version _); [|split; reflexivity].
  rewrite H. split; reflexivity.
Qed.

Lemma tick_poll_raises x s e :
  get_latest_versions x = Raised e ->
  globals (fst (check_for_new_model_tick x s)) = globals s
  /\ registry_loads (fst (check_for_new_model_tick x s)) = registry_loads s.
Proof.
  intros H. unfold check_for_new_model_tick, registry_loads.
  destruct (uri_is_http _); run_M; [|split; reflexivity].
  destruct (md_version _); [|split; reflexivity].
  rewrite H. split; reflexivity.
Qed.

Lemma tick_same_version x s cur latest rest :
  uri_is_http (MLFLOW_TRACKING_URI x) = true ->
  md_version (model_metadata (globals s)) = Some cur ->
  get_latest_versions x = Returned (latest :: rest) ->
  version latest = cur ->
  fst (check_for_new_model_tick x s) = run_step (emit CallLatestVersions) s.
Proof.
  intros Hh Hv Hl He. unfold check_for_new_model_tick.
  rewrite Hh. run_M. rewrite Hv, Hl.
  rewrite py_str_eqb, bool_decide_eq_true_2 by exact He.
  reflexivity.
Qed.

Lemma tick_new_version x s cur latest rest new_model :
  uri_is_http (MLFLOW_TRACKING_URI x) = true ->
  md_version (model_metadata (globals s)) = Some cur ->
  get_latest_versions x = Returned (latest :: rest) ->
  version latest <> cur ->
  pyfunc_load_model x = Returned new_model ->
  globals (fst (check_for_new_model_tick x s))
  = {| model := Some new_model;
       model_version := Some ("v" +:+ py_str (version latest));
       model_metadata := registry_metadata latest |}
  /\ registry_loads (fst (check_for_new_model_tick x s)) = S (registry_loads s).
Proof.
  intros Hh Hv Hl Hne Hm. unfold check_for_new_model_tick, registry_loads.
  rewrite Hh. run_M. rewrite Hv, Hl.
  rewrite py_str_eqb, bool_decide_eq_false_2 by exact Hne.
  cbn [negb]. rewrite Hm. split; reflexivity.
Qed.

(** A load that raises inside the tick leaves the globals as they were. *)
Lemma tick_load_raises x s e :
  pyfunc_load_model x = Raised e ->
  globals (fst (check_for_new_model_tick x s)) = globals s.
Proof.
  intros Hm. unfold check_for_new_model_tick.
  destruct (uri_is_http _); run_M; [|reflexivity].
  destruct (md_version _) as [cur|]; [|reflexivity].
  destruct (get_latest_versions x) as [[|latest rest]|e']; try reflexivity.
  destruct (String.eqb _ _); cbn [negb]; [reflexivity|].
  rewrite Hm. reflexivity.
Qed.

(** A tick that changes the globals, or that asks the registry for an
    artifact, saw a Production ordinal different from the served one. *)
Lemma tick_acts_only_on_different_version x s :
  globals (fst (check_for_new_model_tick x s)) <> globals s
  \/ registry_loads (fst (check_for_new_model_tick x s)) <> registry_loads s ->
  exists cur latest rest,
    md_version (model_metadata (globals s)) = Some cur
    /\ get_latest_versions x = Returned (latest :: rest)
    /\ version latest <> cur.
Proof.
  intros H.
  destruct (uri_is_http (MLFLOW_TRACKING_URI x)) eqn:Hh;
    [|rewrite (tick_not_http x s Hh) in H; tauto].
  destruct (md_version (model_metadata (globals s))) as [cur|] eqn:Hv;
    [|rewrite (tick_no_version x s Hv) in H; tauto].
  destruct (get_latest_versions x) as [[|latest rest]|e] eqn:Hl.
  - destruct (tick_no_production x s Hl) as [Hg Hn]. rewrite Hg, Hn in H. tauto.
  - destruct (decide (version latest = cur)) as [He|Hne].
    + exfalso. rewrite (tick_same_version x s cur latest rest Hh Hv Hl He) in H.
      unfold run_step, emit, registry_loads in H. cbn in H. tauto.
    + eauto 6.
  - destruct (tick_poll_raises x s e Hl) as [Hg Hn]. rewrite Hg, Hn in H. tauto.
Qed.

(** Repeated polls that present the served ordinal. *)
Lemma ticks_same_version xs : forall s cur,
  md_version (model_metadata (globals s)) = Some cur ->
  Forall (fun x => presents x cur) xs ->
  globals (check_for_new_model_loop xs s) = globals s
  /\ registry_loads (check_for_new_model_loop xs s) = registry_loads s.
Proof.
  induction xs as [|x xs IH]; intros s cur Hv Hall; [split; reflexivity|].
  inversion Hall as [|? ? (latest & rest & Hl & He) Hrest]; subst.
  cbn. destruct (AUTO_RELOAD_ENABLED x); [|split; reflexivity].
  destruct (uri_is_http (MLFLOW_TRACKING_URI x)) eqn:Hh.
  - rewrite (tick_same_version x s _ latest rest Hh Hv Hl eq_refl).
    destruct (IH (run_step (emit CallLatestVersions) s) (version latest)) as [Hg Hn];
      [exact Hv|exact Hrest|].
    rewrite Hg, Hn. split; reflexivity.
  - rewrite (tick_not_http x s Hh). apply (IH s (version latest)); assumption.
Qed.

(** C2, as stated, fails: the registry presents ordinal 2, lower than the
    served ordinal 3, and the tick swaps the served model to version 2. *)
Lemma tick_swaps_to_lower_version :
  presents Rollback.registry 2
  /\ md_version (model_metadata (globals Rollback.serving_v3)) = Some 3
  /\ 2 < 3
  /\ globals (fst (check_for_new_model_tick Rollback.registry Rollback.serving_v3))
     = {| model := Some Swap.artifact_v2;
          model_version := Some "v2";
          model_metadata := registry_metadata (Swap.entry 2 "Production") |}
  /\ registry_loads (fst (check_for_new_model_tick Rollback.registry Rollback.serving_v3))
     = 1%nat.
Proof.
  split; [eexists _, _; split; reflexivity|].
  split; [reflexivity|]. split; [lia|].
  split; vm_compute; reflexivity.
Qed.

(** C2, amended. A poll tick acts (asks the registry for the artifact, or
    changes the globals) only when the Production ordinal the registry
    presents differs from the served one; when it differs and the artifact
    loads, the globals are replaced by the new model, its tag and its
    metadata, whether the ordinal is higher or lower; and polls that present
    the served ordinal, however often repeated, neither load nor change
    anything. *)
Theorem tick_swaps_iff_version_differs (x : Ext) (xs : list Ext) (s : State) (cur : Z) :
  md_version (model_metadata (globals s)) = Some cur ->
  (globals (fst (check_for_new_model_tick x s)) <> globals s
   \/ registry_loads (fst (check_for_new_model_tick x s)) <> registry_loads s ->
   exists latest rest,
     get_latest_versions x = Returned (latest :: rest) /\ version latest <> cur)
  /\ (forall latest rest new_model,
        uri_is_http (MLFLOW_TRACKING_URI x) = true ->
        get_latest_versions x = Returned (latest :: rest) ->
        version latest <> cur ->
        pyfunc_load_model x = Returned new_model ->
        globals (fst (check_for_new_model_tick x s))
        = {| model := Some new_model;
             model_version := Some ("v" +:+ py_str (version latest));
             model_metadata := registry_metadata latest |})
  /\ (Forall (fun x' => presents x' cur) xs ->
      globals (check_for_new_model_loop xs s) = globals s
      /\ registry_loads (check_for_new_model_loop xs s) = registry_loads s).
Proof.
  intros Hv. split; [|split].
  - intros H. destruct (tick_acts_only_on_different_version x s H)
      as (cur' & latest & rest & Hv' & Hl & Hne).
    rewrite Hv in Hv'. injection Hv' as <-. eauto.
  - intros latest rest new_model Hh Hl Hne Hm.
    apply (tick_new_version x s cur latest rest new_model Hh Hv Hl Hne Hm).
  - intros Hall. apply (ticks_same_version xs s cur Hv Hall).
Qed.

Lemma tick_swaps_iff_version_differs_witness :
  md_version (model_metadata (globals Swap.serving_v1)) = Some 1
  /\ Forall (fun x' => presents x' 1) [Steady.registry; Steady.registry]
  /\ globals (check_for_new_model_loop [Steady.registry; Steady.registry] Swap.serving_v1)
     = globals Swap.serving_v1
  /\ globals (fst (check_for_new_model_tick Swap.registry Swap.serving_v1))
     = {| model := Some Swap.artifact_v2;
          model_version := Some "v2";
          model_metadata := registry_metadata (Swap.entry 2 "Production") |}.
Proof.
  assert (Hv : md_version (model_metadata (globals Swap.serving_v1)) = Some 1)
    by reflexivity.
  assert (Hall : Forall (fun x' => presents x' 1) [Steady.registry; Steady.registry])
    by (repeat constructor; eexists _, _; split; reflexivity).
  destruct (tick_swaps_iff_version_differs Swap.registry
              [Steady.registry; Steady.registry] Swap.serving_v1 1 Hv)
    as (_ & Hswap & Hsame).
  split; [exact Hv|]. split; [exact Hall|]. split.
  - exact (proj1 (Hsame Hall)).
  - apply (Hswap (Swap.entry 2 "Production") [] Swap.artifact_v2);
      [reflexivity|reflexivity|vm_compute; discriminate|reflexivity].
Defined.

(** ** Failed reloads *)

(** No tick turns a loaded process into an unloaded one. *)
Lemma tick_keeps_slot_populated x s :
  is_some (model (globals s)) = true ->
  is_some (model (globals (fst (check_for_new_model_tick x s)))) = true.
Proof.
  intros Hm. unfold check_for_new_model_tick.
  destruct (uri_is_http _); run_M; [|exact Hm].
  destruct (md_version _) as [cur|]; [|exact Hm].
  destruct (get_latest_versions x) as [[|latest rest]|e']; try exact Hm.
  destruct (String.eqb _ _); cbn [negb]; [exact Hm|].
  destruct (pyfunc_load_model x); [reflexivity|exact Hm].
Qed.

(** C3, as stated, fails: a manual reload whose registry load fails, with
    no local artifact file, leaves the process without a model although it
    was serving one, and /health answers 503 afterwards. *)
Lemma failed_manual_reload_empties_slot :
  pyfunc_load_model Outage.registry = Raised "Connection refused"
  /\ model (globals Swap.serving_v1) = Some Swap.artifact_v1
  /\ model (globals (fst (reload_model Outage.registry Swap.serving_v1))) = None
  /\ snd (health_check Outage.registry
            (fst (reload_model Outage.registry Swap.serving_v1)))
     = HTTPError 503 "Service unavailable: Model not loaded".
Proof. repeat split; vm_compute; reflexivity. Qed.

(** The manual reload is not a tick: against a registry that still
    presents the served version it loads the artifact again, where a tick
    skips. *)
Example manual_reload_loads_served_version_again :
  registry_loads (fst (reload_model Steady.registry Swap.serving_v1)) = 1%nat
  /\ registry_loads (fst (check_for_new_model_tick Steady.registry Swap.serving_v1))
     = 0%nat.
Proof. split; vm_compute; reflexivity. Qed.

(** ** Sorting and selection in compare_models *)

Lemma insert_desc_elem v w l : w ∈ insert_desc v l <-> w = v \/ w ∈ l.
Proof.
  induction l as [|u l IH]; cbn.
  - rewrite list_elem_of_singleton, elem_of_nil. tauto.
  - destruct (version u <=? version v).
    + rewrite !elem_of_cons. tauto.
    + rewrite !elem_of_cons, IH. tauto.
Qed.

Lemma sorted_versions_elem w l : w ∈ sorted_versions l <-> w ∈ l.
Proof.
  induction l as [|u l IH]; cbn; [reflexivity|].
  rewrite insert_desc_elem, elem_of_cons, IH. reflexivity.
Qed.

Lemma insert_desc_sorted v l :
  StronglySorted desc l -> StronglySorted desc (insert_desc v l).
Proof.
  induction 1 as [|u l Hs IH Hall]; cbn.
  - repeat constructor.
  - destruct (version u <=? version v) eqn:E.
    + apply Z.leb_le in E. constructor; [constructor; assumption|].
      constructor; [exact E|].
      eapply Forall_impl; [exact Hall|]. unfold desc. intros w Hw. lia.
    + apply Z.leb_gt in E. constructor; [exact IH|].
      apply Forall_forall. intros w Hw. apply insert_desc_elem in Hw.
      destruct Hw as [->|Hw]; [unfold desc; lia|].
      rewrite Forall_forall in Hall. apply Hall, Hw.
Qed.

Lemma sorted_versions_sorted l : StronglySorted desc (sorted_versions l).
Proof.
  induction l as [|u l IH]; cbn; [constructor|].
  apply insert_desc_sorted, IH.
Qed.

Section FirstMatch.

Variable f : ModelVersion -> bool.

(** In a list sorted with larger ordinals first, the first element that
    passes a test is the largest that passes it. *)
Lemma first_match_is_largest l p :
  StronglySorted desc l ->
  List.find f l = Some p ->
  p ∈ l /\ f p = true /\ forall v, v ∈ l -> f v = true -> version v <= version p.
Proof.
  induction 1 as [|u l Hs IH Hall]; cbn; [discriminate|].
  destruct (f u) eqn:E.
  - intros [= <-]. split; [left|]. split; [exact E|].
    intros v Hv _. apply elem_of_cons in Hv as [->|Hv]; [lia|].
    rewrite Forall_forall in Hall. apply (Hall v Hv).
  - intros Hf. destruct (IH Hf) as (Hin & Hp & Hmax).
    split; [right; exact Hin|]. split; [exact Hp|].
    intros v Hv Hfv. apply elem_of_cons in Hv as [->|Hv]; [congruence|].
    apply Hmax; assumption.
Qed.

Lemma find_none_no_match l :
  List.find f l = None -> forall v, v ∈ l -> f v = false.
Proof.
  induction l as [|u l IH]; cbn; intros H v Hv; [inversion Hv|].
  destruct (f u) eqn:E; [discriminate|].
  apply elem_of_cons in Hv as [->|Hv]; [exact E|apply IH; assumption].
Qed.

End FirstMatch.

(** The head of the Production entries is the first Production entry. *)
Lemma prod_versions_head l :
  head (prod_versions_of l)
  = List.find (fun v => bool_decide (current_stage v = "Production")) l.
Proof.
  unfold prod_versions_of. induction l as [|u l IH]; [reflexivity|].
  rewrite filter_cons. cbn [List.find].
  case_bool_decide; destruct (decide _); tauto.
Qed.

(** What compare_models selects out of the registry's list. *)
Lemma current_version_selected vs cur rest :
  prod_versions_of (sorted_versions vs) = cur :: rest ->
  cur ∈ vs /\ current_stage cur = "Production"
  /\ forall v, v ∈ vs -> current_stage v = "Production" -> version v <= version cur.
Proof.
  intros H.
  assert (Hf : List.find (fun v => bool_decide (current_stage v = "Production"))
                 (sorted_versions vs) = Some cur)
    by (rewrite <- prod_versions_head, H; reflexivity).
  destruct (first_match_is_largest _ _ _ (sorted_versions_sorted vs) Hf)
    as (Hin & Hp & Hmax).
  split; [apply sorted_versions_elem, Hin|].
  split; [exact (bool_decide_eq_true_1 _ Hp)|].
  intros v Hv Hs. apply Hmax; [apply sorted_versions_elem, Hv|].
  apply bool_decide_eq_true_2, Hs.
Qed.

Lemma no_current_version vs :
  prod_versions_of (sorted_versions vs) = [] ->
  forall v, v ∈ vs -> current_stage v <> "Production".
Proof.
  intros H v Hv Hs. unfold prod_versions_of in H.
  apply (filter_nil_not_elem_of _ _ v H Hs), sorted_versions_elem, Hv.
Qed.

Lemma previous_version_selected vs cur prev :
  previous_version_of (sorted_versions vs) cur = Some prev ->
  prev ∈ vs /\ version prev < version cur
  /\ forall v, v ∈ vs -> version v < version cur -> version v <= version prev.
Proof.
  intros H.
  destruct (first_match_is_largest _ _ _ (sorted_versions_sorted vs) H)
    as (Hin & Hp & Hmax).
  split; [apply sorted_versions_elem, Hin|].
  split; [apply Z.ltb_lt, Hp|].
  intros v Hv Hlt. apply Hmax; [apply sorted_versions_elem, Hv|].
  apply Z.ltb_lt, Hlt.
Qed.

Lemma no_previous_version vs cur :
  previous_version_of (sorted_versions vs) cur = None ->
  forall v, v ∈ vs -> ~ version v < version cur.
Proof.
  intros H v Hv Hlt.
  pose proof (find_none_no_match _ _ H v (proj2 (sorted_versions_elem v vs) Hv)) as E.
  cbn in E. apply Z.ltb_ge in E. lia.
Qed.

(** ** compare_models *)

(** compare_models reads the globals and never writes them. *)
Lemma compare_models_globals x s :
  globals (fst (compare_models x s)) = globals s.
Proof.
  unfold compare_models. destruct (model (globals s)); [|reflexivity]. run_M.
  destruct (search_model_versions x) as [vs|e]; [|reflexivity].
  destruct (length vs <? 1)%nat; [reflexivity|].
  destruct (prod_versions_of (sorted_versions vs)) as [|cur rest]; [reflexivity|].
  destruct (get_run x (run_id cur)) as [mc|e]; [|reflexivity].
  destruct (previous_version_of (sorted_versions vs) cur) as [prev|]; [|reflexivity].
  destruct (get_run x (run_id prev)) as [mp|e]; reflexivity.
Qed.

Lemma length_ltb_1 {A} (l : list A) : (length l <? 1)%nat = bool_decide (l = []).
Proof. destruct l; reflexivity. Qed.

Lemma no_production_filter vs :
  Forall (fun v => current_stage v <> "Production") vs ->
  prod_versions_of (sorted_versions vs) = [].
Proof.
  intros H. destruct (prod_versions_of (sorted_versions vs)) as [|cur rest] eqn:E;
    [reflexivity|].
  destruct (current_version_selected vs cur rest E) as (Hin & Hs & _).
  rewrite Forall_forall in H. destruct (H cur Hin Hs).
Qed.

Lemma compare_models_failure x s e :
  is_some (model (globals s)) = true ->
  RegistryFailure x e ->
  snd (compare_models x s) = OK200 (CompareError e).
Proof.
  unfold compare_models. destruct (model (globals s)) as [a|]; [intros _|discriminate].
  intros F. run_M.
  destruct F as [e Hs|Hs|vs Hs Hne Hall|vs cur rest e Hs Hp Hc
                 |vs cur rest mc prev e Hs Hp Hc Hprev Hpr]; rewrite Hs.
  - reflexivity.
  - reflexivity.
  - rewrite length_ltb_1, bool_decide_eq_false_2 by exact Hne.
    rewrite (no_production_filter vs Hall). reflexivity.
  - assert (Hne : vs <> []) by (intros ->; discriminate Hp).
    rewrite length_ltb_1, bool_decide_eq_false_2 by exact Hne.
    rewrite Hp, Hc. reflexivity.
  - assert (Hne : vs <> []) by (intros ->; discriminate Hp).
    rewrite length_ltb_1, bool_decide_eq_false_2 by exact Hne.
    rewrite Hp, Hc, Hprev, Hpr. reflexivity.
Qed.

(** The answer depends on the outside world only through the version
    listing and the runs. *)
Lemma compare_models_registry_only x x' s s' :
  search_model_versions x' = search_model_versions x ->
  (forall rid, get_run x' rid = get_run x rid) ->
  is_some (model (globals s')) = is_some (model (globals s)) ->
  snd (compare_models x' s') = snd (compare_models x s).
Proof.
  intros Hs Hr. unfold compare_models.
  destruct (model (globals s')), (model (globals s)); cbn [is_some];
    try discriminate; [|reflexivity].
  intros _. run_M. rewrite Hs.
  destruct (search_model_versions x) as [vs|e]; [|reflexivity].
  destruct (length vs <? 1)%nat; [reflexivity|].
  destruct (prod_versions_of (sorted_versions vs)) as [|cur rest]; [reflexivity|].
  rewrite Hr.
  destruct (get_run x (run_id cur)) as [mc|e]; [|reflexivity].
  destruct (previous_version_of (sorted_versions vs) cur) as [prev|]; [|reflexivity].
  rewrite Hr.
  destruct (get_run x (run_id prev)) as [mp|e]; reflexivity.
Qed.

(** C10. With a model loaded, no failure of the registry gets past
    compare_models: when the registry cannot be reached, lists no version,
    has none in Production, or a metrics run cannot be fetched, the answer
    is 200 with the dict that has the "error" field, has_comparison false
    and no metric value or delta in it, and the globals are as before. *)
Theorem compare_models_never_raises (x : Ext) (s : State) (e : string) :
  is_some (model (globals s)) = true ->
  RegistryFailure x e ->
  exists body,
    snd (compare_models x s) = OK200 body
    /\ body = CompareError e
    /\ has_comparison body = false
    /\ deltas_of body = None
    /\ globals (fst (compare_models x s)) = globals s.
Proof.
  intros Hm F. exists (CompareError e).
  split; [exact (compare_models_failure x s e Hm F)|].
  repeat (split; [reflexivity|]). apply compare_models_globals.
Qed.

Lemma compare_models_never_raises_witness :
  is_some (model (globals Swap.serving_v1)) = true
  /\ RegistryFailure Outage.registry "Connection refused"
  /\ snd (compare_models Outage.registry Swap.serving_v1)
     = OK200 (CompareError "Connection refused").
Proof.
  assert (F : RegistryFailure Outage.registry "Connection refused")
    by (apply Unreachable; reflexivity).
  split; [reflexivity|]. split; [exact F|].
  destruct (compare_models_never_raises Outage.registry Swap.serving_v1
              "Connection refused" eq_refl F) as (body & Hb & -> & _).
  exact Hb.
Defined.

(** C9. The report is determined by the registry's versions, stages and
    metric runs: a call made after another one, against an outside world
    that agrees with the first on the version listing and on the runs and
    may differ in everything else (the clock, the environment, the artifact
    store, the Production query, the local file), returns the answer of the
    first. The first call leaves the globals as they were; it only adds to
    the log and to the record of outside calls. *)
Theorem compare_models_twice_same_report (x x' : Ext) (s : State) :
  search_model_versions x' = search_model_versions x ->
  (forall rid, get_run x' rid = get_run x rid) ->
  snd (compare_models x' (fst (compare_models x s))) = snd (compare_models x s)
  /\ globals (fst (compare_models x s)) = globals s.
Proof.
  intros Hs Hr. split; [|apply compare_models_globals].
  apply (compare_models_registry_only x x' s _ Hs Hr).
  rewrite compare_models_globals. reflexivity.
Qed.

Lemma compare_models_twice_same_report_witness :
  search_model_versions Compare.registry_seen_elsewhere
  = search_model_versions Compare.registry
  /\ now Compare.registry_seen_elsewhere <> now Compare.registry
  /\ (exists c p d i,
        snd (compare_models Compare.registry Compare.serving_v2)
        = OK200 (CompareBoth c p d i))
  /\ snd (compare_models Compare.registry_seen_elsewhere
            (fst (compare_models Compare.registry Compare.serving_v2)))
     = snd (compare_models Compare.registry Compare.serving_v2).
Proof.
  split; [reflexivity|]. split; [discriminate|].
  split; [eexists _, _, _, _; vm_compute; reflexivity|].
  apply (compare_models_twice_same_report Compare.registry
           Compare.registry_seen_elsewhere Compare.serving_v2).
  - reflexivity.
  - intros rid. reflexivity.
Defined.

(** C5. When the registry lists a Production entry and the metric runs can
    be fetched, "current" is a Production entry (the one of highest ordinal,
    should there be several) and "previous" is an entry of the highest
    ordinal strictly below the current one, gaps or not; when no entry has a
    lower ordinal the answer is the first-version dict: has_comparison
    false, the message, the current version, and no deltas. *)
Theorem compare_models_selection (x : Ext) (s : State) (vs : list ModelVersion) :
  is_some (model (globals s)) = true ->
  search_model_versions x = Returned vs ->
  (exists v, v ∈ vs /\ current_stage v = "Production") ->
  (forall v, v ∈ vs -> exists metrics, get_run x (run_id v) = Returned metrics) ->
  exists cur,
    cur ∈ vs /\ current_stage cur = "Production"
    /\ (forall v, v ∈ vs -> current_stage v = "Production" -> version v <= version cur)
    /\ ((exists prev c p d i,
           snd (compare_models x s) = OK200 (CompareBoth c p d i)
           /\ vs_version c = version cur /\ vs_run_id c = run_id cur
           /\ prev ∈ vs
           /\ vs_version p = version prev /\ vs_run_id p = run_id prev
           /\ version prev < version cur
           /\ forall v, v ∈ vs -> version v < version cur -> version v <= version prev)
        \/ (exists c body,
              snd (compare_models x s) = OK200 body
              /\ body = CompareFirst "This is the first model version" c
              /\ has_comparison body = false
              /\ deltas_of body = None
              /\ vs_version c = version cur /\ vs_run_id c = run_id cur
              /\ forall v, v ∈ vs -> ~ version v < version cur)).
Proof.
  intros Hm Hs (v0 & Hv0 & Hst0) Hruns.
  assert (Hne : vs <> []) by (intros ->; inversion Hv0).
  destruct (prod_versions_of (sorted_versions vs)) as [|cur rest] eqn:Hp;
    [destruct (no_current_version vs Hp v0 Hv0 Hst0)|].
  destruct (current_version_selected vs cur rest Hp) as (Hin & Hst & Hmax).
  exists cur. split; [exact Hin|]. split; [exact Hst|]. split; [exact Hmax|].
  destruct (Hruns cur Hin) as [mc Hc].
  unfold compare_models. destruct (model (globals s)) as [a|]; [|discriminate].
  run_M. rewrite Hs, length_ltb_1, bool_decide_eq_false_2 by exact Hne.
  rewrite Hp, Hc.
  destruct (previous_version_of (sorted_versions vs) cur) as [prev|] eqn:Hprev.
  - destruct (previous_version_selected vs cur prev Hprev) as (Hpin & Hlt & Hpmax).
    destruct (Hruns prev Hpin) as [mp Hpr]. rewrite Hpr.
    left. eexists prev, _, _, _, _. split; [reflexivity|]. cbn.
    repeat (split; [first [reflexivity|assumption]|]). exact Hpmax.
  - right. eexists _, _. split; [reflexivity|]. split; [reflexivity|].
    cbn. repeat (split; [reflexivity|]).
    exact (no_previous_version vs cur Hprev).
Qed.

Example compare_models_scenario :
  exists c p d i,
    snd (compare_models Compare.registry Compare.serving_v2)
    = OK200 (CompareBoth c p d i)
    /\ vs_version c = 2 /\ vs_version p = 1
    /\ (mae_percent d == 375 # 10)%Q /\ imp_mae i = improved
    /\ vs_rmse c = 7%Q.
Proof.
  eexists _, _, _, _. split; [vm_compute; reflexivity|].
  cbn. repeat split; reflexivity.
Qed.

Lemma compare_models_selection_witness :
  exists cur,
    cur ∈ [Swap.entry 1 "Archived"; Swap.entry 2 "Production"]
    /\ version cur = 2.
Proof.
  destruct (compare_models_selection Compare.registry Compare.serving_v2
              [Swap.entry 1 "Archived"; Swap.entry 2 "Production"])
    as (cur & Hin & Hst & Hmax & _).
  - reflexivity.
  - reflexivity.
  - exists (Swap.entry 2 "Production"). split; [set_solver|reflexivity].
  - intros v Hv. apply elem_of_cons in Hv as [->|Hv];
      [eexists; vm_compute; reflexivity|].
    apply list_elem_of_singleton in Hv as ->. eexists; vm_compute; reflexivity.
  - exists cur. split; [exact Hin|].
    apply elem_of_cons in Hin as [->|Hin]; [discriminate Hst|].
    apply list_elem_of_singleton in Hin as ->. reflexivity.
Defined.

(** ** Doubles *)

Lemma Qltb_lt (a b : Q) : Qltb a b = true <-> (a < b)%Q.
Proof.
  unfold Qltb. rewrite negb_true_iff. split.
  - intros H. apply Qnot_le_lt. intros Hle.
    apply Qle_bool_iff in Hle. congruence.
  - intros H. destruct (Qle_bool b a) eqn:E; [|reflexivity].
    apply Qle_bool_iff in E. destruct (Qlt_not_le _ _ H E).
Qed.

Lemma Qltb_ge (a b : Q) : Qltb a b = false <-> (b <= a)%Q.
Proof.
  unfold Qltb. rewrite negb_false_iff. apply Qle_bool_iff.
Qed.

Lemma round_half_even_floor q : Qfloor q <= round_half_even q.
Proof.
  unfold round_half_even. cbv zeta.
  destruct (Qltb _ _); [lia|]. destruct (Qltb _ _); [lia|].
  destruct (Z.even _); lia.
Qed.

Lemma round_half_even_ceil q : round_half_even q <= Qfloor q + 1.
Proof.
  unfold round_half_even. cbv zeta.
  destruct (Qltb _ _); [lia|]. destruct (Qltb _ _); [lia|].
  destruct (Z.even _); lia.
Qed.

(** The nearest integer is within one half. *)
Lemma round_half_even_close q :
  (- (1 # 2) <= inject_Z (round_half_even q) - q
   /\ inject_Z (round_half_even q) - q <= 1 # 2)%Q.
Proof.
  unfold round_half_even. cbv zeta. set (f := Qfloor q).
  assert (Hlo : (inject_Z f <= q)%Q) by apply Qfloor_le.
  assert (Hhi : (q < inject_Z (f + 1))%Q) by apply Qlt_floor.
  rewrite inject_Z_plus in Hhi. change (inject_Z 1) with 1%Q in Hhi.
  assert (Hup : (inject_Z (f + 1) == inject_Z f + 1)%Q)
    by (rewrite inject_Z_plus; reflexivity).
  clearbody f.
  destruct (Qltb (q - inject_Z f) (1 # 2)) eqn:E1.
  - apply Qltb_lt in E1. split; lra.
  - apply Qltb_ge in E1.
    destruct (Qltb (1 # 2) (q - inject_Z f)) eqn:E2.
    + rewrite Hup. split; lra.
    + apply Qltb_ge in E2.
      destruct (Z.even f); [|rewrite Hup]; split; lra.
Qed.

(** [binade a] is the binade of a. *)
Lemma binade_lower a : (0 < a)%Q -> ((2 # 1) ^ binade a <= a)%Q.
Proof.
  intros Ha. unfold binade. cbv zeta.
  destruct (Qle_bool _ a) eqn:E; [apply Qle_bool_iff, E|].
  destruct a as [N D]. cbn [Qnum Qden] in *.
  assert (HN : 0 < N) by (unfold Qlt in Ha; cbn in Ha; lia).
  pose proof (Z.log2_spec N HN) as [HN1 _].
  pose proof (Z.log2_spec (Z.pos D) (Pos2Z.is_pos D)) as [_ HD2].
  pose proof (Z.log2_nonneg N) as HlN.
  pose proof (Z.log2_nonneg (Z.pos D)) as HlD.
  set (lN := Z.log2 N) in *. set (lD := Z.log2 (Z.pos D)) in *.
  replace (lN - lD - 1) with (lN - Z.succ lD) by lia.
  rewrite Qpower_minus by (intros H; discriminate H).
  change (2 # 1)%Q with (inject_Z 2).
  rewrite <- !Zpower_Qpower by lia.
  assert (HB : 0 < 2 ^ Z.succ lD) by (apply Z.pow_pos_nonneg; lia).
  destruct (2 ^ Z.succ lD) as [|B|B] eqn:EB; try lia.
  rewrite <- Qmake_Qdiv. unfold Qle. cbn [Qnum Qden].
  nia.
Qed.

Lemma binade_upper a : (0 < a)%Q -> (a < (2 # 1) ^ (binade a + 1))%Q.
Proof.
  intros Ha. unfold binade. cbv zeta.
  destruct (Qle_bool _ a) eqn:E.
  2:{ replace (Z.log2 (Qnum a) - Z.log2 (Z.pos (Qden a)) - 1 + 1)
        with (Z.log2 (Qnum a) - Z.log2 (Z.pos (Qden a))) by lia.
      apply Qnot_le_lt. intros L. apply Qle_bool_iff in L. congruence. }
  clear E. destruct a as [N D]. cbn [Qnum Qden] in *.
  assert (HN : 0 < N) by (unfold Qlt in Ha; cbn in Ha; lia).
  pose proof (Z.log2_spec N HN) as [_ HN2].
  pose proof (Z.log2_spec (Z.pos D) (Pos2Z.is_pos D)) as [HD1 _].
  pose proof (Z.log2_nonneg N) as HlN.
  pose proof (Z.log2_nonneg (Z.pos D)) as HlD.
  set (lN := Z.log2 N) in *. set (lD := Z.log2 (Z.pos D)) in *.
  replace (lN - lD + 1) with (Z.succ lN - lD) by lia.
  rewrite Qpower_minus by (intros H; discriminate H).
  change (2 # 1)%Q with (inject_Z 2).
  rewrite <- !Zpower_Qpower by lia.
  assert (HB : 0 < 2 ^ lD) by (apply Z.pow_pos_nonneg; lia).
  destruct (2 ^ lD) as [|B|B] eqn:EB; try lia.
  rewrite <- Qmake_Qdiv. unfold Qlt. cbn [Qnum Qden].
  nia.
Qed.

(** The significand of a nonzero double has 53 bits. *)
Lemma significand_range a :
  (0 < a)%Q ->
  2 ^ 52 <= round_half_even (a * (2 # 1) ^ (- (binade a - 52)))%Q <= 2 ^ 53.
Proof.
  intros Ha.
  pose proof (binade_lower a Ha) as Hlo.
  pose proof (binade_upper a Ha) as Hhi.
  set (e := binade a - 52) in *.
  assert (Hp : (0 < (2 # 1) ^ (- e))%Q) by (apply Qpower_0_lt; reflexivity).
  assert (E1 : ((2 # 1) ^ binade a * (2 # 1) ^ (- e) == inject_Z (2 ^ 52))%Q).
  { rewrite <- Qpower_plus by (intros H; discriminate H).
    replace (binade a + - e) with 52 by (unfold e; lia). reflexivity. }
  assert (E2 : ((2 # 1) ^ (binade a + 1) * (2 # 1) ^ (- e) == inject_Z (2 ^ 53))%Q).
  { rewrite <- Qpower_plus by (intros H; discriminate H).
    replace (binade a + 1 + - e) with 53 by (unfold e; lia). reflexivity. }
  assert (L1 : (inject_Z (2 ^ 52) <= a * (2 # 1) ^ (- e))%Q).
  { rewrite <- E1. apply Qmult_le_compat_r; [exact Hlo|apply Qlt_le_weak, Hp]. }
  assert (L2 : (a * (2 # 1) ^ (- e) < inject_Z (2 ^ 53))%Q).
  { rewrite <- E2. apply Qmult_lt_compat_r; [exact Hp|exact Hhi]. }
  pose proof (round_half_even_floor (a * (2 # 1) ^ (- e))%Q) as F1.
  pose proof (round_half_even_ceil (a * (2 # 1) ^ (- e))%Q) as F2.
  apply Qfloor_resp_le in L1. rewrite Qfloor_Z in L1.
  assert (L3 : Qfloor (a * (2 # 1) ^ (- e)) < 2 ^ 53).
  { apply Z.lt_le_trans with (Qfloor (inject_Z (2 ^ 53))); [|rewrite Qfloor_Z; lia].
    rewrite Zlt_Qlt.
    apply Qle_lt_trans with (a * (2 # 1) ^ (- e))%Q; [apply Qfloor_le|].
    rewrite Qfloor_Z. exact L2. }
  lia.
Qed.

Lemma double_of_zero q : (q == 0)%Q -> double_of q = 0%Q.
Proof.
  intros H. unfold double_of. apply Qeq_bool_iff in H. rewrite H. reflexivity.
Qed.

Lemma double_of_pos q : (0 < q)%Q -> (0 < double_of q)%Q.
Proof.
  intros Hq. unfold double_of.
  destruct (Qeq_bool q 0) eqn:E.
  { apply Qeq_bool_iff in E. rewrite E in Hq. discriminate Hq. }
  cbv zeta.
  assert (Hn : Qltb q 0 = false) by (apply Qltb_ge, Qlt_le_weak, Hq).
  rewrite Hn.
  assert (Ha : (0 < Qabs q)%Q) by (rewrite Qabs_pos; [exact Hq|apply Qlt_le_weak, Hq]).
  pose proof (significand_range _ Ha) as Hm.
  apply Qmult_lt_0_compat; [|apply Qpower_0_lt; reflexivity].
  unfold Qlt. cbn. lia.
Qed.

Lemma double_of_neg q : (q < 0)%Q -> (double_of q < 0)%Q.
Proof.
  intros Hq. unfold double_of.
  destruct (Qeq_bool q 0) eqn:E.
  { apply Qeq_bool_iff in E. rewrite E in Hq. discriminate Hq. }
  cbv zeta.
  assert (Hn : Qltb q 0 = true) by (apply Qltb_lt, Hq).
  rewrite Hn.
  assert (Ha : (0 < Qabs q)%Q).
  { rewrite Qabs_neg; [|apply Qlt_le_weak, Hq].
    apply (Qopp_lt_compat q 0) in Hq. exact Hq. }
  pose proof (significand_range _ Ha) as Hm.
  assert (Hr : (0 < inject_Z (round_half_even
                     (Qabs q * (2 # 1) ^ (- (binade (Qabs q) - 52))))
                   * (2 # 1) ^ (binade (Qabs q) - 52))%Q).
  { apply Qmult_lt_0_compat; [|apply Qpower_0_lt; reflexivity].
    unfold Qlt. cbn. lia. }
  apply (Qopp_lt_compat 0) in Hr. exact Hr.
Qed.

(** A double has the sign of the value it rounds. *)
Lemma double_of_sign q :
  ((0 < double_of q)%Q <-> (0 < q)%Q)
  /\ ((double_of q < 0)%Q <-> (q < 0)%Q)
  /\ ((double_of q == 0)%Q <-> (q == 0)%Q).
Proof.
  destruct (Q_dec q 0) as [[Hlt|Hgt]|Heq].
  - pose proof (double_of_neg q Hlt) as H.
    split; [|split]; split; intros H'; first [assumption|lra].
  - pose proof (double_of_pos q Hgt) as H.
    split; [|split]; split; intros H'; first [assumption|lra].
  - pose proof (double_of_zero q Heq) as H0. rewrite H0.
    split; [|split]; split; intros H'; first [assumption|reflexivity|lra].
Qed.

Lemma double_of_positive_accuracy a :
  (0 < a)%Q ->
  let e := binade a - 52 in
  let r := (inject_Z (round_half_even (a * (2 # 1) ^ (- e))) * (2 # 1) ^ e)%Q in
  (- (a * half_ulp) <= r - a /\ r - a <= a * half_ulp)%Q.
Proof.
  intros Ha e r. unfold half_ulp.
  pose proof (binade_lower a Ha) as Hb.
  pose proof (round_half_even_close (a * (2 # 1) ^ (- e))%Q) as [C1 C2].
  assert (Ht : (0 < (2 # 1) ^ e)%Q) by (apply Qpower_0_lt; reflexivity).
  assert (Hst : (a * (2 # 1) ^ (- e) * (2 # 1) ^ e == a)%Q).
  { rewrite <- Qmult_assoc, <- Qpower_plus by (intros H; discriminate H).
    replace (- e + e) with 0 by lia. change ((2 # 1) ^ 0)%Q with 1%Q. ring. }
  assert (Hte : ((2 # 1) ^ e <= a * (1 # 4503599627370496))%Q).
  { unfold e. replace (binade a - 52) with (binade a + - 52) by lia.
    rewrite Qpower_plus by (intros H; discriminate H).
    change ((2 # 1) ^ (-52))%Q with (1 # 4503599627370496)%Q.
    apply Qmult_le_compat_r; [exact Hb|discriminate]. }
  unfold r. clear r.
  set (s := (a * (2 # 1) ^ (- e))%Q) in *.
  set (m := inject_Z (round_half_even s)) in *.
  set (t := ((2 # 1) ^ e)%Q) in *.
  clearbody m. clearbody s. clearbody t.
  assert (D1 : (- (1 # 2) * t <= (m - s) * t)%Q)
    by (apply Qmult_le_compat_r; [exact C1|apply Qlt_le_weak, Ht]).
  assert (D2 : ((m - s) * t <= (1 # 2) * t)%Q)
    by (apply Qmult_le_compat_r; [exact C2|apply Qlt_le_weak, Ht]).
  assert (Er : ((m - s) * t == m * t - a)%Q) by (rewrite <- Hst; ring).
  rewrite Er in D1, D2.
  set (r := (m * t)%Q) in *. clearbody r.
  split; lra.
Qed.

(** Rounding to a double moves a value by at most 2^-53 of its size. *)
Lemma double_of_accuracy q :
  (Qabs (double_of q - q) <= Qabs q * half_ulp)%Q.
Proof.
  destruct (Q_dec q 0) as [[Hlt|Hgt]|Heq].
  - unfold double_of.
    destruct (Qeq_bool q 0) eqn:E.
    { apply Qeq_bool_iff in E. rewrite E in Hlt. discriminate Hlt. }
    cbv zeta. rewrite (proj2 (Qltb_lt q 0) Hlt).
    assert (Ha : (0 < Qabs q)%Q).
    { rewrite Qabs_neg; [|apply Qlt_le_weak, Hlt].
      apply (Qopp_lt_compat q 0) in Hlt. exact Hlt. }
    pose proof (double_of_positive_accuracy _ Ha) as [A1 A2]. cbv zeta in A1, A2.
    assert (Eq : (Qabs q == - q)%Q) by (apply Qabs_neg, Qlt_le_weak, Hlt).
    unfold half_ulp in *.
    set (r := (inject_Z _ * _)%Q) in *. clearbody r.
    set (a := Qabs q) in *. clearbody a.
    apply Qabs_Qle_condition. split; lra.
  - unfold double_of.
    destruct (Qeq_bool q 0) eqn:E.
    { apply Qeq_bool_iff in E. rewrite E in Hgt. discriminate Hgt. }
    cbv zeta. rewrite (proj2 (Qltb_ge q 0) (Qlt_le_weak _ _ Hgt)).
    assert (Ha : (0 < Qabs q)%Q) by (rewrite Qabs_pos; [exact Hgt|apply Qlt_le_weak, Hgt]).
    pose proof (double_of_positive_accuracy _ Ha) as [A1 A2]. cbv zeta in A1, A2.
    assert (Eq : (Qabs q == q)%Q) by (apply Qabs_pos, Qlt_le_weak, Hgt).
    unfold half_ulp in *.
    set (r := (inject_Z _ * _)%Q) in *. clearbody r.
    set (a := Qabs q) in *. clearbody a.
    apply Qabs_Qle_condition. split; lra.
  - rewrite (double_of_zero q Heq).
    assert (E : (0 - q == 0)%Q) by lra. rewrite E, Heq. discriminate.
Qed.

(** The same as a relative change. *)
Lemma double_of_relative q :
  exists e : Q, (Qabs e <= half_ulp /\ double_of q == q * (1 + e))%Q.
Proof.
  destruct (Qeq_dec q 0) as [Heq|Hne].
  - exists 0%Q. split; [discriminate|].
    rewrite (double_of_zero q Heq), Heq. reflexivity.
  - exists ((double_of q - q) / q)%Q. split; [|field; exact Hne].
    assert (Ha : (0 < Qabs q)%Q).
    { destruct (Qle_lt_or_eq _ _ (Qabs_nonneg q)) as [H|H]; [exact H|].
      destruct Hne. symmetry in H.
      destruct (Qabs_Qle_condition q 0) as [Hc _].
      destruct Hc as [H1 H2]; [rewrite H; discriminate|]. lra. }
    unfold Qdiv. rewrite Qabs_Qmult, Qabs_Qinv.
    apply Qle_shift_div_r; [exact Ha|].
    rewrite (Qmult_comm half_ulp). apply double_of_accuracy.
Qed.

(** ** Deltas *)

Lemma verdict_of_zero : verdict_of 0 = unchanged.
Proof. reflexivity. Qed.

Lemma verdict_of_improved q : verdict_of q = improved <-> (0 < q)%Q.
Proof.
  unfold verdict_of. destruct (Qltb 0 q) eqn:E.
  - apply Qltb_lt in E. tauto.
  - apply Qltb_ge in E. destruct (Qltb q 0); split; try discriminate; intros L; lra.
Qed.

Lemma verdict_of_degraded q : verdict_of q = degraded <-> (q < 0)%Q.
Proof.
  unfold verdict_of. destruct (Qltb 0 q) eqn:E.
  - apply Qltb_lt in E. split; [discriminate|intros L; lra].
  - destruct (Qltb q 0) eqn:E'.
    + apply Qltb_lt in E'. tauto.
    + apply Qltb_ge in E'. split; [discriminate|intros L; lra].
Qed.

Lemma verdict_of_unchanged q : verdict_of q = unchanged <-> (q == 0)%Q.
Proof.
  unfold verdict_of. destruct (Qltb 0 q) eqn:E.
  - apply Qltb_lt in E. split; [discriminate|intros L; lra].
  - apply Qltb_ge in E. destruct (Qltb q 0) eqn:E'.
    + apply Qltb_lt in E'. split; [discriminate|intros L; lra].
    + apply Qltb_ge in E'. split; [intros _; lra|reflexivity].
Qed.

Lemma percent_pos (a p : Q) : (0 < p)%Q -> (0 < a / p * 100 <-> 0 < a)%Q.
Proof.
  intros Hp. assert (Hne : ~ (p == 0)%Q) by (intros E; rewrite E in Hp; discriminate Hp).
  split; intros H.
  - assert (E : (a == (a / p * 100) * (p / 100))%Q) by (field; exact Hne).
    rewrite E. apply Qmult_lt_0_compat; [exact H|].
    apply Qlt_shift_div_l; [reflexivity|]. rewrite Qmult_0_l. exact Hp.
  - apply Qmult_lt_0_compat; [|reflexivity].
    apply Qlt_shift_div_l; [exact Hp|]. rewrite Qmult_0_l. exact H.
Qed.

Lemma percent_neg (a p : Q) : (0 < p)%Q -> (a / p * 100 < 0 <-> a < 0)%Q.
Proof.
  intros Hp. assert (Hne : ~ (p == 0)%Q) by (intros E; rewrite E in Hp; discriminate Hp).
  assert (E : ((- a) / p * 100 == - (a / p * 100))%Q) by (field; exact Hne).
  pose proof (percent_pos (- a) p Hp) as H. rewrite E in H.
  split; intros L.
  - assert (L' : (0 < - (a / p * 100))%Q) by lra. apply H in L'. lra.
  - assert (L' : (0 < - a)%Q) by lra. apply H in L'. lra.
Qed.

(** The percentage computed on floats has the sign of the difference it
    starts from. *)
Lemma float_percent_sign (a p : Q) :
  (0 < p)%Q ->
  let delta := float_mul (float_div (double_of a) p) 100 in
  ((0 < delta)%Q <-> (0 < a)%Q) /\ ((delta < 0)%Q <-> (a < 0)%Q)
  /\ ((delta == 0)%Q <-> (a == 0)%Q).
Proof.
  intros Hp. cbv zeta. unfold float_mul, float_div.
  destruct (double_of_sign a) as (A1 & A2 & _).
  set (x := double_of a) in *. clearbody x.
  pose proof (percent_pos x p Hp) as P1. pose proof (percent_neg x p Hp) as P2.
  destruct (double_of_sign (x / p)) as (B1 & B2 & _).
  set (y := double_of (x / p)) in *. clearbody y.
  destruct (double_of_sign (y * 100)) as (C1 & C2 & _).
  set (z := double_of (y * 100)) in *. clearbody z.
  set (w := (x / p)%Q) in *. clearbody w.
  assert (Hpos : (0 < z <-> 0 < a)%Q).
  { rewrite C1, <- A1, <- P1. split; intros L.
    - assert (L' : (0 < y)%Q) by lra. apply B1 in L'. lra.
    - assert (L' : (0 < w)%Q) by lra. apply B1 in L'. lra. }
  assert (Hneg : (z < 0 <-> a < 0)%Q).
  { rewrite C2, <- A2, <- P2. split; intros L.
    - assert (L' : (y < 0)%Q) by lra. apply B2 in L'. lra.
    - assert (L' : (w < 0)%Q) by lra. apply B2 in L'. lra. }
  split; [exact Hpos|]. split; [exact Hneg|].
  split; intros L.
  - destruct (Q_dec a 0) as [[L'|L']|L']; [| |exact L'].
    + apply Hneg in L'. lra.
    + apply Hpos in L'. lra.
  - destruct (Q_dec z 0) as [[L'|L']|L']; [| |exact L'].
    + apply Hneg in L'. lra.
    + apply Hpos in L'. lra.
Qed.

(** The verdict on a lower-is-better metric, in terms of the two values. *)
Lemma verdict_lower_is_better (p c : Q) :
  let v := verdict_of (guarded_delta_lower p c) in
  (v = improved <-> (0 < p /\ c < p)%Q)
  /\ (v = degraded <-> (0 < p /\ p < c)%Q)
  /\ (v = unchanged <-> (p <= 0 \/ c == p)%Q).
Proof.
  cbv zeta. unfold guarded_delta_lower, float_delta_lower, float_sub.
  destruct (Qltb 0 p) eqn:E.
  - apply Qltb_lt in E.
    rewrite verdict_of_improved, verdict_of_degraded, verdict_of_unchanged.
    destruct (float_percent_sign (p - c) p E) as (H1 & H2 & H3).
    rewrite H1, H2, H3. repeat split; intros; lra.
  - apply Qltb_ge in E. cbn.
    repeat split; try discriminate; try (intros [L _]; lra). left. exact E.
Qed.

(** The verdict on a higher-is-better metric, in terms of the two values. *)
Lemma verdict_higher_is_better (p c : Q) :
  let v := verdict_of (guarded_delta_higher p c) in
  (v = improved <-> (0 < p /\ p < c)%Q)
  /\ (v = degraded <-> (0 < p /\ c < p)%Q)
  /\ (v = unchanged <-> (p <= 0 \/ c == p)%Q).
Proof.
  cbv zeta. unfold guarded_delta_higher, float_delta_higher, float_sub.
  destruct (Qltb 0 p) eqn:E.
  - apply Qltb_lt in E.
    rewrite verdict_of_improved, verdict_of_degraded, verdict_of_unchanged.
    destruct (float_percent_sign (c - p) p E) as (H1 & H2 & H3).
    rewrite H1, H2, H3. repeat split; intros; lra.
  - apply Qltb_ge in E. cbn.
    repeat split; try discriminate; try (intros [L _]; lra). left. exact E.
Qed.

(** The formula on floats is the formula of the specification after three
    roundings. *)
Lemma float_percent_accuracy (a p : Q) :
  ~ (p == 0)%Q ->
  three_roundings (a / p * 100) (float_mul (float_div (double_of a) p) 100).
Proof.
  intros Hp. unfold float_mul, float_div.
  destruct (double_of_relative a) as (e1 & B1 & E1).
  set (x := double_of a) in *. clearbody x.
  destruct (double_of_relative (x / p)) as (e2 & B2 & E2).
  set (y := double_of (x / p)) in *. clearbody y.
  destruct (double_of_relative (y * 100)) as (e3 & B3 & E3).
  exists e1, e2, e3. repeat (split; [assumption|]).
  rewrite E3, E2, E1. field. exact Hp.
Qed.

Lemma float_delta_lower_accuracy (p c : Q) :
  (0 < p)%Q -> three_roundings (delta_lower_is_better p c) (float_delta_lower p c).
Proof.
  intros Hp. apply float_percent_accuracy. intros E. rewrite E in Hp. discriminate Hp.
Qed.

Lemma float_delta_higher_accuracy (p c : Q) :
  (0 < p)%Q -> three_roundings (delta_higher_is_better p c) (float_delta_higher p c).
Proof.
  intros Hp. apply float_percent_accuracy. intros E. rewrite E in Hp. discriminate Hp.
Qed.

(** ** round(x, 2) *)

Lemma hundredths_close (y : Q) (n : Z) :
  (- (1 # 2) <= inject_Z n - y /\ inject_Z n - y <= 1 # 2)%Q ->
  (- (1 # 200) <= (n # 100) - y * (1 # 100)
   /\ (n # 100) - y * (1 # 100) <= 1 # 200)%Q.
Proof.
  intros [H1 H2]. pose proof (Qmake_Qdiv n 100) as E.
  unfold Qdiv in E. change (/ inject_Z (Z.pos 100))%Q with (1 # 100)%Q in E.
  set (r := (n # 100)%Q) in *. set (z := inject_Z n) in *. clearbody r z.
  split; lra.
Qed.

(** The decimal is within half a hundredth of the value. *)
Lemma py_round2_close (q : Q) :
  (- (1 # 200) <= py_round2 q - q /\ py_round2 q - q <= 1 # 200)%Q.
Proof.
  unfold py_round2. cbv zeta.
  set (y := (q * 100)%Q). set (f := Qfloor y).
  assert (Hlo : (inject_Z f <= y)%Q) by apply Qfloor_le.
  assert (Hhi : (y < inject_Z (f + 1))%Q) by apply Qlt_floor.
  rewrite inject_Z_plus in Hhi. change (inject_Z 1) with 1%Q in Hhi.
  assert (Hq : (q == y * (1 # 100))%Q) by (unfold y; lra).
  assert (Hdown : (y - inject_Z f <= 1 # 2)%Q ->
                  (- (1 # 200) <= (f # 100) - q /\ (f # 100) - q <= 1 # 200)%Q).
  { intros L. destruct (hundredths_close y f) as [A B]; [split; lra|].
    set (r := (f # 100)%Q) in *. clearbody r. split; lra. }
  assert (Hup : (1 # 2 <= y - inject_Z f)%Q ->
                (- (1 # 200) <= (f + 1 # 100) - q
                 /\ (f + 1 # 100) - q <= 1 # 200)%Q).
  { intros L. destruct (hundredths_close y (f + 1)) as [A B].
    - rewrite inject_Z_plus. change (inject_Z 1) with 1%Q. split; lra.
    - set (r := (f + 1 # 100)%Q) in *. clearbody r. split; lra. }
  destruct (Qltb (y - inject_Z f) (1 # 2)) eqn:E1.
  - apply Qltb_lt in E1. apply Hdown. lra.
  - apply Qltb_ge in E1.
    destruct (Qltb (1 # 2) (y - inject_Z f)) eqn:E2.
    + apply Hup. exact E1.
    + apply Qltb_ge in E2. destruct (Z.even f); [apply Hdown|apply Hup]; assumption.
Qed.

(** The decimal is on the side of zero of the value. *)
Lemma py_round2_sign (q : Q) :
  ((0 <= q -> 0 <= py_round2 q) /\ (q <= 0 -> py_round2 q <= 0))%Q.
Proof.
  unfold py_round2. cbv zeta.
  set (y := (q * 100)%Q). set (f := Qfloor y).
  assert (Hlo : (inject_Z f <= y)%Q) by apply Qfloor_le.
  assert (Hhi : (y < inject_Z (f + 1))%Q) by apply Qlt_floor.
  rewrite inject_Z_plus in Hhi. change (inject_Z 1) with 1%Q in Hhi.
  assert (Hn : forall n : Z, (0 <= n -> (0 <= n # 100)%Q) /\ (n <= 0 -> (n # 100 <= 0)%Q)).
  { intros n. unfold Qle. cbn. split; lia. }
  assert (Hy : (y == q * 100)%Q) by reflexivity.
  clearbody f. clearbody y.
  set (zf := inject_Z f) in *.
  assert (Hzf : zf = inject_Z f) by reflexivity. clearbody zf.
  split; intros Hq.
  - assert (Hf : 0 <= f).
    { apply Z.lt_succ_r. rewrite Zlt_Qlt. unfold Z.succ.
      rewrite inject_Z_plus, <- Hzf. change (inject_Z 0) with 0%Q.
      change (inject_Z 1) with 1%Q. lra. }
    destruct (Qltb _ _); [apply Hn; lia|].
    destruct (Qltb _ _); [apply Hn; lia|].
    destruct (Z.even f); apply Hn; lia.
  - assert (Hf : f <= 0).
    { rewrite Zle_Qle, <- Hzf. change (inject_Z 0) with 0%Q. lra. }
    destruct (Qltb (y - zf) (1 # 2)) eqn:E1; [apply Hn; lia|].
    apply Qltb_ge in E1.
    assert (Hf' : f + 1 <= 0).
    { apply Z.lt_succ_r. unfold Z.succ. apply Z.add_lt_mono_r.
      rewrite Zlt_Qlt, <- Hzf. change (inject_Z 0) with 0%Q. lra. }
    destruct (Qltb _ _); [apply Hn; lia|].
    destruct (Z.even f); apply Hn; lia.
Qed.

Lemma py_round2_hundredths (q : Q) : exists n : Z, py_round2 q = n # 100.
Proof. unfold py_round2. eexists. reflexivity. Qed.

(** round(x, 2) is the double of a whole number of hundredths within half
    a hundredth of x. *)
Lemma py_round_hundredths (q : Q) :
  exists n : Z,
    py_round q = double_of (n # 100)
    /\ (- (1 # 200) <= (n # 100) - q /\ (n # 100) - q <= 1 # 200)%Q.
Proof.
  destruct (py_round2_hundredths q) as [n Hn]. exists n.
  unfold py_round. rewrite <- Hn. split; [reflexivity|apply py_round2_close].
Qed.

(** round(x, 2) is on the side of zero of x. *)
Lemma py_round_sign (q : Q) :
  ((0 <= q -> 0 <= py_round q) /\ (q <= 0 -> py_round q <= 0))%Q.
Proof.
  unfold py_round. destruct (py_round2_sign q) as [Hpos Hneg].
  destruct (double_of_sign (py_round2 q)) as (S1 & S2 & S3).
  split; intros Hq.
  - specialize (Hpos Hq).
    destruct (Qle_lt_or_eq _ _ Hpos) as [L|L].
    + apply Qlt_le_weak, S1, L.
    + symmetry in L. apply S3 in L. rewrite L. discriminate.
  - specialize (Hneg Hq).
    destruct (Qle_lt_or_eq _ _ Hneg) as [L|L].
    + apply Qlt_le_weak, S2, L.
    + apply S3 in L. rewrite L. discriminate.
Qed.

Lemma py_round_zero : py_round 0 = 0%Q.
Proof. reflexivity. Qed.

(** ** What a comparison is made of *)

Lemma compare_models_both x s s' c p d i :
  compare_models x s = (s', OK200 (CompareBoth c p d i)) ->
  exists vs cur rest prev mc mp,
    search_model_versions x = Returned vs
    /\ prod_versions_of (sorted_versions vs) = cur :: rest
    /\ previous_version_of (sorted_versions vs) cur = Some prev
    /\ get_run x (run_id cur) = Returned mc
    /\ get_run x (run_id prev) = Returned mp
    /\ c = summary cur (metric mc "mae" "test_mae") (metric mc "rmse" "test_rmse")
                   (metric mc "r2_score" "test_r2")
    /\ p = summary prev (metric mp "mae" "test_mae") (metric mp "rmse" "test_rmse")
                   (metric mp "r2_score" "test_r2")
    /\ d = {| mae_percent := py_round (guarded_delta_lower (vs_mae p) (vs_mae c));
              rmse_percent := py_round (guarded_delta_lower (vs_rmse p) (vs_rmse c));
              r2_percent :=
                py_round (guarded_delta_higher (vs_r2_score p) (vs_r2_score c)) |}
    /\ i = {| imp_mae := verdict_of (guarded_delta_lower (vs_mae p) (vs_mae c));
              imp_rmse := verdict_of (guarded_delta_lower (vs_rmse p) (vs_rmse c));
              imp_r2 :=
                verdict_of (guarded_delta_higher (vs_r2_score p) (vs_r2_score c)) |}.
Proof.
  unfold compare_models. destruct (model (globals s)) as [a|]; [|discriminate].
  run_M.
  destruct (search_model_versions x) as [vs|e] eqn:Hs; [|discriminate].
  destruct (length vs <? 1)%nat; [discriminate|].
  destruct (prod_versions_of (sorted_versions vs)) as [|cur rest] eqn:Hp; [discriminate|].
  destruct (get_run x (run_id cur)) as [mc|e] eqn:Hc; [|discriminate].
  destruct (previous_version_of (sorted_versions vs) cur) as [prev|] eqn:Hprev;
    [|discriminate].
  destruct (get_run x (run_id prev)) as [mp|e] eqn:Hpr; [|discriminate].
  intros [= <- <- <- <- <-].
  exists vs, cur, rest, prev, mc, mp.
  repeat (split; [reflexivity || assumption|]). reflexivity.
Qed.

(** C4, as stated, fails: the previous R2 is -0.5, neither zero nor
    absent, and the R2 delta is short-circuited to 0 where the formula gives
    (0.5 - (-0.5)) / (-0.5) * 100 = -200. *)
Lemma negative_previous_r2_short_circuits :
  exists c p d i,
    snd (compare_models Compare.registry_negative_r2 Compare.serving_v2)
    = OK200 (CompareBoth c p d i)
    /\ vs_r2_score p = (-1) # 2
    /\ vs_r2_score c = 1 # 2
    /\ ~ (vs_r2_score p == 0)%Q
    /\ (r2_percent d == 0)%Q
    /\ (delta_higher_is_better (vs_r2_score p) (vs_r2_score c) == -200)%Q
    /\ ~ (r2_percent d == delta_higher_is_better (vs_r2_score p) (vs_r2_score c))%Q.
Proof.
  eexists _, _, _, _. split; [vm_compute; reflexivity|]. cbn.
  repeat split; try reflexivity; intros H; vm_compute in H; discriminate H.
Qed.

(** The reported delta follows the float: from MAE 20000.0 to 19999.0 the
    formula gives 0.005 exactly, the float computed is the double next
    above 0.005, and the comparison reports 0.01. *)
Example compare_models_small_gain :
  exists c p d i,
    snd (compare_models Compare.registry_small_gain Compare.serving_v2)
    = OK200 (CompareBoth c p d i)
    /\ vs_mae p = 20000%Q /\ vs_mae c = 19999%Q
    /\ (delta_lower_is_better (vs_mae p) (vs_mae c) == 5 # 1000)%Q
    /\ (5 # 1000 < float_delta_lower (vs_mae p) (vs_mae c))%Q
    /\ (mae_percent d == double_of (1 # 100))%Q
    /\ imp_mae i = improved.
Proof.
  eexists _, _, _, _. split; [vm_compute; reflexivity|]. cbn.
  repeat split; vm_compute; reflexivity.
Qed.

(** C4, amended. In a comparison with a baseline, "current" and
    "previous" carry the metrics of the runs of the two selected versions,
    an absent metric reading as 0. When the previous value is strictly
    positive, the MAE and RMSE deltas are (previous - current) / previous *
    100 and the R2 delta is (current - previous) / previous * 100, computed
    on floats: the value of the formula after the roundings of the three
    operations. When the previous value is zero, negative or absent the
    delta is 0 and no division takes place. The verdict is taken from that
    delta, and the reported delta is round(delta, 2). *)
Theorem compare_models_deltas (x : Ext) (s s' : State)
    (c p : VersionSummary) (d : Deltas) (i : Improvement) :
  compare_models x s = (s', OK200 (CompareBoth c p d i)) ->
  ((0 < vs_mae p)%Q ->
     mae_percent d = py_round (float_delta_lower (vs_mae p) (vs_mae c))
     /\ imp_mae i = verdict_of (float_delta_lower (vs_mae p) (vs_mae c))
     /\ three_roundings (delta_lower_is_better (vs_mae p) (vs_mae c))
                        (float_delta_lower (vs_mae p) (vs_mae c)))
  /\ ((vs_mae p <= 0)%Q -> (mae_percent d == 0)%Q /\ imp_mae i = unchanged)
  /\ ((0 < vs_rmse p)%Q ->
        rmse_percent d = py_round (float_delta_lower (vs_rmse p) (vs_rmse c))
        /\ imp_rmse i = verdict_of (float_delta_lower (vs_rmse p) (vs_rmse c))
        /\ three_roundings (delta_lower_is_better (vs_rmse p) (vs_rmse c))
                           (float_delta_lower (vs_rmse p) (vs_rmse c)))
  /\ ((vs_rmse p <= 0)%Q -> (rmse_percent d == 0)%Q /\ imp_rmse i = unchanged)
  /\ ((0 < vs_r2_score p)%Q ->
        r2_percent d = py_round (float_delta_higher (vs_r2_score p) (vs_r2_score c))
        /\ imp_r2 i = verdict_of (float_delta_higher (vs_r2_score p) (vs_r2_score c))
        /\ three_roundings (delta_higher_is_better (vs_r2_score p) (vs_r2_score c))
                           (float_delta_higher (vs_r2_score p) (vs_r2_score c)))
  /\ ((vs_r2_score p <= 0)%Q -> (r2_percent d == 0)%Q /\ imp_r2 i = unchanged)
  /\ exists vs cur rest prev mc mp,
       search_model_versions x = Returned vs
       /\ prod_versions_of (sorted_versions vs) = cur :: rest
       /\ previous_version_of (sorted_versions vs) cur = Some prev
       /\ get_run x (run_id cur) = Returned mc
       /\ get_run x (run_id prev) = Returned mp
       /\ c = summary cur (metric mc "mae" "test_mae") (metric mc "rmse" "test_rmse")
                      (metric mc "r2_score" "test_r2")
       /\ p = summary prev (metric mp "mae" "test_mae") (metric mp "rmse" "test_rmse")
                      (metric mp "r2_score" "test_r2").
Proof.
  intros H.
  destruct (compare_models_both x s s' c p d i H)
    as (vs & cur & rest & prev & mc & mp & Hs & Hcur & Hprev & Hc & Hp & Ec & Ep
        & Ed & Ei).
  split; [|split; [|split; [|split; [|split; [|split]]]]].
  7:{ exists vs, cur, rest, prev, mc, mp. repeat (split; [assumption|]). assumption. }
  all: rewrite Ed, Ei;
    cbn [mae_percent rmse_percent r2_percent imp_mae imp_rmse imp_r2];
    unfold guarded_delta_lower, guarded_delta_higher; intros L.
  - pose proof (float_delta_lower_accuracy _ (vs_mae c) L) as A.
    apply Qltb_lt in L. rewrite L. repeat split. exact A.
  - apply Qltb_ge in L. rewrite L. split; reflexivity.
  - pose proof (float_delta_lower_accuracy _ (vs_rmse c) L) as A.
    apply Qltb_lt in L. rewrite L. repeat split. exact A.
  - apply Qltb_ge in L. rewrite L. split; reflexivity.
  - pose proof (float_delta_higher_accuracy _ (vs_r2_score c) L) as A.
    apply Qltb_lt in L. rewrite L. repeat split. exact A.
  - apply Qltb_ge in L. rewrite L. split; reflexivity.
Qed.

Lemma compare_models_deltas_witness :
  exists c p d,
    vs_mae p = 8%Q /\ vs_mae c = 5%Q
    /\ (0 < vs_mae p)%Q
    /\ mae_percent d = py_round (float_delta_lower (vs_mae p) (vs_mae c))
    /\ (mae_percent d == 375 # 10)%Q.
Proof.
  assert (H : exists s' c p d i,
             compare_models Compare.registry Compare.serving_v2
             = (s', OK200 (CompareBoth c p d i))
             /\ vs_mae p = 8%Q /\ vs_mae c = 5%Q).
  { eexists _, _, _, _, _. split; [vm_compute; reflexivity|]. split; reflexivity. }
  destruct H as (s' & c & p & d & i & H & Hp & Hc).
  destruct (compare_models_deltas _ _ _ _ _ _ _ H) as (Hmae & _).
  assert (Hpos : (0 < vs_mae p)%Q) by (rewrite Hp; reflexivity).
  exists c, p, d.
  split; [exact Hp|]. split; [exact Hc|]. split; [exact Hpos|].
  split; [exact (proj1 (Hmae Hpos))|].
  rewrite (proj1 (Hmae Hpos)), Hp, Hc. vm_compute. reflexivity.
Defined.

(** ** Validation *)

Lemma field_float_out lo hi q :
  ~ (lo <= q /\ q <= hi)%Q -> field_float lo hi (Some q) = None.
Proof.
  intros H. cbn. destruct (Qle_bool lo q) eqn:E1; [|reflexivity].
  destruct (Qle_bool q hi) eqn:E2; [|reflexivity].
  apply Qle_bool_iff in E1, E2. tauto.
Qed.

Lemma field_int_out lo hi z :
  ~ (lo <= z <= hi) -> field_int lo hi (Some z) = None.
Proof.
  intros H. cbn. destruct (lo <=? z) eqn:E1; [|reflexivity].
  destruct (z <=? hi) eqn:E2; [|reflexivity].
  apply Z.leb_le in E1, E2. lia.
Qed.

Lemma field_float_kept lo hi v q : field_float lo hi v = Some q -> v = Some q.
Proof.
  destruct v as [q'|]; cbn; [|discriminate].
  destruct (Qle_bool lo q' && Qle_bool q' hi); [tauto|discriminate].
Qed.

Lemma field_int_kept lo hi v z : field_int lo hi v = Some z -> v = Some z.
Proof.
  destruct v as [z'|]; cbn; [|discriminate].
  destruct ((lo <=? z') && (z' <=? hi)); [tauto|discriminate].
Qed.

(** A body that passes validation reaches the handler with the values it
    was sent with. *)
Lemma validate_keeps_values raw request :
  validate raw = Some request ->
  raw_advertising_spend raw = Some (advertising_spend request)
  /\ raw_promotions raw = Some (promotions request)
  /\ raw_day_of_week raw = Some (day_of_week request)
  /\ raw_month raw = Some (month request)
  /\ raw_is_weekend raw = Some (is_weekend request).
Proof.
  unfold validate.
  destruct (field_float 0 10000 _) as [a|] eqn:Ea; [|discriminate].
  destruct (field_int 0 1 (raw_promotions raw)) as [p|] eqn:Ep; [|discriminate].
  destruct (field_int 0 6 _) as [d|] eqn:Ed; [|discriminate].
  destruct (field_int 1 12 _) as [m|] eqn:Em; [|discriminate].
  destruct (field_int 0 1 (raw_is_weekend raw)) as [w|] eqn:Ew; [|discriminate].
  intros [= <-]. cbn.
  rewrite (field_float_kept _ _ _ _ Ea), (field_int_kept _ _ _ _ Ep),
    (field_int_kept _ _ _ _ Ed), (field_int_kept _ _ _ _ Em),
    (field_int_kept _ _ _ _ Ew).
  repeat split.
Qed.

Lemma validate_out_of_range raw : out_of_range raw -> validate raw = None.
Proof.
  unfold validate.
  intros [(a & E & H)|[(p & E & H)|[(d & E & H)|[(m & E & H)|(w & E & H)]]]];
    rewrite E.
  - rewrite field_float_out by exact H. reflexivity.
  - rewrite (field_int_out 0 1 p) by lia. repeat case_match; reflexivity.
  - rewrite (field_int_out 0 6 d) by exact H. repeat case_match; reflexivity.
  - rewrite (field_int_out 1 12 m) by exact H. repeat case_match; reflexivity.
  - rewrite (field_int_out 0 1 w) by lia. repeat case_match; reflexivity.
Qed.

(** C6. A body with a field outside its declared range is answered 422;
    the process state is untouched, so no artifact is invoked for it, and
    no request object (with a clamped value or otherwise) is built from
    it. *)
Theorem out_of_range_request_rejected (x : Ext) (raw : RawRequest) (s : State) :
  out_of_range raw ->
  validate raw = None
  /\ (exists detail, snd (route_predict x raw s) = HTTPError 422 detail)
  /\ fst (route_predict x raw s) = s
  /\ predict_calls (fst (route_predict x raw s)) = predict_calls s.
Proof.
  intros H. pose proof (validate_out_of_range raw H) as E.
  unfold route_predict. rewrite E. cbn. eauto.
Qed.

Lemma out_of_range_request_rejected_witness :
  out_of_range Requests.day_seven
  /\ fst (route_predict Swap.registry Requests.day_seven Swap.serving_v1)
     = Swap.serving_v1.
Proof.
  assert (H : out_of_range Requests.day_seven).
  { right. right. left. exists 7. split; [reflexivity|lia]. }
  split; [exact H|].
  apply (out_of_range_request_rejected Swap.registry Requests.day_seven
           Swap.serving_v1 H).
Defined.

(** ** Confidence *)

Lemma predict_confidence x request s s' r :
  predict x request s = (s', OK200 r) ->
  confidence r = confidence_of (prediction r).
Proof.
  unfold predict. destruct (model (globals s)) as [a|] eqn:Hm; [|discriminate].
  run_M. rewrite Hm. destruct (a request) as [p|e]; run_M; [|discriminate].
  destruct (model_version (globals s)) as [tag|]; [|discriminate].
  intros [= _ <-]. reflexivity.
Qed.

(** C7. A successful prediction carries confidence 0.85 when its value is
    strictly between 80 and 200 and 0.70 otherwise, the bounds 80 and 200
    included; no other confidence is produced. *)
Theorem confidence_two_buckets (x : Ext) (raw : RawRequest) (s s' : State)
    (r : PredictionResponse) :
  route_predict x raw s = (s', OK200 r) ->
  ((80 < prediction r /\ prediction r < 200)%Q -> confidence r = 85 # 100)
  /\ (~ (80 < prediction r /\ prediction r < 200)%Q -> confidence r = 70 # 100)
  /\ ((prediction r == 80)%Q \/ (prediction r == 200)%Q -> confidence r = 70 # 100)
  /\ (confidence r = 85 # 100 \/ confidence r = 70 # 100).
Proof.
  unfold route_predict. destruct (validate raw) as [request|]; [|discriminate].
  intros H. rewrite (predict_confidence x request s s' r H).
  unfold confidence_of.
  destruct (Qltb 80 (prediction r)) eqn:E1, (Qltb (prediction r) 200) eqn:E2; cbn;
    try apply Qltb_lt in E1; try apply Qltb_lt in E2;
    try apply Qltb_ge in E1; try apply Qltb_ge in E2;
    (split; [|split; [|split]]); try tauto;
    try (intros [L1 L2]; exfalso;
         first [exact (Qlt_not_le _ _ L1 E1)|exact (Qlt_not_le _ _ L2 E2)]).
  intros [L|L]; exfalso; rewrite L in *;
    first [exact (Qlt_irrefl _ E1)|exact (Qlt_irrefl _ E2)].
Qed.

Lemma confidence_two_buckets_witness :
  exists s' r,
    route_predict Swap.registry Requests.valid Swap.serving_v1 = (s', OK200 r)
    /\ prediction r = 100%Q
    /\ confidence r = 85 # 100.
Proof.
  assert (H : exists s' r,
             route_predict Swap.registry Requests.valid Swap.serving_v1
             = (s', OK200 r) /\ prediction r = 100%Q).
  { eexists _, _. split; [vm_compute; reflexivity|reflexivity]. }
  destruct H as (s' & r & H & Hp).
  exists s', r. split; [exact H|]. split; [exact Hp|].
  apply (confidence_two_buckets _ _ _ _ _ H).
  rewrite Hp. split; reflexivity.
Defined.

(** ** Startup without a registry *)

(** A process whose metadata carries no version skips every tick. *)
Lemma ticks_without_version xs : forall s,
  md_version (model_metadata (globals s)) = None ->
  check_for_new_model_loop xs s = s.
Proof.
  induction xs as [|x xs IH]; intros s H; cbn; [reflexivity|].
  destruct (AUTO_RELOAD_ENABLED x); [|reflexivity].
  rewrite (tick_no_version x s H). apply IH, H.
Qed.

Lemma load_model_falls_back x s a :
  registry_unreachable x ->
  local_model_file x = Some (Returned a) ->
  snd (load_model x s) = Returned tt
  /\ globals (fst (load_model x s))
     = {| model := Some a; model_version := Some "Local File";
          model_metadata := local_metadata |}.
Proof.
  intros (Hc & Hr) Hf. unfold load_model, load_local_model. rewrite Hc, Hf.
  run_M.
  destruct Hr as [(e & ->)|(m & e & -> & ->)]; run_M; cbn [is_some andb];
    destruct (AUTO_RELOAD_ENABLED x), (truthy (MLFLOW_TRACKING_URI x));
    split; reflexivity.
Qed.

(** C8. When the registry does not answer at startup and the local
    artifact file is there, startup returns normally with the model of the
    local file in the globals, tagged "Local File" with source
    "local_file"; /health then answers 200; and every later tick of the
    reload loop leaves the process state as it is: it skips before any
    registry call, and logs no error. *)
Theorem startup_uses_local_file_when_registry_down
    (x : Ext) (s : State) (a : Artifact) (ticks : list Ext) :
  registry_unreachable x ->
  local_model_file x = Some (Returned a) ->
  let s' := fst (load_model x s) in
  snd (load_model x s) = Returned tt
  /\ model (globals s') = Some a
  /\ model_version (globals s') = Some "Local File"
  /\ md_source (model_metadata (globals s')) = Some "local_file"
  /\ (exists body, snd (health_check x s') = OK200 body
                   /\ model_loaded body = true
                   /\ hr_model_version body = "Local File")
  /\ check_for_new_model_loop ticks s' = s'.
Proof.
  intros Hr Hf s'. destruct (load_model_falls_back x s a Hr Hf) as [Hret Hg].
  subst s'. split; [exact Hret|].
  split; [rewrite Hg; reflexivity|]. split; [rewrite Hg; reflexivity|].
  split; [rewrite Hg; reflexivity|]. split.
  - unfold health_check. rewrite Hg. cbn. eauto.
  - apply ticks_without_version. rewrite Hg. reflexivity.
Qed.

Lemma startup_uses_local_file_when_registry_down_witness :
  registry_unreachable Outage.registry_with_local_file
  /\ model (globals (fst (load_model Outage.registry_with_local_file initial_state)))
     = Some Swap.artifact_v1
  /\ check_for_new_model_loop [Swap.registry; Outage.registry]
       (fst (load_model Outage.registry_with_local_file initial_state))
     = fst (load_model Outage.registry_with_local_file initial_state).
Proof.
  assert (Hr : registry_unreachable Outage.registry_with_local_file).
  { split; [reflexivity|]. left. eexists. reflexivity. }
  destruct (startup_uses_local_file_when_registry_down
              Outage.registry_with_local_file initial_state Swap.artifact_v1
              [Swap.registry; Outage.registry] Hr eq_refl)
    as (_ & Hm & _ & _ & _ & Ht).
  split; [exact Hr|]. split; [exact Hm|exact Ht].
Defined.

(** * Further properties of the backend *)

(** ** The reload tick absorbs its failures and settles *)

(** X1. Whatever the registry answers, a tick does not raise: the failures of
    the version query and of the artifact load end in a log line. *)
Theorem tick_never_raises (x : Ext) (s : State) :
  snd (check_for_new_model_tick x s) = Returned tt.
Proof.
  unfold check_for_new_model_tick.
  destruct (uri_is_http _); run_M; [|reflexivity].
  destruct (md_version _) as [cur|]; [|reflexivity].
  destruct (get_latest_versions x) as [[|latest rest]|e]; try reflexivity.
  destruct (String.eqb _ _); cbn [negb]; [reflexivity|].
  destruct (pyfunc_load_model x); reflexivity.
Qed.

(** The globals a tick leaves depend on the globals it found, not on the
    trace. *)
Lemma tick_globals_only x s1 s2 :
  globals s1 = globals s2 ->
  globals (fst (check_for_new_model_tick x s1))
  = globals (fst (check_for_new_model_tick x s2)).
Proof.
  intros H. unfold check_for_new_model_tick.
  destruct (uri_is_http _); run_M; [|exact H].
  rewrite <- H.
  destruct (md_version _) as [cur|]; [|exact H].
  destruct (get_latest_versions x) as [[|latest rest]|e]; try exact H.
  destruct (String.eqb _ _); cbn [negb]; [exact H|].
  destruct (pyfunc_load_model x); [reflexivity|exact H].
Qed.

(** X2. Against an unchanged outside world a second tick finds nothing to do:
    the globals after two ticks are those after one. *)
Theorem tick_settles (x : Ext) (s : State) :
  globals (fst (check_for_new_model_tick x (fst (check_for_new_model_tick x s))))
  = globals (fst (check_for_new_model_tick x s)).
Proof.
  assert (Hsame : globals (fst (check_for_new_model_tick x s)) = globals s ->
                  globals (fst (check_for_new_model_tick x
                                  (fst (check_for_new_model_tick x s))))
                  = globals (fst (check_for_new_model_tick x s))).
  { intros H. rewrite (tick_globals_only x _ s H). reflexivity. }
  destruct (uri_is_http (MLFLOW_TRACKING_URI x)) eqn:Hh;
    [|apply Hsame; rewrite (tick_not_http x s Hh); reflexivity].
  destruct (md_version (model_metadata (globals s))) as [cur|] eqn:Hv;
    [|apply Hsame; rewrite (tick_no_version x s Hv); reflexivity].
  destruct (get_latest_versions x) as [[|latest rest]|e] eqn:Hl.
  - apply Hsame, (tick_no_production x s Hl).
  - destruct (decide (version latest = cur)) as [He|Hne].
    + apply Hsame. rewrite (tick_same_version x s cur latest rest Hh Hv Hl He).
      reflexivity.
    + destruct (pyfunc_load_model x) as [m|e] eqn:Hm.
      * destruct (tick_new_version x s cur latest rest m Hh Hv Hl Hne Hm) as [Hg _].
        rewrite (tick_same_version x _ (version latest) latest rest Hh);
          [reflexivity|rewrite Hg; reflexivity|exact Hl|reflexivity].
      * apply Hsame, (tick_load_raises x s e Hm).
  - apply Hsame, (tick_poll_raises x s e Hl).
Qed.

(** ** A loaded model carries a tag *)

(** A tick keeps "a loaded model has a version tag". *)
Lemma tick_preserves_tagged x s :
  tagged (globals s) -> tagged (globals (fst (check_for_new_model_tick x s))).
Proof.
  intros H. unfold check_for_new_model_tick.
  destruct (uri_is_http _); run_M; [|exact H].
  destruct (md_version _) as [cur|]; [|exact H].
  destruct (get_latest_versions x) as [[|latest rest]|e]; try exact H.
  destruct (String.eqb _ _); cbn [negb]; [exact H|].
  destruct (pyfunc_load_model x); [intros _; reflexivity|exact H].
Qed.

Lemma ticks_preserve_tagged ticks : forall s,
  tagged (globals s) -> tagged (globals (check_for_new_model_loop ticks s)).
Proof.
  induction ticks as [|x ticks IH]; intros s H; cbn; [exact H|].
  destruct (AUTO_RELOAD_ENABLED x); [|exact H].
  apply IH, tick_preserves_tagged, H.
Qed.

(** The ways load_model can go. *)
Ltac simpl_M := repeat progress (run_M; cbn [is_some andb] in *).

Ltac load_model_cases x :=
  unfold load_model, load_local_model;
  destruct (truthy (MLFLOW_TRACKING_URI x) && truthy (MLFLOW_TRACKING_USERNAME x)
            && truthy (MLFLOW_TRACKING_PASSWORD x));
  simpl_M;
  [destruct (pyfunc_load_model x) as [?m|?e]; simpl_M;
   [destruct (get_latest_versions x) as [[|?latest ?rest]|?e]; simpl_M|]|];
  try (destruct (local_model_file x) as [[?a|?e]|]; simpl_M);
  destruct (AUTO_RELOAD_ENABLED x); simpl_M;
  destruct (truthy (MLFLOW_TRACKING_URI x)); simpl_M.

(** When load_model returns, a model it leaves loaded has a tag: the
    registry's "v<n>", "Unknown", or "Local File". *)
Lemma load_model_returns_tagged x s :
  snd (load_model x s) = Returned tt -> tagged (globals (fst (load_model x s))).
Proof.
  load_model_cases x; intros H; try discriminate H;
    unfold tagged; cbn; intros Hm; first [discriminate Hm|reflexivity].
Qed.

(** X3. After a startup (or manual reload) that returns and any number of
    ticks, /health answers 200 with the tag when a model is loaded and 503
    when none is; it does not fail on a missing tag. *)
Theorem health_after_load_and_ticks
    (x x' : Ext) (ticks : list Ext) (s : State) :
  snd (load_model x s) = Returned tt ->
  let s' := check_for_new_model_loop ticks (fst (load_model x s)) in
  (exists a tag,
     model (globals s') = Some a /\ model_version (globals s') = Some tag
     /\ snd (health_check x' s')
        = OK200 {| status := "healthy"; model_loaded := true;
                   hr_model_version := tag; hr_timestamp := now x' |})
  \/ (model (globals s') = None
      /\ snd (health_check x' s')
         = HTTPError 503 "Service unavailable: Model not loaded").
Proof.
  intros Hret s'.
  pose proof (ticks_preserve_tagged ticks _ (load_model_returns_tagged x s Hret)) as Ht.
  fold s' in Ht. unfold health_check, tagged in *.
  destruct (model (globals s')) as [a|]; [|right; split; reflexivity].
  left. specialize (Ht eq_refl).
  destruct (model_version (globals s')) as [tag|]; [|discriminate Ht].
  exists a, tag. repeat split.
Qed.

Lemma health_after_load_and_ticks_witness :
  snd (load_model Swap.registry initial_state) = Returned tt
  /\ exists a,
       model (globals (check_for_new_model_loop [Swap.registry; Outage.registry]
                         (fst (load_model Swap.registry initial_state))))
       = Some a.
Proof.
  assert (H : snd (load_model Swap.registry initial_state) = Returned tt)
    by (vm_compute; reflexivity).
  split; [exact H|].
  destruct (health_after_load_and_ticks Swap.registry Swap.registry
              [Swap.registry; Outage.registry] initial_state H)
    as [(a & tag & Hm & _)|(Hm & _)].
  - exists a. exact Hm.
  - exfalso. vm_compute in Hm. discriminate Hm.
Defined.

(** ** The tag and the metadata agree *)

Lemma tick_preserves_tag_matches x s :
  tag_matches_metadata (globals s) ->
  tag_matches_metadata (globals (fst (check_for_new_model_tick x s))).
Proof.
  intros H. unfold check_for_new_model_tick.
  destruct (uri_is_http _); run_M; [|exact H].
  destruct (md_version _) as [cur|]; [|exact H].
  destruct (get_latest_versions x) as [[|latest rest]|e]; try exact H.
  destruct (String.eqb _ _); cbn [negb]; [exact H|].
  destruct (pyfunc_load_model x); [|exact H].
  intros v. cbn. intros [= <-]. reflexivity.
Qed.

Lemma ticks_preserve_tag_matches ticks : forall s,
  tag_matches_metadata (globals s) ->
  tag_matches_metadata (globals (check_for_new_model_loop ticks s)).
Proof.
  induction ticks as [|x ticks IH]; intros s H; cbn; [exact H|].
  destruct (AUTO_RELOAD_ENABLED x); [|exact H].
  apply IH, tick_preserves_tag_matches, H.
Qed.

Lemma load_model_fresh_tag_matches x s :
  md_version (model_metadata (globals s)) = None ->
  tag_matches_metadata (globals (fst (load_model x s))).
Proof.
  intros Hv. load_model_cases x; intros v; cbn; rewrite ?Hv;
    first [discriminate|intros [= <-]; reflexivity].
Qed.

(** X4. In a process started from scratch, after the startup load (whether it
    returned or raised) and any number of ticks, a version recorded in
    model_metadata is the one the tag model_version shows: "v" followed by
    that version. *)
Theorem tag_matches_metadata_after_startup
    (x : Ext) (ticks : list Ext) (s : State) :
  md_version (model_metadata (globals s)) = None ->
  forall v,
    md_version (model_metadata
                  (globals (check_for_new_model_loop ticks (fst (load_model x s)))))
    = Some v ->
    model_version (globals (check_for_new_model_loop ticks (fst (load_model x s))))
    = Some ("v" +:+ py_str v).
Proof.
  intros Hv.
  apply (ticks_preserve_tag_matches ticks _ (load_model_fresh_tag_matches x s Hv)).
Qed.

Lemma tag_matches_metadata_after_startup_witness :
  md_version (model_metadata (globals initial_state)) = None
  /\ model_version
       (globals (check_for_new_model_loop [Rollback.registry]
                   (fst (load_model Steady.registry initial_state))))
     = Some "v2".
Proof.
  split; [reflexivity|].
  apply (tag_matches_metadata_after_startup Steady.registry [Rollback.registry]
           initial_state eq_refl 2).
  vm_compute. reflexivity.
Defined.

(** ** Startup and manual reload *)

(** X5. Without the three MLflow settings load_model does not contact the
    registry at all: it goes to the local file, and ends with the model of
    that file or, when there is no file, with no model. *)
Theorem load_model_without_credentials (x : Ext) (s : State) :
  truthy (MLFLOW_TRACKING_URI x) && truthy (MLFLOW_TRACKING_USERNAME x)
    && truthy (MLFLOW_TRACKING_PASSWORD x) = false ->
  registry_calls (fst (load_model x s)) = registry_calls s
  /\ match local_model_file x with
     | Some (Returned a) =>
         snd (load_model x s) = Returned tt
         /\ globals (fst (load_model x s))
            = {| model := Some a; model_version := Some "Local File";
                 model_metadata := local_metadata |}
     | Some (Raised e) =>
         snd (load_model x s) = Raised e
         /\ globals (fst (load_model x s)) = globals s
     | None =>
         snd (load_model x s) = Returned tt
         /\ globals (fst (load_model x s))
            = {| model := None; model_version := model_version (globals s);
                 model_metadata := model_metadata (globals s) |}
     end.
Proof.
  intros Hc. unfold load_model, load_local_model, registry_calls. rewrite Hc.
  simpl_M.
  destruct (local_model_file x) as [[a|e]|]; simpl_M.
  - destruct (AUTO_RELOAD_ENABLED x), (truthy (MLFLOW_TRACKING_URI x)); simpl_M;
      repeat split.
  - destruct s as [[m v md] tr]. repeat split.
  - repeat split.
Qed.

Lemma load_model_without_credentials_witness :
  truthy (MLFLOW_TRACKING_URI NoRegistry.env)
    && truthy (MLFLOW_TRACKING_USERNAME NoRegistry.env)
    && truthy (MLFLOW_TRACKING_PASSWORD NoRegistry.env) = false
  /\ registry_calls (fst (load_model NoRegistry.env initial_state)) = 0%nat.
Proof.
  split; [reflexivity|].
  apply (load_model_without_credentials NoRegistry.env initial_state).
  reflexivity.
Defined.

(** X6. With the settings present, the artifact loaded and a Production entry
    listed, load_model installs the artifact, the tag "v<n>" and the
    metadata of the first entry listed, and returns. *)
Theorem load_model_from_registry
    (x : Ext) (s : State) (m : Artifact) (latest : ModelVersion)
    (rest : list ModelVersion) :
  truthy (MLFLOW_TRACKING_URI x) && truthy (MLFLOW_TRACKING_USERNAME x)
    && truthy (MLFLOW_TRACKING_PASSWORD x) = true ->
  pyfunc_load_model x = Returned m ->
  get_latest_versions x = Returned (latest :: rest) ->
  snd (load_model x s) = Returned tt
  /\ globals (fst (load_model x s))
     = {| model := Some m;
          model_version := Some ("v" +:+ py_str (version latest));
          model_metadata := registry_metadata latest |}
  /\ reload_threads (fst (load_model x s))
     = (if AUTO_RELOAD_ENABLED x then S (reload_threads s) else reload_threads s).
Proof.
  intros Hc Hm Hl.
  assert (Hu : truthy (MLFLOW_TRACKING_URI x) = true).
  { destruct (truthy (MLFLOW_TRACKING_URI x)); [reflexivity|discriminate Hc]. }
  unfold load_model, reload_threads. rewrite Hc, Hm, Hl, Hu. simpl_M.
  destruct (AUTO_RELOAD_ENABLED x); simpl_M; repeat split.
Qed.

Lemma load_model_from_registry_witness :
  truthy (MLFLOW_TRACKING_URI Swap.registry)
    && truthy (MLFLOW_TRACKING_USERNAME Swap.registry)
    && truthy (MLFLOW_TRACKING_PASSWORD Swap.registry) = true
  /\ model_version (globals (fst (load_model Swap.registry initial_state)))
     = Some "v2".
Proof.
  split; [reflexivity|].
  destruct (load_model_from_registry Swap.registry initial_state Swap.artifact_v2
              (Swap.entry 2 "Production") [] eq_refl eq_refl eq_refl)
    as (_ & Hg & _).
  rewrite Hg. reflexivity.
Defined.

(** load_model lets an exception out only when reading the local file
    raises; a registry failure never reaches its caller. *)
Lemma load_model_raises_only_from_file x s e :
  snd (load_model x s) = Raised e -> local_model_file x = Some (Raised e).
Proof.
  load_model_cases x; intros H; try discriminate H; injection H as <-; reflexivity.
Qed.

Lemma reload_model_unfold x s :
  reload_model x s
  = match load_model x (run_step (logger INFO "Manual reload requested...") s) with
    | (s', Returned _) =>
        (s', OK200 {| rr_status := "reloaded";
                      rr_model_version := model_version (globals s');
                      rr_timestamp := now x;
                      rr_auto_reload_enabled := AUTO_RELOAD_ENABLED x |})
    | (s', Raised e) => (s', HTTPError 500 "Internal Server Error")
    end.
Proof. reflexivity. Qed.

(** ** Manual reload against a background tick *)

(** A manual reload with the registry answering loads the artifact and
    installs it, whatever is being served. *)
Lemma reload_model_from_registry x s m latest rest :
  truthy (MLFLOW_TRACKING_URI x) && truthy (MLFLOW_TRACKING_USERNAME x)
    && truthy (MLFLOW_TRACKING_PASSWORD x) = true ->
  pyfunc_load_model x = Returned m ->
  get_latest_versions x = Returned (latest :: rest) ->
  registry_loads (fst (reload_model x s)) = S (registry_loads s)
  /\ globals (fst (reload_model x s))
     = {| model := Some m;
          model_version := Some ("v" +:+ py_str (version latest));
          model_metadata := registry_metadata latest |}.
Proof.
  intros Hc Hm Hl.
  assert (Hu : truthy (MLFLOW_TRACKING_URI x) = true).
  { destruct (truthy (MLFLOW_TRACKING_URI x)); [reflexivity|discriminate Hc]. }
  assert (H : forall s0,
             registry_loads (fst (load_model x s0)) = S (registry_loads s0)
             /\ globals (fst (load_model x s0))
                = {| model := Some m;
                     model_version := Some ("v" +:+ py_str (version latest));
                     model_metadata := registry_metadata latest |}).
  { intros s0. unfold load_model, registry_loads. rewrite Hc, Hm, Hl, Hu. simpl_M.
    destruct (AUTO_RELOAD_ENABLED x); simpl_M; split; reflexivity. }
  rewrite reload_model_unfold.
  specialize (H (run_step (logger INFO "Manual reload requested...") s)).
  destruct (load_model x _) as [s' [u|e']]; exact H.
Qed.

(** A manual reload with the registry failing and the local file in place
    replaces what is being served by the model of the file. *)
Lemma reload_model_falls_back x s a :
  registry_unreachable x ->
  local_model_file x = Some (Returned a) ->
  globals (fst (reload_model x s))
  = {| model := Some a; model_version := Some "Local File";
       model_metadata := local_metadata |}.
Proof.
  intros Hr Hf. rewrite reload_model_unfold.
  destruct (load_model_falls_back x
              (run_step (logger INFO "Manual reload requested...") s) a Hr Hf)
    as [_ Hg].
  destruct (load_model x _) as [s' [u|e']]; exact Hg.
Qed.

(** A tick that finds the served ordinal in the registry does nothing. *)
Lemma tick_skips_served_version x s cur latest rest :
  md_version (model_metadata (globals s)) = Some cur ->
  get_latest_versions x = Returned (latest :: rest) ->
  version latest = cur ->
  registry_loads (fst (check_for_new_model_tick x s)) = registry_loads s
  /\ globals (fst (check_for_new_model_tick x s)) = globals s.
Proof.
  intros Hv Hl He.
  destruct (uri_is_http (MLFLOW_TRACKING_URI x)) eqn:Hh.
  - rewrite (tick_same_version x s cur latest rest Hh Hv Hl He). split; reflexivity.
  - rewrite (tick_not_http x s Hh). split; reflexivity.
Qed.

(** C3, amended. A background poll tick whose registry call fails (the
    version query or the artifact load raises) leaves the three globals
    exactly as they were, and no background tick, failing or not, leaves a
    loaded process without a model. The manual reload does not go through
    the tick. Against a registry that presents the served version and
    delivers the artifact, a tick asks for no artifact and changes nothing,
    where the manual reload loads the artifact once more and installs it
    with the tag and metadata of the entry. Against a registry that fails,
    with the local artifact file in place, the manual reload replaces what
    is being served by the model of the file, tagged "Local File". *)
Theorem failed_background_reload_keeps_model (x : Ext) (s : State) :
  (forall e,
     pyfunc_load_model x = Raised e \/ get_latest_versions x = Raised e ->
     globals (fst (check_for_new_model_tick x s)) = globals s)
  /\ (is_some (model (globals s)) = true ->
      is_some (model (globals (fst (check_for_new_model_tick x s)))) = true)
  /\ (forall cur latest rest m,
        truthy (MLFLOW_TRACKING_URI x) && truthy (MLFLOW_TRACKING_USERNAME x)
          && truthy (MLFLOW_TRACKING_PASSWORD x) = true ->
        md_version (model_metadata (globals s)) = Some cur ->
        get_latest_versions x = Returned (latest :: rest) ->
        version latest = cur ->
        pyfunc_load_model x = Returned m ->
        (registry_loads (fst (check_for_new_model_tick x s)) = registry_loads s
         /\ globals (fst (check_for_new_model_tick x s)) = globals s)
        /\ (registry_loads (fst (reload_model x s)) = S (registry_loads s)
            /\ globals (fst (reload_model x s))
               = {| model := Some m;
                    model_version := Some ("v" +:+ py_str (version latest));
                    model_metadata := registry_metadata latest |}))
  /\ (forall a,
        registry_unreachable x ->
        local_model_file x = Some (Returned a) ->
        globals (fst (reload_model x s))
        = {| model := Some a; model_version := Some "Local File";
             model_metadata := local_metadata |}).
Proof.
  split; [|split; [|split]].
  - intros e [H|H].
    + exact (tick_load_raises x s e H).
    + exact (proj1 (tick_poll_raises x s e H)).
  - apply tick_keeps_slot_populated.
  - intros cur latest rest m Hc Hv Hl He Hm. split.
    + exact (tick_skips_served_version x s cur latest rest Hv Hl He).
    + exact (reload_model_from_registry x s m latest rest Hc Hm Hl).
  - intros a Hr Hf. exact (reload_model_falls_back x s a Hr Hf).
Qed.

Lemma failed_background_reload_keeps_model_witness :
  (pyfunc_load_model Outage.registry = Raised "Connection refused"
   /\ globals (fst (check_for_new_model_tick Outage.registry Swap.serving_v1))
      = globals Swap.serving_v1)
  /\ (md_version (model_metadata (globals Swap.serving_v1)) = Some 1
      /\ get_latest_versions Steady.registry = Returned [Swap.entry 1 "Production"]
      /\ registry_loads (fst (check_for_new_model_tick Steady.registry Swap.serving_v1))
         = registry_loads Swap.serving_v1
      /\ registry_loads (fst (reload_model Steady.registry Swap.serving_v1))
         = S (registry_loads Swap.serving_v1))
  /\ (registry_unreachable Outage.registry_with_local_file
      /\ model (globals (fst (reload_model Outage.registry_with_local_file
                                Rollback.serving_v3)))
         = Some Swap.artifact_v1).
Proof.
  split; [|split].
  - split; [reflexivity|].
    apply (proj1 (failed_background_reload_keeps_model Outage.registry Swap.serving_v1)
             "Connection refused").
    left. reflexivity.
  - destruct (failed_background_reload_keeps_model Steady.registry Swap.serving_v1)
      as (_ & _ & H & _).
    destruct (H 1 (Swap.entry 1 "Production") [] Swap.artifact_v1
                eq_refl eq_refl eq_refl eq_refl eq_refl) as [[Ht _] [Hr _]].
    split; [reflexivity|]. split; [reflexivity|]. split; [exact Ht|exact Hr].
  - assert (Hr : registry_unreachable Outage.registry_with_local_file).
    { split; [reflexivity|]. left. eexists. reflexivity. }
    split; [exact Hr|].
    destruct (failed_background_reload_keeps_model Outage.registry_with_local_file
                Rollback.serving_v3) as (_ & _ & _ & H).
    rewrite (H Swap.artifact_v1 Hr eq_refl). reflexivity.
Defined.

(** X7. A manual reload answers 200 with status "reloaded" and the current
    tag unless reading the local file raises (then 500); in particular it
    says "reloaded" when the registry failed and no model is left. *)
Theorem reload_model_always_says_reloaded (x : Ext) (s : State) :
  (forall e, local_model_file x <> Some (Raised e)) ->
  snd (reload_model x s)
  = OK200 {| rr_status := "reloaded";
             rr_model_version := model_version (globals (fst (reload_model x s)));
             rr_timestamp := now x;
             rr_auto_reload_enabled := AUTO_RELOAD_ENABLED x |}.
Proof.
  intros Hf. rewrite reload_model_unfold.
  pose proof (load_model_raises_only_from_file x
                (run_step (logger INFO "Manual reload requested...") s)) as Hr.
  destruct (load_model x _) as [s' [u|e']].
  - reflexivity.
  - destruct (Hf e' (Hr e' eq_refl)).
Qed.

Lemma reload_model_always_says_reloaded_witness :
  (forall e, local_model_file Outage.registry <> Some (Raised e))
  /\ model (globals (fst (reload_model Outage.registry Swap.serving_v1))) = None
  /\ exists body,
       snd (reload_model Outage.registry Swap.serving_v1) = OK200 body
       /\ rr_status body = "reloaded" /\ rr_model_version body = Some "v1".
Proof.
  assert (Hf : forall e, local_model_file Outage.registry <> Some (Raised e))
    by (intros e; discriminate).
  split; [exact Hf|]. split; [vm_compute; reflexivity|].
  eexists. split; [apply (reload_model_always_says_reloaded _ _ Hf)|].
  split; [reflexivity|vm_compute; reflexivity].
Defined.

(** X8. Every manual reload that answers 200 with a model loaded, auto-reload
    on and the tracking URI set starts one more reload thread; the threads
    started before are not stopped. *)
Theorem reload_model_starts_another_thread
    (x : Ext) (s : State) (body : ReloadResponse) :
  AUTO_RELOAD_ENABLED x = true ->
  truthy (MLFLOW_TRACKING_URI x) = true ->
  snd (reload_model x s) = OK200 body ->
  is_some (model (globals (fst (reload_model x s)))) = true ->
  reload_threads (fst (reload_model x s)) = S (reload_threads s).
Proof.
  intros Ha Hu. rewrite reload_model_unfold.
  assert (H : forall s0,
             snd (load_model x s0) = Returned tt ->
             is_some (model (globals (fst (load_model x s0)))) = true ->
             reload_threads (fst (load_model x s0)) = S (reload_threads s0)).
  { intros s0. unfold reload_threads.
    load_model_cases x; try discriminate Ha; try discriminate Hu;
      intros Hr; try discriminate Hr; intros H; try discriminate H; reflexivity. }
  specialize (H (run_step (logger INFO "Manual reload requested...") s)).
  destruct (load_model x _) as [s' [[]|e']]; cbn [fst snd] in *;
    intros Hb Hm; [|discriminate Hb].
  rewrite (H eq_refl Hm). reflexivity.
Qed.

Lemma reload_model_starts_another_thread_witness :
  AUTO_RELOAD_ENABLED Steady.registry = true
  /\ reload_threads
       (fst (reload_model Steady.registry
               (fst (reload_model Steady.registry Swap.serving_v1)))) = 2%nat.
Proof.
  split; [reflexivity|].
  assert (Hb : exists body,
             snd (reload_model Steady.registry
                    (fst (reload_model Steady.registry Swap.serving_v1)))
             = OK200 body) by (eexists; vm_compute; reflexivity).
  destruct Hb as [body Hb].
  rewrite (reload_model_starts_another_thread Steady.registry _ body
             eq_refl eq_refl Hb)
    by (vm_compute; reflexivity).
  vm_compute. reflexivity.
Defined.

(** ** Validation accepts exactly the bodies within bounds *)

Lemma field_float_some lo hi v q :
  field_float lo hi v = Some q <-> v = Some q /\ (lo <= q /\ q <= hi)%Q.
Proof.
  destruct v as [q'|]; cbn; [|split; [discriminate|intros [H _]; discriminate H]].
  destruct (Qle_bool lo q') eqn:E1, (Qle_bool q' hi) eqn:E2; cbn; split;
    try (intros [= <-]; split; [reflexivity|split; apply Qle_bool_iff; assumption]);
    try discriminate;
    try (intros [[= <-] _]; reflexivity);
    intros [[= <-] [H1 H2]]; apply Qle_bool_iff in H1, H2; congruence.
Qed.

Lemma field_int_some lo hi v z :
  field_int lo hi v = Some z <-> v = Some z /\ lo <= z <= hi.
Proof.
  destruct v as [z'|]; cbn; [|split; [discriminate|intros [H _]; discriminate H]].
  destruct (lo <=? z') eqn:E1, (z' <=? hi) eqn:E2; cbn; split;
    try apply Z.leb_le in E1; try apply Z.leb_le in E2;
    try apply Z.leb_gt in E1; try apply Z.leb_gt in E2;
    try (intros [= <-]; split; [reflexivity|lia]);
    try discriminate;
    try (intros [[= <-] _]; reflexivity);
    intros [[= <-] H]; lia.
Qed.

(** X9. For a body whose fields hold values of the declared JSON types (a
    number for advertising_spend, integers for the other four), validation
    yields a request exactly when the five fields are present and each lies
    within its declared bounds, and the request then carries the values of
    the body. *)
Theorem validate_accepts_iff_in_range (raw : RawRequest) (request : PredictionRequest) :
  validate raw = Some request <-> in_range raw request.
Proof.
  unfold validate, in_range. split.
  - destruct (field_float 0 10000 _) as [a|] eqn:Ea; [|discriminate].
    destruct (field_int 0 1 (raw_promotions raw)) as [p|] eqn:Ep; [|discriminate].
    destruct (field_int 0 6 _) as [d|] eqn:Ed; [|discriminate].
    destruct (field_int 1 12 _) as [m|] eqn:Em; [|discriminate].
    destruct (field_int 0 1 (raw_is_weekend raw)) as [w|] eqn:Ew; [|discriminate].
    intros [= <-]. cbn.
    apply field_float_some in Ea. apply field_int_some in Ep, Ed, Em, Ew. tauto.
  - intros (Ha & Hab & Hp & Hpb & Hd & Hdb & Hm & Hmb & Hw & Hwb).
    rewrite (proj2 (field_float_some 0 10000 _ _) (conj Ha Hab)).
    rewrite (proj2 (field_int_some 0 1 _ _) (conj Hp Hpb)).
    rewrite (proj2 (field_int_some 0 6 _ _) (conj Hd Hdb)).
    rewrite (proj2 (field_int_some 1 12 _ _) (conj Hm Hmb)).
    rewrite (proj2 (field_int_some 0 1 _ _) (conj Hw Hwb)).
    destruct request; reflexivity.
Qed.

(** ** What predict answers *)

(** X10. Run without interference, a 200 answer of predict carries the value
    the loaded artifact returns on the request and the current tag; the
    artifact has been invoked exactly once and the globals are as before. *)
Theorem predict_answer_is_of_served_model
    (x : Ext) (request : PredictionRequest) (s : State) (r : PredictionResponse) :
  snd (predict x request s) = OK200 r ->
  (exists a, model (globals s) = Some a /\ a request = Returned (prediction r))
  /\ model_version (globals s) = Some (pr_model_version r)
  /\ globals (fst (predict x request s)) = globals s
  /\ predict_calls (fst (predict x request s)) = S (predict_calls s).
Proof.
  unfold predict, predict_calls.
  destruct (model (globals s)) as [a|] eqn:Hm; [|discriminate].
  run_M. rewrite Hm. destruct (a request) as [p|e] eqn:Ha; run_M; [|discriminate].
  destruct (model_version (globals s)) as [tag|]; [|discriminate].
  intros [= <-]. cbn. repeat split. exists a. split; [reflexivity|exact Ha].
Qed.

Lemma predict_answer_is_of_served_model_witness :
  exists r,
    snd (predict Swap.registry Swap.request Swap.serving_v1) = OK200 r
    /\ pr_model_version r = "v1".
Proof.
  assert (H : exists r, snd (predict Swap.registry Swap.request Swap.serving_v1)
                        = OK200 r) by (eexists; vm_compute; reflexivity).
  destruct H as [r H]. exists r. split; [exact H|].
  destruct (predict_answer_is_of_served_model _ _ _ _ H) as (_ & Hv & _).
  vm_compute in Hv. injection Hv as Hv. symmetry. exact Hv.
Defined.

(** X11. An artifact that raises on the request makes predict answer 500 with
    the exception text; the failure is logged and the globals, the served
    model included, stay as they were. *)
Theorem predict_artifact_failure
    (x : Ext) (request : PredictionRequest) (s : State) (a : Artifact) (e : string) :
  model (globals s) = Some a ->
  a request = Raised e ->
  predict x request s
  = ({| globals := globals s;
        trace := Log ERROR ("Prediction error: " +:+ e)
                 :: CallPredict request :: trace s |},
     HTTPError 500 ("Prediction failed: " +:+ e)).
Proof.
  intros Hm Ha. unfold predict. rewrite Hm. run_M. rewrite Hm, Ha. reflexivity.
Qed.

Lemma predict_artifact_failure_witness :
  model (globals Failing.serving) = Some Failing.artifact
  /\ snd (predict Swap.registry Swap.request Failing.serving)
     = HTTPError 500 "Prediction failed: Feature names mismatch".
Proof.
  split; [reflexivity|].
  rewrite (predict_artifact_failure Swap.registry Swap.request Failing.serving
             Failing.artifact "Feature names mismatch" eq_refl eq_refl).
  reflexivity.
Defined.

(** X12. With no model loaded every model endpoint answers 503 at once: the
    state is untouched, so neither the registry nor an artifact is called;
    the root endpoint still answers 200 and reports "model_not_loaded". *)
Theorem endpoints_without_model
    (x : Ext) (interval : Z) (raw : RawRequest) (request : PredictionRequest)
    (s : State) :
  model (globals s) = None ->
  validate raw = Some request ->
  health_check x s = (s, HTTPError 503 "Service unavailable: Model not loaded")
  /\ route_predict x raw s
     = (s, HTTPError 503 "Model not loaded. Please contact support.")
  /\ route_predict_debug x interval raw s = (s, HTTPError 503 "Model not loaded")
  /\ get_model_info x interval s = (s, HTTPError 503 "Model not loaded")
  /\ compare_models x s = (s, HTTPError 503 "Model not loaded")
  /\ exists body, root x interval s = (s, OK200 body)
                  /\ root_status body = "model_not_loaded".
Proof.
  intros Hm Hv.
  unfold health_check, route_predict, route_predict_debug, predict, predict_debug,
    get_model_info, compare_models, root.
  rewrite Hm, Hv. repeat split. eexists. split; reflexivity.
Qed.

Lemma endpoints_without_model_witness :
  model (globals initial_state) = None
  /\ validate Requests.valid = Some Swap.request
  /\ compare_models Swap.registry initial_state
     = (initial_state, HTTPError 503 "Model not loaded").
Proof.
  split; [reflexivity|]. split; [reflexivity|].
  apply (endpoints_without_model Swap.registry 30 Requests.valid Swap.request
           initial_state eq_refl eq_refl).
Defined.

(** ** The debug endpoint *)

(** X13. Whenever predict answers 200, predict_debug on the same state answers
    200 with the same value, confidence and tag, echoes the request, and
    names the registry as origin exactly when the metadata has a run id. *)
Theorem predict_debug_agrees_with_predict
    (x : Ext) (interval : Z) (request : PredictionRequest) (s : State)
    (r : PredictionResponse) :
  snd (predict x request s) = OK200 r ->
  exists d,
    snd (predict_debug x interval request s) = OK200 d
    /\ dbg_prediction d = prediction r
    /\ dbg_confidence d = confidence r
    /\ dbg_model_version d = Some (pr_model_version r)
    /\ dbg_input_features d = request
    /\ dm_loaded_from (dbg_model_metadata d)
       = (if is_some (md_run_id (model_metadata (globals s)))
          then "DagsHub MLflow Registry" else "Local File")
    /\ globals (fst (predict_debug x interval request s)) = globals s.
Proof.
  unfold predict, predict_debug.
  destruct (model (globals s)) as [a|] eqn:Hm; [|discriminate].
  run_M. rewrite Hm. destruct (a request) as [p|e]; run_M; [|discriminate].
  destruct (model_version (globals s)) as [tag|]; [|discriminate].
  intros [= <-]. eexists. split; [reflexivity|]. cbn. repeat split.
Qed.

Lemma predict_debug_agrees_with_predict_witness :
  exists r d,
    snd (predict Swap.registry Swap.request Swap.serving_v1) = OK200 r
    /\ snd (predict_debug Swap.registry 30 Swap.request Swap.serving_v1) = OK200 d
    /\ dbg_prediction d = prediction r.
Proof.
  assert (H : exists r, snd (predict Swap.registry Swap.request Swap.serving_v1)
                        = OK200 r) by (eexists; vm_compute; reflexivity).
  destruct H as [r H].
  destruct (predict_debug_agrees_with_predict Swap.registry 30 _ _ _ H)
    as (d & Hd & Hp & _).
  exists r, d. split; [exact H|]. split; [exact Hd|exact Hp].
Defined.

(** ** The root endpoint *)

(** X14. The root endpoint always answers 200 and changes nothing; its status
    is "healthy" exactly when a model is loaded, which is exactly when
    /health does not answer 503. *)
Theorem root_status_agrees_with_health (x : Ext) (interval : Z) (s : State) :
  exists body,
    root x interval s = (s, OK200 body)
    /\ (root_status body = "healthy" <-> is_some (model (globals s)) = true)
    /\ (root_status body = "model_not_loaded"
        <-> snd (health_check x s)
            = HTTPError 503 "Service unavailable: Model not loaded")
    /\ root_model_version body = model_version (globals s).
Proof.
  eexists. split; [reflexivity|]. cbn. unfold health_check.
  destruct (model (globals s)) as [a|]; cbn.
  - split; [tauto|]. split; [|reflexivity].
    split; [discriminate|]. destruct (model_version (globals s)); discriminate.
  - split; [split; discriminate|]. split; [tauto|reflexivity].
Qed.

(** ** Model information *)

(** /model/info with a model loaded. *)
Lemma get_model_info_loaded (x : Ext) (interval : Z) (s : State) :
  is_some (model (globals s)) = true ->
  exists body,
    snd (get_model_info x interval s) = OK200 body
    /\ globals (fst (get_model_info x interval s)) = globals s
    /\ mi_model_version body = model_version (globals s)
    /\ mi_metadata body = model_metadata (globals s)
    /\ mi_metadata_performance body = mi_performance body
    /\ mi_performance body
       = match md_run_id (model_metadata (globals s)) with
         | Some rid =>
             if String.eqb rid "" then placeholder_metrics
             else match get_run x rid with
                  | Returned metrics => performance_of metrics
                  | Raised _ => placeholder_metrics
                  end
         | None => placeholder_metrics
         end.
Proof.
  unfold get_model_info. destruct (model (globals s)) as [a|]; [intros _|discriminate].
  run_M. unfold truthy.
  destruct (md_run_id (model_metadata (globals s))) as [rid|] eqn:Hr; run_M.
  - destruct (String.eqb rid ""); run_M.
    + eexists. split; [reflexivity|]. cbn. repeat split.
    + rewrite Hr. destruct (get_run x rid) as [metrics|e]; run_M;
        (eexists; split; [reflexivity|]; cbn; repeat split).
  - eexists. split; [reflexivity|]. cbn. repeat split.
Qed.

(** X15. With a model loaded, /model/info does not pass on a failure to
    fetch the metrics: when the metadata names no run, or fetching the run
    it names raises, the endpoint answers 200 with all metrics 0 next to
    the served tag and metadata, and leaves the globals alone. *)
Theorem get_model_info_absorbs_fetch_failure (x : Ext) (interval : Z) (s : State) :
  is_some (model (globals s)) = true ->
  md_run_id (model_metadata (globals s)) = None
  \/ md_run_id (model_metadata (globals s)) = Some ""
  \/ (exists rid e,
        md_run_id (model_metadata (globals s)) = Some rid
        /\ get_run x rid = Raised e) ->
  exists body,
    snd (get_model_info x interval s) = OK200 body
    /\ globals (fst (get_model_info x interval s)) = globals s
    /\ mi_model_version body = model_version (globals s)
    /\ mi_metadata body = model_metadata (globals s)
    /\ mi_performance body = placeholder_metrics
    /\ mi_metadata_performance body = placeholder_metrics.
Proof.
  intros Hm Hf.
  destruct (get_model_info_loaded x interval s Hm)
    as (body & Hb & Hg & Hv & Hmd & Hmp & Hp).
  assert (E : mi_performance body = placeholder_metrics).
  { rewrite Hp. destruct Hf as [->|[->|(rid & e & -> & Hr)]]; [reflexivity..|].
    rewrite Hr. destruct (String.eqb rid ""); reflexivity. }
  exists body. repeat (split; [assumption|]). rewrite Hmp. exact E.
Qed.

Lemma get_model_info_absorbs_fetch_failure_witness :
  is_some (model (globals Swap.serving_v1)) = true
  /\ (exists rid e,
        md_run_id (model_metadata (globals Swap.serving_v1)) = Some rid
        /\ get_run Outage.registry rid = Raised e)
  /\ exists body,
       snd (get_model_info Outage.registry 30 Swap.serving_v1) = OK200 body
       /\ mi_performance body = placeholder_metrics.
Proof.
  assert (Hf : exists rid e,
             md_run_id (model_metadata (globals Swap.serving_v1)) = Some rid
             /\ get_run Outage.registry rid = Raised e)
    by (eexists _, _; split; reflexivity).
  split; [reflexivity|]. split; [exact Hf|].
  destruct (get_model_info_absorbs_fetch_failure Outage.registry 30 Swap.serving_v1
              eq_refl (or_intror (or_intror Hf)))
    as (body & Hb & _ & _ & _ & Hp & _).
  exists body. split; [exact Hb|exact Hp].
Defined.

(** /model/info after a startup from the local file. *)
Lemma model_info_local
    (x x' : Ext) (interval : Z) (s : State) (a : Artifact) :
  registry_unreachable x ->
  local_model_file x = Some (Returned a) ->
  let s' := fst (load_model x s) in
  exists body,
    snd (get_model_info x' interval s') = OK200 body
    /\ mi_performance body = placeholder_metrics
    /\ mi_model_version body = Some "Local File"
    /\ registry_calls (fst (get_model_info x' interval s')) = registry_calls s'.
Proof.
  intros Hr Hf s'. destruct (load_model_falls_back x s a Hr Hf) as [_ Hg].
  fold s' in Hg. unfold get_model_info, registry_calls.
  destruct s' as [g tr]. cbn in Hg. subst g. run_M. cbn.
  eexists. split; [reflexivity|]. repeat split.
Qed.

(** X16. A process that started from the local file answers /model/info with
    all metrics 0 and without asking the registry, however the registry
    stands by then. *)
Theorem model_info_after_local_startup
    (x x' : Ext) (interval : Z) (s : State) (a : Artifact) :
  registry_unreachable x ->
  local_model_file x = Some (Returned a) ->
  let s' := fst (load_model x s) in
  exists body,
    snd (get_model_info x' interval s') = OK200 body
    /\ mi_performance body = placeholder_metrics
    /\ mi_model_version body = Some "Local File"
    /\ registry_calls (fst (get_model_info x' interval s')) = registry_calls s'.
Proof. apply model_info_local. Qed.

Lemma model_info_after_local_startup_witness :
  registry_unreachable Outage.registry_with_local_file
  /\ exists body,
       snd (get_model_info Compare.registry 30
              (fst (load_model Outage.registry_with_local_file initial_state)))
       = OK200 body
       /\ mi_performance body = placeholder_metrics.
Proof.
  assert (Hr : registry_unreachable Outage.registry_with_local_file).
  { split; [reflexivity|]. left. eexists. reflexivity. }
  split; [exact Hr|].
  destruct (model_info_after_local_startup Outage.registry_with_local_file
              Compare.registry 30 initial_state Swap.artifact_v1 Hr eq_refl)
    as (body & Hb & Hp & _).
  exists body. split; [exact Hb|exact Hp].
Defined.




(** ** Verdicts and reported deltas *)

(** X18. In a comparison with a baseline, MAE and RMSE are "improved" exactly
    when the previous value is positive and the current one is smaller,
    "degraded" exactly when it is positive and the current one is larger;
    R2 is "improved" exactly when the previous value is positive and the
    current one is larger. A previous value that is zero or negative always
    gives "unchanged", whatever the current value. *)
Theorem compare_models_verdicts (x : Ext) (s s' : State)
    (c p : VersionSummary) (d : Deltas) (i : Improvement) :
  compare_models x s = (s', OK200 (CompareBoth c p d i)) ->
  ((imp_mae i = improved <-> (0 < vs_mae p /\ vs_mae c < vs_mae p)%Q)
   /\ (imp_mae i = degraded <-> (0 < vs_mae p /\ vs_mae p < vs_mae c)%Q)
   /\ (imp_mae i = unchanged <-> (vs_mae p <= 0 \/ vs_mae c == vs_mae p)%Q))
  /\ ((imp_rmse i = improved <-> (0 < vs_rmse p /\ vs_rmse c < vs_rmse p)%Q)
      /\ (imp_rmse i = degraded <-> (0 < vs_rmse p /\ vs_rmse p < vs_rmse c)%Q)
      /\ (imp_rmse i = unchanged <-> (vs_rmse p <= 0 \/ vs_rmse c == vs_rmse p)%Q))
  /\ ((imp_r2 i = improved <-> (0 < vs_r2_score p /\ vs_r2_score p < vs_r2_score c)%Q)
      /\ (imp_r2 i = degraded <-> (0 < vs_r2_score p /\ vs_r2_score c < vs_r2_score p)%Q)
      /\ (imp_r2 i = unchanged
          <-> (vs_r2_score p <= 0 \/ vs_r2_score c == vs_r2_score p)%Q)).
Proof.
  intros H.
  destruct (compare_models_both x s s' c p d i H)
    as (_ & _ & _ & _ & _ & _ & _ & _ & _ & _ & _ & _ & _ & _ & Ei).
  rewrite Ei. cbn [imp_mae imp_rmse imp_r2].
  split; [apply verdict_lower_is_better|].
  split; [apply verdict_lower_is_better|apply verdict_higher_is_better].
Qed.

Lemma compare_models_verdicts_witness :
  exists c p d i,
    snd (compare_models Compare.registry Compare.serving_v2)
    = OK200 (CompareBoth c p d i)
    /\ imp_mae i = improved /\ (vs_mae c < vs_mae p)%Q.
Proof.
  assert (H : exists s' c p d i,
             compare_models Compare.registry Compare.serving_v2
             = (s', OK200 (CompareBoth c p d i)) /\ imp_mae i = improved).
  { eexists _, _, _, _, _. split; [vm_compute; reflexivity|reflexivity]. }
  destruct H as (s' & c & p & d & i & H & Hi).
  destruct (compare_models_verdicts _ _ _ _ _ _ _ H) as ((Himp & _) & _).
  exists c, p, d, i. split; [rewrite H; reflexivity|]. split; [exact Hi|].
  apply Himp, Hi.
Defined.

(** X19. Each reported delta is the double of a whole number of hundredths
    that lies within 0.005 of the delta the verdict was taken from, and it
    is on the same side of zero as that delta: "improved" never comes with
    a negative reported delta, "degraded" never with a positive one, and
    "unchanged" comes with 0. *)
Theorem compare_models_reported_deltas (x : Ext) (s s' : State)
    (c p : VersionSummary) (d : Deltas) (i : Improvement) :
  compare_models x s = (s', OK200 (CompareBoth c p d i)) ->
  ((exists n : Z,
      mae_percent d = double_of (n # 100)
      /\ (- (1 # 200) <= (n # 100) - guarded_delta_lower (vs_mae p) (vs_mae c)
          /\ (n # 100) - guarded_delta_lower (vs_mae p) (vs_mae c) <= 1 # 200)%Q)
   /\ (imp_mae i = improved -> 0 <= mae_percent d)%Q
   /\ (imp_mae i = degraded -> mae_percent d <= 0)%Q
   /\ (imp_mae i = unchanged -> mae_percent d == 0)%Q)
  /\ ((exists n : Z,
         rmse_percent d = double_of (n # 100)
         /\ (- (1 # 200) <= (n # 100) - guarded_delta_lower (vs_rmse p) (vs_rmse c)
             /\ (n # 100) - guarded_delta_lower (vs_rmse p) (vs_rmse c) <= 1 # 200)%Q)
      /\ (imp_rmse i = improved -> 0 <= rmse_percent d)%Q
      /\ (imp_rmse i = degraded -> rmse_percent d <= 0)%Q
      /\ (imp_rmse i = unchanged -> rmse_percent d == 0)%Q)
  /\ ((exists n : Z,
         r2_percent d = double_of (n # 100)
         /\ (- (1 # 200)
             <= (n # 100) - guarded_delta_higher (vs_r2_score p) (vs_r2_score c)
             /\ (n # 100) - guarded_delta_higher (vs_r2_score p) (vs_r2_score c)
                <= 1 # 200)%Q)
      /\ (imp_r2 i = improved -> 0 <= r2_percent d)%Q
      /\ (imp_r2 i = degraded -> r2_percent d <= 0)%Q
      /\ (imp_r2 i = unchanged -> r2_percent d == 0)%Q).
Proof.
  intros H.
  destruct (compare_models_both x s s' c p d i H)
    as (_ & _ & _ & _ & _ & _ & _ & _ & _ & _ & _ & _ & _ & Ed & Ei).
  rewrite Ed, Ei. cbn [mae_percent rmse_percent r2_percent imp_mae imp_rmse imp_r2].
  assert (G : forall q,
             (exists n : Z,
                py_round q = double_of (n # 100)
                /\ (- (1 # 200) <= (n # 100) - q /\ (n # 100) - q <= 1 # 200)%Q)
             /\ (verdict_of q = improved -> 0 <= py_round q)%Q
             /\ (verdict_of q = degraded -> py_round q <= 0)%Q
             /\ (verdict_of q = unchanged -> py_round q == 0)%Q).
  { intros q. destruct (py_round_sign q) as [Hpos Hneg].
    split; [apply py_round_hundredths|].
    split; [|split].
    - intros V. apply verdict_of_improved in V. apply Hpos. lra.
    - intros V. apply verdict_of_degraded in V. apply Hneg. lra.
    - intros V. apply verdict_of_unchanged in V.
      apply Qle_antisym; [apply Hneg|apply Hpos]; lra. }
  split; [apply G|]. split; apply G.
Qed.

Lemma compare_models_reported_deltas_witness :
  exists c p d i,
    snd (compare_models Compare.registry Compare.serving_v2)
    = OK200 (CompareBoth c p d i)
    /\ exists n : Z, rmse_percent d = double_of (n # 100).
Proof.
  assert (H : exists s' c p d i,
             compare_models Compare.registry Compare.serving_v2
             = (s', OK200 (CompareBoth c p d i))).
  { eexists _, _, _, _, _. vm_compute. reflexivity. }
  destruct H as (s' & c & p & d & i & H).
  destruct (compare_models_reported_deltas _ _ _ _ _ _ _ H)
    as (_ & ((n & Hn & _) & _) & _).
  exists c, p, d, i. split; [rewrite H; reflexivity|]. exists n. exact Hn.
Defined.

(** ** The order in which the registry lists the versions *)

Lemma insert_desc_perm v l : Permutation (insert_desc v l) (v :: l).
Proof.
  induction l as [|u l IH]; cbn; [reflexivity|].
  destruct (version u <=? version v); [reflexivity|].
  rewrite IH. apply perm_swap.
Qed.

Lemma sorted_versions_perm l : Permutation (sorted_versions l) l.
Proof.
  induction l as [|u l IH]; cbn; [reflexivity|].
  rewrite insert_desc_perm, IH. reflexivity.
Qed.

(** Two sorted lists with the same entries and no ordinal twice are the
    same list. *)
Lemma sorted_desc_unique l1 : forall l2,
  StronglySorted desc l1 -> StronglySorted desc l2 ->
  Permutation l1 l2 -> NoDup (version <$> l1) -> l1 = l2.
Proof.
  induction l1 as [|a l1 IH]; intros l2 S1 S2 P N.
  - apply Permutation_nil in P. symmetry. exact P.
  - destruct l2 as [|b l2]; [apply Permutation_sym, Permutation_nil in P; discriminate|].
    apply StronglySorted_inv in S1 as [S1 A1]. apply StronglySorted_inv in S2 as [S2 A2].
    rewrite Forall_forall in A1, A2.
    cbn in N. apply NoDup_cons in N as [Na N].
    assert (E : a = b).
    { assert (Ha : a ∈ b :: l2) by (rewrite <- P; left).
      apply elem_of_cons in Ha as [Ha|Ha]; [exact Ha|].
      assert (Hb : b ∈ a :: l1) by (rewrite P; left).
      apply elem_of_cons in Hb as [Hb|Hb]; [symmetry; exact Hb|].
      exfalso. apply Na.
      assert (Ev : version a = version b).
      { pose proof (A1 b Hb). pose proof (A2 a Ha). unfold desc in *. lia. }
      rewrite Ev. apply list_elem_of_fmap. exists b. split; [reflexivity|exact Hb]. }
    subst b. f_equal. apply IH; try assumption.
    apply (Permutation_cons_inv P).
Qed.

Lemma sorted_versions_listing_order vs vs' :
  Permutation vs vs' -> NoDup (version <$> vs) ->
  sorted_versions vs = sorted_versions vs'.
Proof.
  intros P N. apply sorted_desc_unique.
  - apply sorted_versions_sorted.
  - apply sorted_versions_sorted.
  - rewrite !sorted_versions_perm. exact P.
  - rewrite sorted_versions_perm. exact N.
Qed.

(** X20. When no ordinal is listed twice, the answer of compare_models does
    not depend on the order in which the registry lists the versions. *)
Theorem compare_models_listing_order
    (x x' : Ext) (s : State) (vs vs' : list ModelVersion) :
  search_model_versions x = Returned vs ->
  search_model_versions x' = Returned vs' ->
  Permutation vs vs' ->
  NoDup (version <$> vs) ->
  (forall rid, get_run x' rid = get_run x rid) ->
  snd (compare_models x' s) = snd (compare_models x s).
Proof.
  intros Hs Hs' P N Hrun. unfold compare_models.
  destruct (model (globals s)) as [a|]; [|reflexivity].
  run_M. rewrite Hs, Hs', !length_ltb_1.
  rewrite <- (sorted_versions_listing_order vs vs' P N).
  assert (Hnil : bool_decide (vs' = []) = bool_decide (vs = [])).
  { destruct vs as [|v vs].
    - apply Permutation_nil in P. subst. reflexivity.
    - destruct vs' as [|v' vs'];
        [apply Permutation_sym, Permutation_nil in P; discriminate|reflexivity]. }
  rewrite Hnil. destruct (bool_decide (vs = [])); [reflexivity|].
  destruct (prod_versions_of (sorted_versions vs)) as [|cur rest]; [reflexivity|].
  rewrite Hrun. destruct (get_run x (run_id cur)) as [mc|e]; [|reflexivity].
  destruct (previous_version_of (sorted_versions vs) cur) as [prev|]; [|reflexivity].
  rewrite Hrun. destruct (get_run x (run_id prev)) as [mp|e]; reflexivity.
Qed.

Lemma compare_models_listing_order_witness :
  Permutation [Swap.entry 1 "Archived"; Swap.entry 2 "Production"]
              [Swap.entry 2 "Production"; Swap.entry 1 "Archived"]
  /\ snd (compare_models Reordered.registry Compare.serving_v2)
     = snd (compare_models Compare.registry Compare.serving_v2).
Proof.
  assert (P : Permutation [Swap.entry 1 "Archived"; Swap.entry 2 "Production"]
                          [Swap.entry 2 "Production"; Swap.entry 1 "Archived"])
    by apply perm_swap.
  split; [exact P|].
  apply (compare_models_listing_order Compare.registry Reordered.registry
           Compare.serving_v2 _ _ eq_refl eq_refl P).
  - cbn. apply NoDup_cons_2; [|apply NoDup_singleton].
    intros H. apply list_elem_of_singleton in H. discriminate H.
  - intros rid. reflexivity.
Defined.

(** ** What holds under every interleaving *)

Lemma predict_step_globals x t s :
  globals (snd (predict_step x t s)) = globals s.
Proof.
  destruct t as [request|request|p|p|r]; cbn.
  - destruct (model (globals s)); reflexivity.
  - destruct (model (globals s)) as [a|]; [|reflexivity].
    destruct (a request); reflexivity.
  - reflexivity.
  - destruct (model_version (globals s)); reflexivity.
  - reflexivity.
Qed.

Lemma reload_step_ready x t s :
  ready (globals s) -> ready (globals (snd (reload_step x t s))).
Proof.
  intros [Hm Hv]. unfold ready.
  destruct t as [|latest|m latest|latest|latest|latest|]; cbn.
  - destruct (uri_is_http _); cbn; [|tauto].
    destruct (md_version _); [|tauto].
    destruct (get_latest_versions x) as [[|latest rest]|e]; cbn; try tauto.
    destruct (String.eqb _ _); cbn; tauto.
  - destruct (pyfunc_load_model x); cbn; tauto.
  - tauto.
  - tauto.
  - tauto.
  - tauto.
  - tauto.
Qed.

Lemma predict_step_no_503 x t s :
  ready (globals s) -> ~ answered_503 t -> ~ answered_503 (fst (predict_step x t s)).
Proof.
  intros [Hm Hv] Hn [detail E].
  destruct t as [request|request|p|p|r]; cbn in E.
  - destruct (model (globals s)); [discriminate E|discriminate Hm].
  - destruct (model (globals s)) as [a|]; [|discriminate Hm].
    destruct (a request); discriminate E.
  - discriminate E.
  - destruct (model_version (globals s)); discriminate E.
  - apply Hn. exists detail. exact E.
Qed.

Lemma step_ready x who c :
  ready (globals (cfg_state c)) -> ready (globals (cfg_state (step x who c))).
Proof.
  intros H. destruct who as [i|]; cbn.
  - destruct (cfg_handlers c !! i) as [t|]; [|exact H].
    pose proof (predict_step_globals x t (cfg_state c)) as E.
    destruct (predict_step x t (cfg_state c)) as [t' s']. cbn in *. rewrite E. exact H.
  - pose proof (reload_step_ready x (cfg_reloader c) (cfg_state c) H) as E.
    destruct (reload_step x (cfg_reloader c) (cfg_state c)) as [t' s']. exact E.
Qed.

Lemma step_no_503 x who c :
  ready (globals (cfg_state c)) ->
  Forall (fun t => ~ answered_503 t) (cfg_handlers c) ->
  Forall (fun t => ~ answered_503 t) (cfg_handlers (step x who c)).
Proof.
  intros Hr Hall. destruct who as [i|]; cbn.
  - destruct (cfg_handlers c !! i) as [t|] eqn:Ht; [|exact Hall].
    pose proof (predict_step_no_503 x t (cfg_state c) Hr) as E.
    destruct (predict_step x t (cfg_state c)) as [t' s']. cbn in *.
    apply Forall_insert; [exact Hall|]. apply E.
    rewrite Forall_lookup in Hall. exact (Hall i t Ht).
  - destruct (reload_step x (cfg_reloader c) (cfg_state c)) as [t' s']. exact Hall.
Qed.

(** X21. However the steps of the request handlers and of the reload thread
    interleave, a process that has a model and a tag keeps having one, and
    no request that had not already been turned away is answered 503: a
    swap in progress is never seen as "model not loaded". *)
Theorem swap_never_shows_unloaded (x : Ext) (schedule : list Tid) (c : Config) :
  ready (globals (cfg_state c)) ->
  Forall (fun t => ~ answered_503 t) (cfg_handlers c) ->
  ready (globals (cfg_state (run x schedule c)))
  /\ Forall (fun t => ~ answered_503 t) (cfg_handlers (run x schedule c)).
Proof.
  revert c. induction schedule as [|who rest IH]; intros c Hr Hall; cbn.
  - split; assumption.
  - apply IH; [apply step_ready, Hr|apply step_no_503; assumption].
Qed.

Lemma swap_never_shows_unloaded_witness :
  ready (globals (cfg_state Swap.start))
  /\ ready (globals (cfg_state (run Swap.registry Swap.schedule Swap.start))).
Proof.
  assert (Hr : ready (globals (cfg_state Swap.start))) by (split; reflexivity).
  split; [exact Hr|].
  apply (swap_never_shows_unloaded Swap.registry Swap.schedule Swap.start Hr).
  repeat constructor. intros [detail E]. discriminate E.
Defined.

Lemma from_seen_mono (seen seen' : Globals -> Prop) request t :
  (forall g, seen g -> seen' g) ->
  from_seen seen request t -> from_seen seen' request t.
Proof.
  intros Hsub. destruct t as [r|r|p|p|[r|code detail]]; cbn; try tauto.
  - intros (g & a & Hg & H). exists g, a. split; [apply Hsub, Hg|exact H].
  - intros (g & a & Hg & H). exists g, a. split; [apply Hsub, Hg|exact H].
  - intros [(g & a & Hg & H) (g' & Hg' & H')]. split.
    + exists g, a. split; [apply Hsub, Hg|exact H].
    + exists g'. split; [apply Hsub, Hg'|exact H'].
Qed.

Lemma predict_step_from_seen x (seen : Globals -> Prop) request t s :
  seen (globals s) ->
  from_seen seen request t ->
  from_seen seen request (fst (predict_step x t s)).
Proof.
  intros Hs H. destruct t as [r|r|p|p|r]; cbn in *.
  - destruct (model (globals s)); cbn; [exact H|exact I].
  - subst r. destruct (model (globals s)) as [a|] eqn:Hm; cbn; [|exact I].
    destruct (a request) as [p|e] eqn:Ha; cbn; [|exact I].
    exists (globals s), a. repeat split; assumption.
  - exact H.
  - destruct (model_version (globals s)) as [tag|] eqn:Hv; cbn; [|exact I].
    split; [exact H|]. exists (globals s). split; assumption.
  - exact H.
Qed.

Lemma run_from_seen x requests schedule : forall c (past : list Globals),
  handlers_from_seen (fun g => g ∈ (past ++ [globals (cfg_state c)])%list)
    requests (cfg_handlers c) ->
  handlers_from_seen (fun g => g ∈ (past ++ history x schedule c)%list)
    requests (cfg_handlers (run x schedule c)).
Proof.
  induction schedule as [|who rest IH]; intros c past H; cbn; [exact H|].
  replace (past ++ globals (cfg_state c) :: history x rest (step x who c))%list
    with ((past ++ [globals (cfg_state c)]) ++ history x rest (step x who c))%list
    by (rewrite <- app_assoc; reflexivity).
  apply IH. intros i t Ht.
  assert (Hmono : forall request t0,
             from_seen (fun g => g ∈ (past ++ [globals (cfg_state c)])%list) request t0 ->
             from_seen (fun g => g ∈ ((past ++ [globals (cfg_state c)])
                                      ++ [globals (cfg_state (step x who c))])%list)
               request t0).
  { intros request t0. apply from_seen_mono. intros g Hg.
    apply elem_of_app. left. exact Hg. }
  destruct who as [j|]; cbn in Ht.
  - destruct (cfg_handlers c !! j) as [tj|] eqn:Hj.
    + pose proof (predict_step_from_seen x
                    (fun g => g ∈ (past ++ [globals (cfg_state c)])%list)) as Hstep.
      destruct (predict_step x tj (cfg_state c)) as [t' s'] eqn:E. cbn in Ht.
      destruct (decide (i = j)) as [->|Hne].
      * rewrite list_lookup_insert_eq in Ht by (apply lookup_lt_Some in Hj; exact Hj).
        injection Ht as <-. destruct (H j tj Hj) as (request & Hreq & Hinv).
        exists request. split; [exact Hreq|]. apply Hmono.
        specialize (Hstep request tj (cfg_state c)). rewrite E in Hstep.
        apply Hstep; [|exact Hinv]. apply elem_of_app. right. left.
      * rewrite list_lookup_insert_ne in Ht by congruence.
        destruct (H i t Ht) as (request & Hreq & Hinv).
        exists request. split; [exact Hreq|apply Hmono, Hinv].
    + destruct (H i t Ht) as (request & Hreq & Hinv).
      exists request. split; [exact Hreq|apply Hmono, Hinv].
  - destruct (reload_step x (cfg_reloader c) (cfg_state c)) as [t' s']. cbn in Ht.
    destruct (H i t Ht) as (request & Hreq & Hinv).
    exists request. split; [exact Hreq|apply Hmono, Hinv].
Qed.

(** X22. However the steps interleave, a 200 answer to a request that started
    within the run carries a value that an artifact held by the global
    model at some moment of the run returns on that request, and a tag
    that the global model_version held at some moment of the run; the two
    moments need not be the same. *)
Theorem answer_parts_come_from_the_globals
    (x : Ext) (schedule : list Tid) (c : Config)
    (requests : list PredictionRequest) (i : nat) (r : PredictionResponse) :
  cfg_handlers c = PT_check <$> requests ->
  cfg_handlers (run x schedule c) !! i = Some (PT_done (OK200 r)) ->
  exists request,
    requests !! i = Some request
    /\ (exists g a, g ∈ history x schedule c /\ model g = Some a
                    /\ a request = Returned (prediction r))
    /\ (exists g, g ∈ history x schedule c
                  /\ model_version g = Some (pr_model_version r)).
Proof.
  intros Hc Hi.
  assert (H0 : handlers_from_seen (fun g => g ∈ ([] ++ [globals (cfg_state c)])%list)
                 requests (cfg_handlers c)).
  { intros j t Hj. rewrite Hc, list_lookup_fmap in Hj.
    destruct (requests !! j) as [request|]; [|discriminate Hj].
    injection Hj as <-. exists request. split; reflexivity. }
  destruct (run_from_seen x requests schedule c [] H0 i _ Hi)
    as (request & Hreq & Hinv).
  exists request. split; [exact Hreq|exact Hinv].
Qed.

Lemma answer_parts_come_from_the_globals_witness :
  cfg_handlers Swap.start = PT_check <$> [Swap.request]
  /\ exists r request,
       cfg_handlers (run Swap.registry Swap.schedule Swap.start) !! 0%nat
       = Some (PT_done (OK200 r))
       /\ [Swap.request] !! 0%nat = Some request.
Proof.
  assert (Hc : cfg_handlers Swap.start = PT_check <$> [Swap.request]) by reflexivity.
  assert (Hr : exists r,
             cfg_handlers (run Swap.registry Swap.schedule Swap.start) !! 0%nat
             = Some (PT_done (OK200 r))) by (eexists; vm_compute; reflexivity).
  destruct Hr as [r Hr]. split; [exact Hc|].
  destruct (answer_parts_come_from_the_globals Swap.registry Swap.schedule
              Swap.start [Swap.request] 0%nat r Hc Hr) as (request & Hreq & _).
  exists r, request. split; [exact Hr|exact Hreq].
Defined.

(** ** The dashboard on top of the backend *)






(** X24. In front of a backend that started from the local file the dashboard
    shows the status "Unknown" and "N/A" on all three metric cards,
    whatever /model/compare answers. *)
Theorem dashboard_after_local_startup
    (x x' : Ext) (interval : Z) (s : State) (a : Artifact)
    (comparison : option (HTTP Comparison)) :
  registry_unreachable x ->
  local_model_file x = Some (Returned a) ->
  let info := Some (snd (get_model_info x' interval (fst (load_model x s)))) in
  dashboard_status (dashboard_model_source info) = "Unknown"
  /\ dashboard_cards info comparison = (CardNA, CardNA, CardNA).
Proof.
  intros Hr Hf info.
  destruct (load_model_falls_back x s a Hr Hf) as [_ Hg].
  destruct (model_info_local x x' interval s a Hr Hf)
    as (body & Hb & Hp & _).
  destruct (get_model_info_loaded x' interval (fst (load_model x s)))
    as (body' & Hb' & _ & _ & Hmd & _); [rewrite Hg; reflexivity|].
  rewrite Hb in Hb'. injection Hb' as <-.
  subst info. rewrite Hb. split.
  - cbn [dashboard_model_source]. rewrite Hmd, Hg. reflexivity.
  - unfold dashboard_cards, dashboard_values. rewrite Hp. cbn.
    destruct (dashboard_deltas comparison) as [[[d1|] [d2|]] [d3|]]; reflexivity.
Qed.

Lemma dashboard_after_local_startup_witness :
  registry_unreachable Outage.registry_with_local_file
  /\ dashboard_cards
       (Some (snd (get_model_info Compare.registry 30
                     (fst (load_model Outage.registry_with_local_file
                             initial_state)))))
       (Some (snd (compare_models Compare.registry
                     (fst (load_model Outage.registry_with_local_file
                             initial_state)))))
     = (CardNA, CardNA, CardNA).
Proof.
  assert (Hr : registry_unreachable Outage.registry_with_local_file).
  { split; [reflexivity|]. left. eexists. reflexivity. }
  split; [exact Hr|].
  apply (dashboard_after_local_startup Outage.registry_with_local_file
           Compare.registry 30 initial_state Swap.artifact_v1 _ Hr eq_refl).
Defined.
